(** * Stock Analysis Dashboard (app.py): a shallow embedding and its properties

    The dashboard is a single Streamlit script.  Its functions are embedded
    here one by one, under their own names:

    - [Py]      the part of the Python runtime the script relies on: exceptions,
                scalar values, the format specs [,.0f], [.2f] and [,];
    - [Pandas]  data frames as far as the script inspects them ([empty],
                [index], [columns], [loc], column selection);
    - [Plotly]  figures as the list of traces placed in a subplot grid;
    - [St]      the Streamlit calls as a log of emitted elements, with Python
                exceptions threaded through;
    - [App]     the functions of app.py.

    The two [on_change] callbacks run between two runs of the page and write
    the selection back to the URL: they are embedded as changes of the world
    that the next run reads.

    The decorator [@st.cache_data] of the listing is embedded as
    [cache_data]: a run that finds the listing in the cache sends no request.

    Left out: the page configuration and the style sheet at the top of the
    script, which only dress the page; and the decorators [@st.cache_data]
    of the two fetches, which are memoisation only (every fetch below is
    run, not replayed). *)

From Stdlib Require Import ZArith String Ascii List Bool Lia DecimalString.
From Stdlib Require Import Floats.SpecFloat.
From Stdlib Require DecimalPos.
From stdpp Require Import base option list strings gmap.

Local Open Scope string_scope.
Local Open Scope Z_scope.

(* ===================================================================== *)
(** ** Python runtime                                                     *)
(* ===================================================================== *)

Module Py.

(** Exception classes that can occur in the script.  [KeyboardInterrupt] and
    [SystemExit] derive from [BaseException] only: [except Exception] lets
    them through, a bare [except:] does not. *)
Inductive exn_class :=
| KeyboardInterrupt
| SystemExit
| ValueError
| TypeError
| KeyError
| AttributeError
| OverflowError
| OtherError (name : string).

Record exn := Exn { exn_cls : exn_class; exn_str : string }.

Definition is_Exception (e : exn) : bool :=
  match exn_cls e with
  | KeyboardInterrupt | SystemExit => false
  | _ => true
  end.

(** Result of evaluating a Python expression. *)
Inductive outcome (A : Type) :=
| Ok (a : A)
| Raise (e : exn).
Arguments Ok {A} a.
Arguments Raise {A} e.

Definition obind {A B} (o : outcome A) (k : A -> outcome B) : outcome B :=
  match o with
  | Ok a => k a
  | Raise e => Raise e
  end.

#[export] Instance outcome_ret : MRet outcome := @Ok.
#[export] Instance outcome_bind : MBind outcome := fun A B k o => obind o k.

(** Values that occur in the metadata mapping [stock.info].  A float is an
    IEEE-754 binary64 number ([prec = 53], [emax = 1024]).  [PyObj] stands for
    an object of any other type (a list, a dict): it has a [str()] and a truth
    value, no arithmetic and only [object.__format__]. *)
Inductive pyval :=
| PyNone
| PyBool (b : bool)
| PyInt (z : Z)
| PyFloat (f : spec_float)
| PyStr (s : string)
| PyObj (str : string) (truth : bool).

Definition prec : Z := 53.
Definition emax : Z := 1024.

(** [repr] of a float (the shortest decimal string that reads back as the
    same float) belongs to the interpreter; the script only passes it on. *)
Class Runtime := { float_repr : spec_float -> string }.

(** [type(v).__name__] *)
Definition type_name (v : pyval) : string :=
  match v with
  | PyNone => "NoneType"
  | PyBool _ => "bool"
  | PyInt _ => "int"
  | PyFloat _ => "float"
  | PyStr _ => "str"
  | PyObj _ _ => "object"
  end.

(** [v != s] for a string literal [s]: only an equal string compares equal. *)
Definition ne_str (v : pyval) (s : string) : bool :=
  match v with
  | PyStr t => negb (String.eqb t s)
  | _ => true
  end.

(** [bool(v)] *)
Definition truthy (v : pyval) : bool :=
  match v with
  | PyNone => false
  | PyBool b => b
  | PyInt z => negb (z =? 0)
  | PyFloat (S754_zero _) => false
  | PyFloat _ => true
  | PyStr s => negb (String.eqb s "")
  | PyObj _ t => t
  end.

(** *** Decimal rendering *)

Definition dec (n : N) : string := NilZero.string_of_uint (N.to_uint n).

Definition sign_str (neg : bool) : string := if neg then "-" else "".

Definition int_str (z : Z) : string := sign_str (z <? 0) +:+ dec (Z.abs_N z).

(** Thousands separators: [l] holds the digits, least significant first, and
    [k] counts the digits already put in the current group. *)
Fixpoint group3_rev (l : list ascii) (k : nat) : list ascii :=
  match l with
  | [] => []
  | d :: r =>
      match r with
      | [] => [d]
      | _ => if (k =? 2)%nat then d :: ","%char :: group3_rev r 0
             else d :: group3_rev r (S k)
      end
  end.

Definition group3 (digits : string) : string :=
  string_of_list_ascii (rev (group3_rev (rev (list_ascii_of_string digits)) 0)).

(** Round [num / den] to the nearest integer, ties to even ([0 < den]). *)
Definition round_half_even (num den : Z) : Z :=
  let q := num / den in
  match (2 * (num mod den)) ?= den with
  | Lt => q
  | Gt => q + 1
  | Eq => if Z.even q then q else q + 1
  end.

(** [round (m * 2^e * 10^digits)]: the digits of [m * 2^e] in fixed-point
    notation, correctly rounded as CPython does. *)
Definition scaled (digits : nat) (m : positive) (e : Z) : N :=
  let num := Zpos m * 10 ^ Z.of_nat digits in
  Z.to_N (if 0 <=? e then num * 2 ^ e else round_half_even num (2 ^ (- e))).

Fixpoint zeros (n : nat) : string :=
  match n with
  | O => ""
  | S n => String "0"%char (zeros n)
  end.

(** [n] is the value times [10^digits]. *)
Definition fixed_point (comma : bool) (digits : nat) (n : N) : string :=
  let ds := dec n in
  let ds := zeros (S digits - String.length ds) +:+ ds in
  let ilen := (String.length ds - digits)%nat in
  let ip := substring 0 ilen ds in
  let fp := substring ilen digits ds in
  (if comma then group3 ip else ip) +:+
  (if (digits =? 0)%nat then "" else "." +:+ fp).

(** [format(f, ".<digits>f")] and [format(f, ",.<digits>f")] for a float. *)
Definition float_fixed (comma : bool) (digits : nat) (f : spec_float) : string :=
  match f with
  | S754_nan => "nan"
  | S754_infinity s => sign_str s +:+ "inf"
  | S754_zero s => sign_str s +:+ fixed_point comma digits 0
  | S754_finite s m e => sign_str s +:+ fixed_point comma digits (scaled digits m e)
  end.

(** [float(z)] for an int: the nearest binary64 number, ties to even;
    [OverflowError] when that would not be finite. *)
Definition float_of_int (z : Z) : outcome spec_float :=
  if z =? 0 then Ok (S754_zero false)
  else
    let a := Z.abs z in
    let nbits := Z.log2 a + 1 in
    if nbits <=? prec then Ok (S754_finite (z <? 0) (Z.to_pos a) 0)
    else
      let sh := nbits - prec in
      let m := round_half_even a (2 ^ sh) in
      let carry := m =? 2 ^ prec in
      let m' := if carry then 2 ^ (prec - 1) else m in
      let sh' := if carry then sh + 1 else sh in
      if emax <? sh' + prec
      then Raise (Exn OverflowError "int too large to convert to float")
      else Ok (S754_finite (z <? 0) (Z.to_pos m') sh').

Definition unsupported_format (v : pyval) : exn :=
  Exn TypeError
      ("unsupported format string passed to " +:+ type_name v +:+ ".__format__").

(** [format(v, ".<digits>f")] / [format(v, ",.<digits>f")] *)
Definition format_f (comma : bool) (digits : nat) (v : pyval) : outcome string :=
  match v with
  | PyFloat f => Ok (float_fixed comma digits f)
  | PyInt z => obind (float_of_int z) (fun f => Ok (float_fixed comma digits f))
  | PyBool b => Ok (float_fixed comma digits
                      (if b then S754_finite false 1 0 else S754_zero false))
  | PyStr _ => Raise (Exn ValueError
                        "Unknown format code 'f' for object of type 'str'")
  | PyNone | PyObj _ _ => Raise (unsupported_format v)
  end.

(** The digits before the point of a float [repr] get the separators; what
    follows them (fraction, exponent, [inf], [nan]) is kept. *)
Fixpoint span_digits (s : string) : string * string :=
  match s with
  | EmptyString => ("", "")
  | String c r =>
      if (("0" <=? c)%char && (c <=? "9")%char)%bool
      then let '(d, rest) := span_digits r in (String c d, rest)
      else ("", s)
  end.

Definition group_repr (r : string) : string :=
  match r with
  | String "-"%char r' =>
      let '(d, rest) := span_digits r' in "-" +:+ group3 d +:+ rest
  | _ => let '(d, rest) := span_digits r in group3 d +:+ rest
  end.

Section WithRuntime.
Context `{!Runtime}.

(** [str(v)], which is also [format(v, "")] in an f-string field. *)
Definition str (v : pyval) : string :=
  match v with
  | PyNone => "None"
  | PyBool b => if b then "True" else "False"
  | PyInt z => int_str z
  | PyFloat f => float_repr f
  | PyStr s => s
  | PyObj s _ => s
  end.

(** [format(v, ",")] *)
Definition format_comma (v : pyval) : outcome string :=
  match v with
  | PyInt z => Ok (sign_str (z <? 0) +:+ group3 (dec (Z.abs_N z)))
  | PyBool b => Ok (if b then "1" else "0")
  | PyFloat f => Ok (group_repr (float_repr f))
  | PyStr _ => Raise (Exn ValueError "Cannot specify ',' with 's'.")
  | PyNone | PyObj _ _ => Raise (unsupported_format v)
  end.

End WithRuntime.

Fixpoint repeat_str (s : string) (n : nat) : string :=
  match n with
  | O => ""
  | S n => s +:+ repeat_str s n
  end.

(** [v * 100] *)
Definition mul100 (v : pyval) : outcome pyval :=
  match v with
  | PyInt z => Ok (PyInt (z * 100))
  | PyBool b => Ok (PyInt (if b then 100 else 0))
  | PyFloat f => Ok (PyFloat (SFmul prec emax f (S754_finite false 25 2)))
  | PyStr s => Ok (PyStr (repeat_str s 100))
  | PyNone | PyObj _ _ =>
      Raise (Exn TypeError
               ("unsupported operand type(s) for *: '" +:+ type_name v +:+ "' and 'int'"))
  end.

End Py.

Import Py.

(* ===================================================================== *)
(** ** pandas                                                             *)
(* ===================================================================== *)

Module Pandas.

(** A data frame: row labels, column labels and one list of cells per row.
    Statement tables hold [pyval] cells; the table scraped from the listing
    page holds text. *)
Record Frame (C : Type) := {
  index : list string;
  columns : list string;
  values : list (list C)
}.
Arguments index {C} _.
Arguments columns {C} _.
Arguments values {C} _.

Abbreviation DataFrame := (Frame pyval).

(** [pd.DataFrame()] *)
Definition empty_frame {C} : Frame C :=
  {| index := []; columns := []; values := [] |}.

(** [df.empty]: some axis has length 0. *)
Definition empty {C} (df : Frame C) : bool :=
  (length (index df) =? 0)%nat || (length (columns df) =? 0)%nat.

(** [.values] of a selection: one or two dimensions. *)
Inductive ndarray (C : Type) :=
| Arr1 (cells : list C)
| Arr2 (rows : list (list C)).
Arguments Arr1 {C} cells.
Arguments Arr2 {C} rows.

(** What [df.loc[label]] and [df[label]] yield: a Series when the label is
    unique, a frame when it is repeated. *)
Inductive Selected (C : Type) :=
| Series (idx : list string) (cells : list C)
| SubFrame (f : Frame C).
Arguments Series {C} idx cells.
Arguments SubFrame {C} f.

Definition sel_index {C} (s : Selected C) : list string :=
  match s with
  | Series idx _ => idx
  | SubFrame f => index f
  end.

Definition sel_values {C} (s : Selected C) : ndarray C :=
  match s with
  | Series _ cells => Arr1 cells
  | SubFrame f => Arr2 (values f)
  end.

(** Positions of [label] in a list of labels, counted from [i]. *)
Fixpoint positions (label : string) (labels : list string) (i : nat) : list nat :=
  match labels with
  | [] => []
  | l :: rest =>
      if String.eqb l label then i :: positions label rest (S i)
      else positions label rest (S i)
  end.

Definition key_error {A} (label : string) : outcome A :=
  Raise (Exn KeyError ("'" +:+ label +:+ "'")).

(** [df.loc[label]] *)
Definition loc {C} (df : Frame C) (label : string) : outcome (Selected C) :=
  match positions label (index df) 0 with
  | [] => key_error label
  | [i] => Ok (Series (columns df) (nth i (values df) []))
  | ps => Ok (SubFrame {| index := map (fun _ => label) ps;
                          columns := columns df;
                          values := map (fun i => nth i (values df) []) ps |})
  end.

Definition pick {C} (row : list C) (js : list nat) : list C :=
  omap (fun j => row !! j) js.

(** [df[label]] *)
Definition getitem {C} (df : Frame C) (label : string) : outcome (Selected C) :=
  match positions label (columns df) 0 with
  | [] => key_error label
  | [j] => Ok (Series (index df) (concat (map (fun row => pick row [j]) (values df))))
  | js => Ok (SubFrame {| index := index df;
                          columns := map (fun _ => label) js;
                          values := map (fun row => pick row js) (values df) |})
  end.

(** [s.tolist()]: a Series has it, a frame has not. *)
Definition tolist {C} (s : Selected C) : outcome (list C) :=
  match s with
  | Series _ cells => Ok cells
  | SubFrame _ =>
      Raise (Exn AttributeError "'DataFrame' object has no attribute 'tolist'")
  end.

(** A Python variable that holds a frame or [None], and its attributes. *)
Definition no_attribute {A} (attr : string) : outcome A :=
  Raise (Exn AttributeError
           ("'NoneType' object has no attribute '" +:+ attr +:+ "'")).

Definition attr_empty {C} (o : option (Frame C)) : outcome bool :=
  match o with
  | Some df => Ok (empty df)
  | None => no_attribute "empty"
  end.

Definition attr_index {C} (o : option (Frame C)) : outcome (list string) :=
  match o with
  | Some df => Ok (index df)
  | None => no_attribute "index"
  end.

Definition attr_columns {C} (o : option (Frame C)) : outcome (list string) :=
  match o with
  | Some df => Ok (columns df)
  | None => no_attribute "columns"
  end.

Definition attr_loc {C} (o : option (Frame C)) (label : string)
  : outcome (Selected C) :=
  match o with
  | Some df => loc df label
  | None => no_attribute "loc"
  end.

End Pandas.

Import Pandas.

(* ===================================================================== *)
(** ** plotly                                                             *)
(* ===================================================================== *)

Module Plotly.

(** Array arguments are kept as the cells plotly reads from them. *)
Inductive Trace :=
| Candlestick (x : list string) (open high low close : ndarray pyval)
              (name : string)
| Bar (x : list string) (y : ndarray pyval) (name : string)
      (marker_color : option string).

(** [make_subplots(...)]: the grid and its options. *)
Record Subplots := {
  rows : nat;
  cols : nat;
  shared_xaxes : bool;
  vertical_spacing : option spec_float;
  subplot_titles : list string;
  row_width : list spec_float
}.

(** A figure: the grid, the traces in the order they were added, each with
    the cell [(row, col)] it was added to, and the layout properties. *)
Record Figure := {
  grid : Subplots;
  data : list (Trace * (nat * nat));
  layout : list (string * pyval)
}.

Definition make_subplots (g : Subplots) : Figure :=
  {| grid := g; data := []; layout := [] |}.

(** [fig.add_trace(t, row=r, col=c)] *)
Definition add_trace (fig : Figure) (t : Trace) (r c : nat) : Figure :=
  {| grid := grid fig; data := (data fig ++ [(t, (r, c))])%list; layout := layout fig |}.

(** [fig.update_layout] with keyword arguments [props] *)
Definition update_layout (fig : Figure) (props : list (string * pyval)) : Figure :=
  {| grid := grid fig; data := data fig; layout := (layout fig ++ props)%list |}.

(** The traces placed in cell [(r, c)]. *)
Definition cell (fig : Figure) (r c : nat) : list Trace :=
  map fst (filter (fun tc => bool_decide (snd tc = (r, c))) (data fig)).

(** A decimal literal [num / den] of the source, as the nearest float. *)
Definition lit (num den : positive) : spec_float :=
  SFdiv prec emax (S754_finite false num 0) (S754_finite false den 0).

Definition newline : string := String (ascii_of_nat 10) EmptyString.

(** What refuses a frame whose [n] columns all carry [label]: narwhals'
    [DuplicateError], which is a [ValueError]. *)
Definition duplicate_error (label : string) (n : nat) : exn :=
  Exn ValueError
      ("Expected unique column names, got:" +:+ newline +:+ "- '" +:+ label +:+ "' "
       +:+ dec (N.of_nat n) +:+ " times").

(** An array property of a trace that is given a pandas selection itself,
    not its [.values]: a Series is taken as its cells; a frame, which is
    what selecting a repeated label gives, is refused when the trace is
    built. *)
Definition data_array {C} (s : Selected C) : outcome (ndarray C) :=
  match s with
  | Series _ cells => Ok (Arr1 cells)
  | SubFrame f => Raise (duplicate_error (hd EmptyString (columns f)) (length (columns f)))
  end.

End Plotly.

Import Plotly.

(* ===================================================================== *)
(** ** Streamlit                                                          *)
(* ===================================================================== *)

Module St.

Inductive container :=
| Sidebar
| Column (i : nat)
| Spinner (text : string).

(** What a run leaves behind, in order: the elements put on the page and,
    for the ticker listing, the request sent to the remote source. *)
Inductive entry :=
| Markdown (body : string)
| Header (text : string)
| Subheader (text : string)
| Write (text : string)
| WriteValue (v : pyval)
| Metric (label : string) (value : pyval)
| Dataframe (df : DataFrame)
| PlotlyChart (fig : Figure)
| Warning (text : string)
| Error (text : string)
| Info (text : string)
| Selectbox (label : string) (options : list string) (idx : nat) (key : string)
| Button (label : string)
| Within (c : container) (e : entry)
| Download (url : string).

(** The only entry that is not an element on the page. *)
Fixpoint visible (e : entry) : bool :=
  match e with
  | Download _ => false
  | Within _ e => visible e
  | _ => true
  end.

(** A computation of the script: the entries it leaves, and its value or the
    exception that ended it. *)
Definition M (A : Type) : Type := list entry * outcome A.

Definition ret {A} (a : A) : M A := ([], Ok a).

Definition bind {A B} (m : M A) (k : A -> M B) : M B :=
  match m with
  | (l, Ok a) => let '(l', r) := k a in ((l ++ l')%list, r)
  | (l, Raise e) => (l, Raise e)
  end.

Definition emit (e : entry) : M unit := ([e], Ok tt).

Definition raise {A} (e : exn) : M A := ([], Raise e).

Definition lift {A} (o : outcome A) : M A := ([], o).

(** [try: body / except: handler] *)
Definition try_except {A} (body : M A) (handler : exn -> M A) : M A :=
  match body with
  | (l, Raise e) => let '(l', r) := handler e in ((l ++ l')%list, r)
  | done => done
  end.

(** [try: body / except Exception as e: handler e] *)
Definition try_except_Exception {A} (body : M A) (handler : exn -> M A) : M A :=
  match body with
  | (l, Raise e) =>
      if is_Exception e then let '(l', r) := handler e in ((l ++ l')%list, r)
      else (l, Raise e)
  | done => done
  end.

(** [with c: body] *)
Definition within {A} (c : container) (body : M A) : M A :=
  (map (Within c) (fst body), snd body).

#[export] Instance M_ret : MRet M := @ret.
#[export] Instance M_bind : MBind M := fun A B k m => bind m k.

Definition log {A} (m : M A) : list entry := fst m.

(** An entry without the containers around it. *)
Fixpoint leaf (e : entry) : entry :=
  match e with
  | Within _ e => leaf e
  | _ => e
  end.

Definition result {A} (m : M A) : outcome A := snd m.

End St.

Import St.

(* ===================================================================== *)
(** ** yfinance and the rest of the outside world                         *)
(* ===================================================================== *)

Module Yf.

(** The object [yf.Ticker(symbol)]: what each attribute access or call
    yields.  A statement attribute yields a frame or [None], or raises. *)
Record Ticker := {
  history : string -> string -> outcome (option DataFrame);
  financials : outcome (option DataFrame);
  quarterly_financials : outcome (option DataFrame);
  income_stmt : outcome (option DataFrame);
  quarterly_income_stmt : outcome (option DataFrame);
  balance_sheet : outcome (option DataFrame);
  quarterly_balance_sheet : outcome (option DataFrame);
  cashflow : outcome (option DataFrame);
  quarterly_cashflow : outcome (option DataFrame);
  actions : outcome (option DataFrame);
  info : outcome (gmap string pyval)
}.

End Yf.

(** Everything the script reads from outside itself. *)
Record World := {
  (** [pd.read_html(url, header=0)] *)
  read_html : string -> outcome (list (Frame string));
  (** [yf.Ticker(symbol)] *)
  Ticker : string -> outcome Yf.Ticker;
  (** [st.query_params], or the exception raised on reaching it *)
  query_params : outcome (gmap string string);
  (** widget values kept by the session, by widget key; empty on first load *)
  session_state : gmap string string;
  (** whether [st.dataframe(df)] renders or raises *)
  st_dataframe : DataFrame -> outcome unit
}.

(* ===================================================================== *)
(** ** app.py                                                             *)
(* ===================================================================== *)

Module App.

(** Icons, byte for byte as the source file has them. *)
Definition bytes (codes : list nat) : string :=
  string_of_list_ascii (map ascii_of_nat codes).

Definition icon_chart : string := bytes [239; 163; 191; 195; 188; 195; 172; 195; 160]%nat.
Definition icon_calendar : string := bytes [239; 163; 191; 195; 188; 195; 172; 195; 150]%nat.
Definition icon_bars : string := bytes [239; 163; 191; 195; 188; 195; 172; 195; 164]%nat.
Definition icon_money : string := bytes [239; 163; 191; 195; 188; 195; 173; 226; 136; 158]%nat.
Definition icon_scales : string := bytes [226; 128; 154; 195; 182; 195; 177; 195; 148; 226; 136; 143; 195; 168]%nat.
Definition icon_dollar : string := bytes [239; 163; 191; 195; 188; 195; 173; 194; 181]%nat.
Definition icon_search : string := bytes [239; 163; 191; 195; 188; 195; 174; 195; 167]%nat.
Definition icon_office : string := bytes [239; 163; 191; 195; 188; 195; 168; 194; 162]%nat.
Definition icon_clipboard : string := bytes [239; 163; 191; 195; 188; 195; 172; 195; 163]%nat.

Definition dq : string := bytes [34%nat].

(** [<tag class="cls">body</tag>] *)
Definition html (tag cls body : string) : string :=
  "<" +:+ tag +:+ " class=" +:+ dq +:+ cls +:+ dq +:+ ">" +:+ body +:+
  "</" +:+ tag +:+ ">".

Definition section_header (title : string) : entry :=
  Markdown (html "div" "section-header" title).

(** *** Ticker universe *)

Definition wikipedia_url : string :=
  "https://en.wikipedia.org/wiki/List_of_S%26P_500_companies".

Definition fallback_tickers : list string :=
  [ "AAPL"; "MSFT"; "AMZN"; "GOOGL"; "GOOG"; "TSLA"; "META"; "NVDA"; "BRK-B"; "UNH";
    "JNJ"; "JPM"; "V"; "PG"; "MA"; "HD"; "CVX"; "ABBV"; "BAC"; "PFE";
    "KO"; "AVGO"; "PEP"; "TMO"; "COST"; "WMT"; "DIS"; "ABT"; "MRK"; "VZ";
    "ADBE"; "NFLX"; "NKE"; "CRM"; "XOM"; "ACN"; "DHR"; "BMY"; "LIN"; "TXN";
    "ORCL"; "WFC"; "NEE"; "QCOM"; "PM"; "RTX"; "UPS"; "SBUX"; "T"; "LOW" ].

(** [tables[0]] *)
Definition first_table {A} (tables : list A) : outcome A :=
  match tables with
  | t :: _ => Ok t
  | [] => Raise (Exn (OtherError "IndexError") "list index out of range")
  end.

Definition get_sp500_tickers (w : World) : M (list string) :=
  try_except
    (emit (Download wikipedia_url);;
     tables ← lift (read_html w wikipedia_url);
     table ← lift (first_table tables);
     symbol ← lift (getitem table "Symbol");
     lift (tolist symbol))
    (fun _ => ret fallback_tickers).

(** *** URL parameters *)

Definition get_query_params (w : World) : M (string * string) :=
  try_except_Exception
    (params ← lift (query_params w);
     let ticker := default "GOOGL" (params !! "ticker") in
     let period := default "1y" (params !! "period") in
     ret (ticker, period))
    (fun _ => ret ("AAPL", "1y")).

(** *** Market data *)

Definition get_stock_data (w : World) (ticker period : string)
  : M (option DataFrame) :=
  try_except_Exception
    (stock ← lift (Ticker w ticker);
     lift (Yf.history stock period "1d"))
    (fun e => emit (Error ("Error fetching data: " +:+ exn_str e));; ret None).

(** The dict that [get_financial_data] returns.  Each statement entry holds
    a Python value: a frame or [None]. *)
Record FinancialData := {
  financials : option DataFrame;
  quarterly_financials : option DataFrame;
  income_stmt : option DataFrame;
  quarterly_income_stmt : option DataFrame;
  balance_sheet : option DataFrame;
  quarterly_balance_sheet : option DataFrame;
  cash_flow : option DataFrame;
  quarterly_cash_flow : option DataFrame;
  actions : option DataFrame;
  info : gmap string pyval
}.

Definition safe_get_data (func : unit -> outcome (option DataFrame))
    (default : option DataFrame) : M (option DataFrame) :=
  try_except
    (data ← lift (func tt);
     ret (match data with Some _ => data | None => default end))
    (fun _ => ret default).

(** [hasattr(stock, 'info')]: only an [AttributeError] means no. *)
Definition hasattr_info (stock : Yf.Ticker) : outcome bool :=
  match Yf.info stock with
  | Ok _ => Ok true
  | Raise e =>
      match exn_cls e with
      | AttributeError => Ok false
      | _ => Raise e
      end
  end.

Definition get_financial_data (w : World) (ticker : string)
  : M (option FinancialData) :=
  try_except_Exception
    (stock ← lift (Ticker w ticker);
     let default : option DataFrame := Some empty_frame in
     v1 ← safe_get_data (fun _ => Yf.financials stock) default;
     v2 ← safe_get_data (fun _ => Yf.quarterly_financials stock) default;
     v3 ← safe_get_data (fun _ => Yf.income_stmt stock) default;
     v4 ← safe_get_data (fun _ => Yf.quarterly_income_stmt stock) default;
     v5 ← safe_get_data (fun _ => Yf.balance_sheet stock) default;
     v6 ← safe_get_data (fun _ => Yf.quarterly_balance_sheet stock) default;
     v7 ← safe_get_data (fun _ => Yf.cashflow stock) default;
     v8 ← safe_get_data (fun _ => Yf.quarterly_cashflow stock) default;
     v9 ← safe_get_data (fun _ => Yf.actions stock) default;
     has ← lift (hasattr_info stock);
     v10 ← (if has : bool then lift (Yf.info stock) else ret (∅ : gmap string pyval));
     ret (Some {| financials := v1; quarterly_financials := v2;
                  income_stmt := v3; quarterly_income_stmt := v4;
                  balance_sheet := v5; quarterly_balance_sheet := v6;
                  cash_flow := v7; quarterly_cash_flow := v8;
                  actions := v9; info := v10 |}))
    (fun e =>
       emit (Error ("Error fetching financial data: " +:+ exn_str e));; ret None).

(** *** Charts *)

Definition plot_stock_price (hist_data : DataFrame) (ticker : string)
  : outcome Figure :=
  let fig := make_subplots
    {| rows := 2; cols := 1; shared_xaxes := true;
       vertical_spacing := Some (lit 3 100);
       subplot_titles := [ticker +:+ " Stock Price"; "Trading Volume"];
       row_width := [lit 2 10; lit 7 10] |} in
  open ← getitem hist_data "Open";
  high ← getitem hist_data "High";
  low ← getitem hist_data "Low";
  close ← getitem hist_data "Close";
  (* [go.Candlestick] reads its properties in alphabetical order *)
  close ← data_array close;
  high ← data_array high;
  low ← data_array low;
  open ← data_array open;
  let fig := add_trace fig
    (Candlestick (index hist_data) open high low close "Stock Price") 1 1 in
  volume ← getitem hist_data "Volume";
  volume ← data_array volume;
  let fig := add_trace fig
    (Bar (index hist_data) volume "Volume" (Some "rgba(158,202,225,0.8)")) 2 1 in
  Ok (update_layout fig
        [("title", PyStr (ticker +:+ " Stock Price and Volume"));
         ("xaxis_rangeslider_visible", PyBool false);
         ("height", PyInt 600)]).

(** [if label in stmt.index: fig.add_trace(go.Bar(...), row, col)] *)
Definition add_line_item (fig : Figure) (stmt : option DataFrame)
    (label name : string) (r c : nat) : outcome Figure :=
  idx ← attr_index stmt;
  if bool_decide (label ∈ idx) then
    item ← attr_loc stmt label;
    Ok (add_trace fig (Bar (sel_index item) (sel_values item) name None) r c)
  else Ok fig.

Definition plot_financial_metrics (financial_data : FinancialData)
    (ticker : string) : outcome (option Figure) :=
  is_empty ← attr_empty (income_stmt financial_data);
  if is_empty : bool then Ok None
  else
    let income := income_stmt financial_data in
    let fig := make_subplots
      {| rows := 2; cols := 2; shared_xaxes := false;
         vertical_spacing := None;
         subplot_titles := ["Annual Revenue Trend"; "Net Income Trend";
                            "Quarterly Revenue"; "Quarterly Net Income"];
         row_width := [] |} in
    fig ← add_line_item fig income "Total Revenue" "Annual Revenue" 1 1;
    fig ← add_line_item fig income "Net Income" "Annual Net Income" 1 2;
    let quarterly_income := quarterly_income_stmt financial_data in
    quarterly_empty ← attr_empty quarterly_income;
    fig ← (if negb quarterly_empty then
             fig ← add_line_item fig quarterly_income
                     "Total Revenue" "Quarterly Revenue" 2 1;
             add_line_item fig quarterly_income
               "Net Income" "Quarterly Net Income" 2 2
           else Ok fig);
    Ok (Some (update_layout fig
                [("height", PyInt 600);
                 ("title_text", PyStr (ticker +:+ " Financial Performance"))])).

(** *** Key metrics *)

(** [d.get(key, dflt)] *)
Definition dict_get (d : gmap string pyval) (key : string) (dflt : pyval) : pyval :=
  default dflt (d !! key).

(** The statement [if v != 'N/A': v = f(v)], where [f] is an f-string. *)
Definition unless_na (v : pyval) (f : pyval -> outcome string) : M pyval :=
  if ne_str v "N/A" then s ← lift (f v); ret (PyStr s) else ret v.

Definition prefixed (pre : string) (o : outcome string) : outcome string :=
  s ← o; Ok (pre +:+ s).

Section WithRuntime.
Context `{!Runtime}.

(** The eight blocks of [display_key_metrics], one per metric. *)

Definition market_cap_metric (info : gmap string pyval) : M unit :=
  let market_cap := dict_get info "marketCap" (PyStr "N/A") in
  market_cap ← unless_na market_cap (fun v => prefixed "$" (format_f true 0 v));
  emit (Metric "Market Cap" market_cap).

Definition pe_ratio_metric (info : gmap string pyval) : M unit :=
  let pe_ratio := dict_get info "trailingPE" (PyStr "N/A") in
  pe_ratio ← unless_na pe_ratio (format_f false 2);
  emit (Metric "P/E Ratio" pe_ratio).

Definition current_price_metric (info : gmap string pyval) : M unit :=
  let current_price :=
    dict_get info "currentPrice" (dict_get info "regularMarketPrice" (PyStr "N/A")) in
  current_price ← unless_na current_price (fun v => prefixed "$" (format_f false 2 v));
  emit (Metric "Current Price" current_price).

Definition dividend_yield_metric (info : gmap string pyval) : M unit :=
  let dividend_yield := dict_get info "dividendYield" (PyStr "N/A") in
  dividend_yield ← unless_na dividend_yield
    (fun v => v100 ← mul100 v; s ← format_f false 2 v100; Ok (s +:+ "%"));
  emit (Metric "Dividend Yield" dividend_yield).

Definition day_range_metric (info : gmap string pyval) : M unit :=
  let day_high := dict_get info "dayHigh" (PyStr "N/A") in
  let day_low := dict_get info "dayLow" (PyStr "N/A") in
  day_range ←
    (if ne_str day_high "N/A" && ne_str day_low "N/A" then
       low ← lift (format_f false 2 day_low);
       high ← lift (format_f false 2 day_high);
       ret (PyStr ("$" +:+ low +:+ " - $" +:+ high))
     else ret (PyStr "N/A"));
  emit (Metric "Day Range" day_range).

Definition book_value_metric (info : gmap string pyval) : M unit :=
  let book_value := dict_get info "bookValue" (PyStr "N/A") in
  book_value ← unless_na book_value (fun v => prefixed "$" (format_f false 2 v));
  emit (Metric "Book Value" book_value).

Definition volume_metric (info : gmap string pyval) : M unit :=
  let volume := dict_get info "volume" (PyStr "N/A") in
  volume ← unless_na volume format_comma;
  emit (Metric "Volume" volume).

Definition beta_metric (info : gmap string pyval) : M unit :=
  let beta := dict_get info "beta" (PyStr "N/A") in
  beta ← unless_na beta (format_f false 2);
  emit (Metric "Beta" beta).

Definition display_key_metrics (info : gmap string pyval) : M unit :=
  within (Column 1) (market_cap_metric info;; pe_ratio_metric info);;
  within (Column 2) (current_price_metric info;; dividend_yield_metric info);;
  within (Column 3) (day_range_metric info;; book_value_metric info);;
  within (Column 4) (volume_metric info;; beta_metric info).

(** *** Tables *)

(** [st.dataframe(df, use_container_width=True)] *)
Definition dataframe (w : World) (df : DataFrame) : M unit :=
  lift (st_dataframe w df);; emit (Dataframe df).

Definition safe_display_dataframe (w : World) (data : option DataFrame)
    (title warning_msg : string) : M unit :=
  try_except_Exception
    (match data with
     | Some df =>
         if negb (empty df) then
           if (0 <? length (columns df))%nat && (0 <? length (index df))%nat
           then dataframe w df
           else emit (Warning warning_msg)
         else emit (Warning warning_msg)
     | None => emit (Warning warning_msg)
     end)
    (fun e =>
       emit (Error ("Error displaying " +:+ title +:+ ": " +:+ exn_str e));;
       emit (Warning ("Unable to display " +:+ title +:+ " data."))).

Definition display_all_financial_data (w : World) (financial_data : FinancialData)
  : M unit :=
  emit (section_header (icon_calendar +:+ " Annual Reports"));;
  emit (Subheader (icon_bars +:+ " Annual Financial Statements"));;
  safe_display_dataframe w (financials financial_data)
    "Annual Financials" "No annual financial data available.";;
  emit (Markdown "---");;
  emit (Subheader (icon_money +:+ " Annual Income Statement"));;
  safe_display_dataframe w (income_stmt financial_data)
    "Annual Income Statement" "No Annual Income Statement data available.";;
  emit (Markdown "---");;
  emit (Subheader (icon_scales +:+ " Annual Balance Sheet"));;
  safe_display_dataframe w (balance_sheet financial_data)
    "Annual Balance Sheet" "No Annual Balance Sheet data available.";;
  emit (Markdown "---");;
  emit (Subheader (icon_dollar +:+ " Annual Cash Flow"));;
  safe_display_dataframe w (cash_flow financial_data)
    "Annual Cash Flow" "No Annual Cash Flow data available.";;
  emit (Markdown "---");;
  emit (section_header (icon_chart +:+ " Quarterly Reports"));;
  emit (Subheader (icon_chart +:+ " Quarterly Financial Statements"));;
  safe_display_dataframe w (quarterly_financials financial_data)
    "Quarterly Financials" "No quarterly financial data available.";;
  emit (Markdown "---");;
  emit (Subheader (icon_money +:+ " Quarterly Income Statement"));;
  safe_display_dataframe w (quarterly_income_stmt financial_data)
    "Quarterly Income Statement" "No Quarterly Income Statement data available.";;
  emit (Markdown "---");;
  emit (Subheader (icon_scales +:+ " Quarterly Balance Sheet"));;
  safe_display_dataframe w (quarterly_balance_sheet financial_data)
    "Quarterly Balance Sheet" "No Quarterly Balance Sheet data available.";;
  emit (Markdown "---");;
  emit (Subheader (icon_dollar +:+ " Quarterly Cash Flow"));;
  safe_display_dataframe w (quarterly_cash_flow financial_data)
    "Quarterly Cash Flow" "No Quarterly Cash Flow data available.".

(** *** The page *)

Definition period_options : list (string * string) :=
  [ ("1 Month", "1mo"); ("3 Months", "3mo"); ("6 Months", "6mo");
    ("1 Year", "1y"); ("2 Years", "2y"); ("5 Years", "5y") ].

(** [d[key]] on a dict given by its items; [key] may be [None]. *)
Fixpoint dict_getitem (items : list (string * string)) (key : option string)
  : outcome string :=
  match items, key with
  | (k, v) :: rest, Some s =>
      if String.eqb k s then Ok v else dict_getitem rest key
  | _, Some s => key_error s
  | _, None => Raise (Exn KeyError "None")
  end.

(** [l.index(x)] *)
Fixpoint list_index (l : list string) (x : string) : outcome nat :=
  match l with
  | [] => Raise (Exn ValueError ("'" +:+ x +:+ "' is not in list"))
  | y :: rest => if String.eqb y x then Ok O else i ← list_index rest x; Ok (S i)
  end.

(** [try: body / except ValueError: handler] *)
Definition try_except_ValueError {A} (body : M A) (handler : M A) : M A :=
  match body with
  | (l, Raise e) =>
      match exn_cls e with
      | ValueError => let '(l', r) := handler in ((l ++ l')%list, r)
      | _ => (l, Raise e)
      end
  | done => done
  end.

(** The loop [for i, (name, value) in enumerate(items): if value ==
    url_period: period_index = i; break], entered at position [i]. *)
Fixpoint period_loop (items : list (string * string)) (i : nat)
    (url_period : string) (period_index : nat) : nat :=
  match items with
  | [] => period_index
  | (name, value) :: rest =>
      if String.eqb value url_period then i
      else period_loop rest (S i) url_period period_index
  end.

(** [st.selectbox(label, options=options, index=idx, key=key)]: the value the
    session holds for the widget if it is still an option, the option at
    [idx] otherwise, [None] when there is no option. *)
Definition selectbox (w : World) (label : string) (options : list string)
    (idx : nat) (key : string) : M (option string) :=
  if (0 <? length options)%nat && (length options <=? idx)%nat then
    raise (Exn (OtherError "StreamlitAPIException")
             "Selectbox index must be greater than or equal to 0 and less than the length of options.")
  else
    emit (Selectbox label options idx key);;
    ret (match session_state w !! key with
         | Some v => if bool_decide (v ∈ options) then Some v else options !! idx
         | None => options !! idx
         end).

Definition opt_str (o : option string) : string := default "None" o.

(** The sidebar block of [main]: both selectors, from the URL values. *)
Definition sidebar (w : World) (SP500_TICKERS : list string)
    (url_ticker url_period : string) : M (option string * string) :=
  within Sidebar
    (emit (Header (icon_bars +:+ " Settings"));;
     ticker_index ←
       try_except_ValueError (lift (list_index SP500_TICKERS url_ticker)) (ret O);
     selected_ticker ←
       selectbox w "Select S&P 500 Stock:" SP500_TICKERS ticker_index
         "ticker_selectbox";
     let period_index := period_loop period_options 0 url_period 3 in
     selected_period_name ←
       selectbox w "Analysis Period:" (map fst period_options) period_index
         "period_selectbox";
     selected_period ← lift (dict_getitem period_options selected_period_name);
     emit (Button (icon_search +:+ " Start Analysis"));;
     emit (Markdown "---");;
     emit (Markdown "**Current Selection:**");;
     emit (Write ("Ticker: `" +:+ opt_str selected_ticker +:+ "`"));;
     emit (Write ("Period: `" +:+ selected_period +:+ "`"));;
     ret (selected_ticker, selected_period)).

(** The company information block of [main]. *)
Definition company_information (info : gmap string pyval) : M unit :=
  emit (section_header (icon_office +:+ " Company Information"));;
  within (Column 1)
    (emit (Write ("**Company Name:** " +:+ str (dict_get info "longName" (PyStr "N/A"))));;
     emit (Write ("**Sector:** " +:+ str (dict_get info "sector" (PyStr "N/A"))));;
     emit (Write ("**Industry:** " +:+ str (dict_get info "industry" (PyStr "N/A"))));;
     emit (Write ("**Country:** " +:+ str (dict_get info "country" (PyStr "N/A")))));;
  within (Column 2)
    (employees ←
       (if truthy (dict_get info "fullTimeEmployees" PyNone) then
          lift (prefixed "**Employees:** "
                  (format_comma (dict_get info "fullTimeEmployees" (PyStr "N/A"))))
        else ret "**Employees:** N/A");
     emit (Write employees);;
     emit (Write ("**Website:** " +:+ str (dict_get info "website" (PyStr "N/A"))));;
     emit (Write ("**Founded:** " +:+ str (dict_get info "foundingYear" (PyStr "N/A")))));;
  match info !! "longBusinessSummary" with
  | Some summary => emit (Write "**Company Description:**");; emit (WriteValue summary)
  | None => ret tt
  end.

(** The dividends and splits block of [main]. *)
Definition actions_section (w : World) (financial_data : FinancialData) : M unit :=
  match actions financial_data with
  | Some df =>
      if negb (empty df) then
        emit (section_header (icon_dollar +:+ " Dividends and Stock Splits"));;
        dataframe w df
      else ret tt
  | None => lift (no_attribute "empty")
  end.

(** The branch of [main] taken when both fetches returned a value. *)
Definition render_analysis (w : World) (selected_ticker : string)
    (hist_data : DataFrame) (financial_data : FinancialData) : M unit :=
  company_information (info financial_data);;
  emit (section_header (icon_clipboard +:+ " " +:+ selected_ticker +:+ " Key Metrics"));;
  display_key_metrics (info financial_data);;
  emit (section_header (icon_chart +:+ " Stock Price Chart"));;
  price_chart ← lift (plot_stock_price hist_data selected_ticker);
  emit (PlotlyChart price_chart);;
  emit (section_header (icon_money +:+ " Financial Performance"));;
  financial_chart ← lift (plot_financial_metrics financial_data selected_ticker);
  match financial_chart with
  | Some fig => emit (PlotlyChart fig)
  | None => ret tt
  end;;
  emit (section_header (icon_bars +:+ " Detailed Financial Data"));;
  display_all_financial_data w financial_data;;
  actions_section w financial_data.

Definition unable_to_fetch : string :=
  "Unable to fetch data for the selected ticker. Please try selecting a different stock.".

Definition please_select : string :=
  "Please select an S&P 500 stock from the sidebar to begin analysis.".

(** The block [if selected_ticker: ... else: st.info(...)] of [main]. *)
Definition show_data (w : World) (selected_ticker : option string)
    (selected_period : string) : M unit :=
  match selected_ticker with
  | Some ticker =>
      if negb (String.eqb ticker "") then
        within (Spinner ("Analyzing " +:+ ticker +:+ " data..."))
          (hist_data ← get_stock_data w ticker selected_period;
           financial_data ← get_financial_data w ticker;
           match hist_data, financial_data with
           | Some hist, Some fin => render_analysis w ticker hist fin
           | _, _ => emit (Error unable_to_fetch)
           end)
      else emit (Info please_select)
  | None => emit (Info please_select)
  end.

(** [if url_ticker not in SP500_TICKERS: url_ticker = 'AAPL'] *)
Definition validate_ticker (SP500_TICKERS : list string) (url_ticker : string)
  : string :=
  if bool_decide (url_ticker ∈ SP500_TICKERS) then url_ticker else "AAPL".

Definition main (w : World) (SP500_TICKERS : list string) : M unit :=
  '(url_ticker, url_period) ← get_query_params w;
  let url_ticker := validate_ticker SP500_TICKERS url_ticker in
  emit (Markdown (html "h1" "main-header" (icon_chart +:+ " Stock Analysis Dashboard")));;
  emit (Markdown (html "div" "info-box"
    "Comprehensive financial information and stock price analysis for S&P 500 companies."));;
  '(selected_ticker, selected_period) ← sidebar w SP500_TICKERS url_ticker url_period;
  show_data w selected_ticker selected_period;;
  emit (Markdown "---").

(** The module body: the universe is fetched once, when the script is
    loaded, and [main] runs with it. *)
Definition script (w : World) : M unit :=
  SP500_TICKERS ← get_sp500_tickers w;
  main w SP500_TICKERS.

(** [@st.cache_data] on a function without arguments, given what the cache
    holds for it: a stored value is returned as it is and the function is
    not run. *)
Definition cache_data {A} (stored : option A) (f : M A) : M A :=
  match stored with
  | Some a => ret a
  | None => f
  end.

(** The module body on a run that finds [stored] in the cache of the
    listing. The two fetches of [main] are run, not replayed. *)
Definition cached_script (stored : option (list string)) (w : World) : M unit :=
  SP500_TICKERS ← cache_data stored (get_sp500_tickers w);
  main w SP500_TICKERS.

End WithRuntime.

(** *** Callbacks of the two selectors *)

(** A callback runs between two runs of the page and may change the URL
    parameters: it takes the world and gives the world it leaves, with its
    value or the exception that ended it. What was assigned before an
    exception stays assigned. *)
Definition Act (A : Type) : Type := World -> World * outcome A.

Definition act_ret {A} (a : A) : Act A := fun w => (w, Ok a).

Definition act_bind {A B} (m : Act A) (k : A -> Act B) : Act B :=
  fun w =>
    match m w with
    | (w', Ok a) => k a w'
    | (w', Raise e) => (w', Raise e)
    end.

#[export] Instance Act_ret : MRet Act := @act_ret.
#[export] Instance Act_bind : MBind Act := fun A B k m => act_bind m k.

(** [st.session_state.<key>] *)
Definition session_attr (key : string) : Act string :=
  fun w =>
    (w, match session_state w !! key with
        | Some v => Ok v
        | None =>
            Raise (Exn AttributeError
                     ("st.session_state has no attribute '" +:+ key +:+ "'"))
        end).

(** A call of a function of the page that leaves nothing on the page. *)
Definition call {A} (f : World -> M A) : Act A :=
  fun w => (w, result (f w)).

(** An expression that neither reads nor changes the world. *)
Definition eval {A} (o : outcome A) : Act A := fun w => (w, o).

Definition with_query_params (w : World) (params : gmap string string) : World :=
  {| read_html := read_html w;
     Ticker := Ticker w;
     query_params := Ok params;
     session_state := session_state w;
     st_dataframe := st_dataframe w |}.

(** [st.query_params.<key> = value] *)
Definition assign_param (key value : string) : Act unit :=
  fun w =>
    match query_params w with
    | Ok params => (with_query_params w (<[key := value]> params), Ok tt)
    | Raise e => (w, Raise e)
    end.

(** [try: body / except Exception: pass] *)
Definition pass_on_Exception (body : Act unit) : Act unit :=
  fun w =>
    match body w with
    | (w', Raise e) => if is_Exception e then (w', Ok tt) else (w', Raise e)
    | done => done
    end.

Definition update_ticker_in_url : Act unit :=
  pass_on_Exception
    (selected_ticker ← session_attr "ticker_selectbox";
     '(current_ticker, current_period) ← call get_query_params;
     assign_param "ticker" selected_ticker;;
     assign_param "period" current_period).

Definition update_period_in_url : Act unit :=
  pass_on_Exception
    (selected_name ← session_attr "period_selectbox";
     selected_period ← eval (dict_getitem period_options (Some selected_name));
     '(current_ticker, current_period) ← call get_query_params;
     assign_param "ticker" current_ticker;;
     assign_param "period" selected_period).

End App.

Import App.

(* ===================================================================== *)
(** ** Vocabulary of the statements                                       *)
(* ===================================================================== *)

(** A metadata value of numeric type that the float formats accept: a float,
    a bool, or an int whose hundredfold still converts to a float. *)
Definition numeric (v : pyval) : bool :=
  match v with
  | PyFloat _ | PyBool _ => true
  | PyInt z => Z.abs z <? 2 ^ 1016
  | _ => false
  end.

(** The fixed marker shown for a value that is not available. *)
Definition NA : string := "N/A".

(** The metadata keys read by the key-metrics panel. *)
Definition metric_keys : list string :=
  [ "marketCap"; "trailingPE"; "currentPrice"; "regularMarketPrice";
    "dividendYield"; "dayHigh"; "dayLow"; "bookValue"; "volume"; "beta" ].

(** [rendering f o s]: [s] is what a metric shows for the looked-up value
    [o] under the format [f]: the marker when the value is absent, the
    formatted value when it is present. *)
Definition rendering (f : pyval -> outcome string) (o : option pyval) (s : string)
  : Prop :=
  match o with
  | None => s = NA
  | Some v => f v = Ok s
  end.

(** The formats of the unit classes. *)
Definition currency0 (v : pyval) : outcome string := prefixed "$" (format_f true 0 v).
Definition currency2 (v : pyval) : outcome string := prefixed "$" (format_f false 2 v).
Definition ratio (v : pyval) : outcome string := format_f false 2 v.
Definition percent (v : pyval) : outcome string :=
  v100 ← mul100 v; s ← format_f false 2 v100; Ok (s +:+ "%").

(** Metadata with a market capitalisation, a [None] where the P/E ratio
    should be, and a beta. *)
Definition malformed_info : gmap string pyval :=
  <["marketCap" := PyInt 1000]>
    (<["trailingPE" := PyNone]> (<["beta" := PyInt 1]> ∅)).

(** The runtime used in the worked examples: it prints every float as [?]. *)
Definition example_runtime : Runtime := {| float_repr := fun _ => "?" |}.

(** An example of metadata: a market capitalisation, a day range, a volume. *)
Definition example_info : gmap string pyval :=
  <["marketCap" := PyInt 2851234567891]>
    (<["dayHigh" := PyFloat (S754_finite false 601 (-2))]>
      (<["dayLow" := PyFloat (S754_finite false 597 (-2))]>
        (<["volume" := PyInt 1234567]> ∅))).

(** The texts of the subheaders in a log, in order. *)
Fixpoint subheaders (l : list entry) : list string :=
  match l with
  | [] => []
  | Subheader text :: rest => text :: subheaders rest
  | _ :: rest => subheaders rest
  end.

(** A table with at least one row and at least one column. *)
Definition has_cells (df : DataFrame) : Prop :=
  (0 < length (index df))%nat /\ (0 < length (columns df))%nat.

(** What is shown in place of a table whose rendering raised [e]. *)
Definition render_failure (title : string) (e : exn) : list entry :=
  [ Error ("Error displaying " +:+ title +:+ ": " +:+ exn_str e);
    Warning ("Unable to display " +:+ title +:+ " data.") ].

(** A two-by-two statement table. *)
Definition example_statement : DataFrame :=
  {| index := ["Total Revenue"; "Net Income"];
     columns := ["2023"; "2022"];
     values := [[PyInt 10; PyInt 9]; [PyInt 3; PyInt 2]] |}.

(** A table with row labels and no column. *)
Definition example_no_columns : DataFrame :=
  {| index := ["Total Revenue"]; columns := []; values := [[]] |}.

(** The subheaders of the eight statement tables, in page order. *)
Definition table_subheaders : list string :=
  [ icon_bars +:+ " Annual Financial Statements";
    icon_money +:+ " Annual Income Statement";
    icon_scales +:+ " Annual Balance Sheet";
    icon_dollar +:+ " Annual Cash Flow";
    icon_chart +:+ " Quarterly Financial Statements";
    icon_money +:+ " Quarterly Income Statement";
    icon_scales +:+ " Quarterly Balance Sheet";
    icon_dollar +:+ " Quarterly Cash Flow" ].

(** One day of prices. *)
Definition example_history : DataFrame :=
  {| index := ["2024-01-02"];
     columns := ["Open"; "High"; "Low"; "Close"; "Volume"];
     values := [[PyInt 1; PyInt 2; PyInt 0; PyInt 1; PyInt 100]] |}.

(** A provider object with two annual statements, a missing and a failing
    quarterly statement, no corporate actions and the example metadata. *)
Definition example_stock : Yf.Ticker :=
  {| Yf.history := fun _ _ => Ok (Some example_history);
     Yf.financials := Ok (Some example_statement);
     Yf.quarterly_financials := Ok None;
     Yf.income_stmt := Ok (Some example_statement);
     Yf.quarterly_income_stmt := Raise (Exn KeyError "'timeSeries'");
     Yf.balance_sheet := Ok (Some example_no_columns);
     Yf.quarterly_balance_sheet := Ok (Some example_statement);
     Yf.cashflow := Ok (Some example_statement);
     Yf.quarterly_cashflow := Ok (Some example_statement);
     Yf.actions := Ok (Some empty_frame);
     Yf.info := Ok example_info |}.

(** A first page load with [?ticker=ZZZZ]: the listing page is unreachable,
    the provider answers with [example_stock], every table renders. *)
Definition example_world : World :=
  {| read_html := fun _ => Raise (Exn (OtherError "URLError") "unreachable");
     Ticker := fun _ => Ok example_stock;
     query_params := Ok (<["ticker" := "ZZZZ"]> ∅);
     session_state := ∅;
     st_dataframe := fun _ => Ok tt |}.

(** The same, except that no table can be rendered. *)
Definition broken_tables_world : World :=
  {| read_html := read_html example_world;
     Ticker := Ticker example_world;
     query_params := query_params example_world;
     session_state := session_state example_world;
     st_dataframe := fun _ => Raise (Exn ValueError "cannot serialize") |}.

(** The bundle that [get_financial_data] builds from [example_stock]. *)
Definition example_bundle : FinancialData :=
  {| financials := Some example_statement;
     quarterly_financials := Some empty_frame;
     income_stmt := Some example_statement;
     quarterly_income_stmt := Some empty_frame;
     balance_sheet := Some example_no_columns;
     quarterly_balance_sheet := Some example_statement;
     cash_flow := Some example_statement;
     quarterly_cash_flow := Some example_statement;
     actions := Some empty_frame;
     info := example_info |}.

(** The bar a statement contributes for a line item: one trace made of the
    row found under [label], none when there is no such row. *)
Definition line_item (stmt : DataFrame) (label name : string) : list Trace :=
  match loc stmt label with
  | Ok item => [Bar (sel_index item) (sel_values item) name None]
  | Raise _ => []
  end.

Definition add_traces (fig : Figure) (ts : list Trace) (r c : nat) : Figure :=
  fold_left (fun f t => add_trace f t r c) ts fig.

(** The figure of the financial performance chart, cell by cell. *)
Definition financials_figure (annual quarterly : DataFrame) (ticker : string)
  : Figure :=
  let grid :=
    {| rows := 2; cols := 2; shared_xaxes := false; vertical_spacing := None;
       subplot_titles := ["Annual Revenue Trend"; "Net Income Trend";
                          "Quarterly Revenue"; "Quarterly Net Income"];
       row_width := [] |} in
  let quarter (label name : string) :=
    if empty quarterly then [] else line_item quarterly label name in
  update_layout
    (add_traces
       (add_traces
          (add_traces
             (add_traces (make_subplots grid)
                (line_item annual "Total Revenue" "Annual Revenue") 1 1)
             (line_item annual "Net Income" "Annual Net Income") 1 2)
          (quarter "Total Revenue" "Quarterly Revenue") 2 1)
       (quarter "Net Income" "Quarterly Net Income") 2 2)
    [("height", PyInt 600);
     ("title_text", PyStr (ticker +:+ " Financial Performance"))].

(** An income statement with the revenue row only, for one year. *)
Definition revenue_only : DataFrame :=
  {| index := ["Total Revenue"]; columns := ["2023"]; values := [[PyInt 10]] |}.

Definition revenue_only_bundle : FinancialData :=
  {| financials := Some empty_frame;
     quarterly_financials := Some empty_frame;
     income_stmt := Some revenue_only;
     quarterly_income_stmt := Some example_statement;
     balance_sheet := Some empty_frame;
     quarterly_balance_sheet := Some empty_frame;
     cash_flow := Some empty_frame;
     quarterly_cash_flow := Some empty_frame;
     actions := Some empty_frame;
     info := ∅ |}.

(** What a statement entry of the bundle holds for the outcome [o] of its
    sub-fetch: the table fetched, or the empty table when the sub-fetch
    raised or returned [None]. *)
Definition degrade (o : outcome (option DataFrame)) : option DataFrame :=
  match o with
  | Ok (Some df) => Some df
  | _ => Some empty_frame
  end.

(** The nine statement entries of a bundle, in the order of the dict. *)
Definition statements (b : FinancialData) : list (option DataFrame) :=
  [ financials b; quarterly_financials b; income_stmt b;
    quarterly_income_stmt b; balance_sheet b; quarterly_balance_sheet b;
    cash_flow b; quarterly_cash_flow b; actions b ].

(** The outcomes of the nine sub-fetches on a provider object, same order. *)
Definition sub_fetches (stock : Yf.Ticker) : list (outcome (option DataFrame)) :=
  [ Yf.financials stock; Yf.quarterly_financials stock; Yf.income_stmt stock;
    Yf.quarterly_income_stmt stock; Yf.balance_sheet stock;
    Yf.quarterly_balance_sheet stock; Yf.cashflow stock;
    Yf.quarterly_cashflow stock; Yf.actions stock ].

Definition fetch_error (e : exn) : entry :=
  Error ("Error fetching financial data: " +:+ exn_str e).

(** A world whose provider rejects every symbol. *)
Definition no_provider_world : World :=
  {| read_html := read_html example_world;
     Ticker := fun _ => Raise (Exn (OtherError "HTTPError") "404");
     query_params := query_params example_world;
     session_state := session_state example_world;
     st_dataframe := st_dataframe example_world |}.

(** A listing page whose first table has a [Symbol] column. *)
Definition listing_table : Frame string :=
  {| index := ["0"; "1"; "2"];
     columns := ["Symbol"; "Security"];
     values := [["MMM"; "3M"]; ["AAPL"; "Apple Inc."]; ["GOOGL"; "Alphabet Inc."]] |}.

(** The same page after a change of schema: the column is now [Ticker]. *)
Definition renamed_table : Frame string :=
  {| index := index listing_table;
     columns := ["Ticker"; "Security"];
     values := values listing_table |}.

Definition with_listing (tables : outcome (list (Frame string))) : World :=
  {| read_html := fun _ => tables;
     Ticker := Ticker example_world;
     query_params := query_params example_world;
     session_state := session_state example_world;
     st_dataframe := st_dataframe example_world |}.

(** The index handed to the ticker selector: the position of [url_ticker]
    in the universe, 0 when it is not there. *)
Definition ticker_index (SP500_TICKERS : list string) (url_ticker : string) : nat :=
  match list_index SP500_TICKERS url_ticker with
  | Ok i => i
  | Raise _ => O
  end.

(** The index handed to the period selector. *)
Definition period_index (url_period : string) : nat :=
  period_loop period_options 0 url_period 3.

Definition period_names : list string := map fst period_options.
Definition period_codes : list string := map snd period_options.

(** The value a selector returns. *)
Definition chosen (w : World) (key : string) (options : list string) (idx : nat)
  : option string :=
  match session_state w !! key with
  | Some v => if bool_decide (v ∈ options) then Some v else options !! idx
  | None => options !! idx
  end.

Definition ticker_selector (SP500_TICKERS : list string) (idx : nat) : entry :=
  Within Sidebar
    (Selectbox "Select S&P 500 Stock:" SP500_TICKERS idx "ticker_selectbox").

Definition period_selector (idx : nat) : entry :=
  Within Sidebar (Selectbox "Analysis Period:" period_names idx "period_selectbox").

(** What the sidebar leaves on the page. *)
Definition sidebar_entries (SP500_TICKERS : list string) (it ip : nat)
    (selected_ticker : option string) (selected_period : string) : list entry :=
  [ Within Sidebar (Header (icon_bars +:+ " Settings"));
    ticker_selector SP500_TICKERS it;
    period_selector ip;
    Within Sidebar (Button (icon_search +:+ " Start Analysis"));
    Within Sidebar (Markdown "---");
    Within Sidebar (Markdown "**Current Selection:**");
    Within Sidebar (Write ("Ticker: `" +:+ opt_str selected_ticker +:+ "`"));
    Within Sidebar (Write ("Period: `" +:+ selected_period +:+ "`")) ].

(** The two entries that open the page. *)
Definition page_top : list entry :=
  [ Markdown (html "h1" "main-header" (icon_chart +:+ " Stock Analysis Dashboard"));
    Markdown (html "div" "info-box"
      "Comprehensive financial information and stock price analysis for S&P 500 companies.") ].

(** A universe as the remote listing gives it, in alphabetical order of the
    company names. *)
Definition remote_universe : list string := ["MMM"; "AAPL"; "GOOGL"].

(** A first page load with no URL parameter at all. *)
Definition no_params_world : World :=
  {| read_html := read_html example_world;
     Ticker := Ticker example_world;
     query_params := Ok ∅;
     session_state := ∅;
     st_dataframe := st_dataframe example_world |}.

(** [every P m]: all the entries [m] leaves satisfy [P], containers aside. *)
Definition every (P : entry -> Prop) {A} (m : M A) : Prop :=
  Forall (fun e => P (leaf e)) (log m).

(** The header of the dividends and splits section. *)
Definition actions_header : entry :=
  section_header (icon_dollar +:+ " Dividends and Stock Splits").

(** An entry that is neither that header nor an empty table. *)
Definition not_actions_section (e : entry) : Prop :=
  match e with
  | Markdown body => Markdown body <> actions_header
  | Dataframe df => empty df = false
  | _ => True
  end.

(** A table of corporate actions with one dividend. *)
Definition example_actions : DataFrame :=
  {| index := ["2024-02-09"];
     columns := ["Dividends"; "Stock Splits"];
     values := [[PyFloat (S754_finite false 3 (-2)); PyInt 0]] |}.

Definition with_actions (df : DataFrame) : FinancialData :=
  {| financials := financials example_bundle;
     quarterly_financials := quarterly_financials example_bundle;
     income_stmt := income_stmt example_bundle;
     quarterly_income_stmt := quarterly_income_stmt example_bundle;
     balance_sheet := balance_sheet example_bundle;
     quarterly_balance_sheet := quarterly_balance_sheet example_bundle;
     cash_flow := cash_flow example_bundle;
     quarterly_cash_flow := quarterly_cash_flow example_bundle;
     actions := Some df;
     info := info example_bundle |}.

(** The provider serves the statements but the price history times out. *)
Definition price_failure_world : World :=
  {| read_html := read_html example_world;
     Ticker := fun _ =>
       Ok {| Yf.history := fun _ _ => Raise (Exn (OtherError "ReadTimeout") "timed out");
             Yf.financials := Yf.financials example_stock;
             Yf.quarterly_financials := Yf.quarterly_financials example_stock;
             Yf.income_stmt := Yf.income_stmt example_stock;
             Yf.quarterly_income_stmt := Yf.quarterly_income_stmt example_stock;
             Yf.balance_sheet := Yf.balance_sheet example_stock;
             Yf.quarterly_balance_sheet := Yf.quarterly_balance_sheet example_stock;
             Yf.cashflow := Yf.cashflow example_stock;
             Yf.quarterly_cashflow := Yf.quarterly_cashflow example_stock;
             Yf.actions := Yf.actions example_stock;
             Yf.info := Yf.info example_stock |};
     query_params := query_params example_world;
     session_state := session_state example_world;
     st_dataframe := st_dataframe example_world |}.

Definition spinner (ticker : string) : container :=
  Spinner ("Analyzing " +:+ ticker +:+ " data...").

(** [ends_with suffix m]: when [m] returns, its entries end with [suffix]. *)
Definition ends_with (suffix : list entry) (m : M unit) : Prop :=
  result m = Ok tt -> exists before, log m = (before ++ suffix)%list.

(** A session in which the user has picked [MSFT] and [3 Months], on a page
    whose URL still asks for [ZZZZ]. *)
Definition picked_world : World :=
  {| read_html := read_html example_world;
     Ticker := Ticker example_world;
     query_params := query_params example_world;
     session_state :=
       <["ticker_selectbox" := "MSFT"]> (<["period_selectbox" := "3 Months"]> ∅);
     st_dataframe := st_dataframe example_world |}.

(** A world whose URL parameters cannot be read. *)
Definition unreadable_params_world : World :=
  {| read_html := read_html picked_world;
     Ticker := Ticker picked_world;
     query_params := Raise (Exn AttributeError "query_params");
     session_state := session_state picked_world;
     st_dataframe := st_dataframe picked_world |}.

(** A first page load from a shared URL, [?ticker=MSFT&period=3mo]. *)
Definition shared_url_world : World :=
  {| read_html := read_html example_world;
     Ticker := Ticker example_world;
     query_params := Ok (<["ticker" := "MSFT"]> (<["period" := "3mo"]> ∅));
     session_state := ∅;
     st_dataframe := st_dataframe example_world |}.

(** The five columns of the price history that the price chart reads, in
    the order in which it reads them; the first four make the candlesticks. *)
Definition price_columns : list string := ["Open"; "High"; "Low"; "Close"; "Volume"].
Definition candle_columns : list string := ["Open"; "High"; "Low"; "Close"].

(** How many columns of a price history carry the label [c]. *)
Definition occurrences (hist_data : DataFrame) (c : string) : nat :=
  count_occ string_dec (columns hist_data) c.

(** The first of some labels that a price history lacks, and the first of
    them that it has more than once. *)
Definition first_missing (hist_data : DataFrame) (labels : list string)
  : option string :=
  List.find (fun c => (occurrences hist_data c =? 0)%nat) labels.

Definition first_repeated (hist_data : DataFrame) (labels : list string)
  : option string :=
  List.find (fun c => (2 <=? occurrences hist_data c)%nat) labels.

(** The cells of the column [label] of a price history that has it once. *)
Definition column (hist_data : DataFrame) (label : string) : ndarray pyval :=
  match getitem hist_data label ≫= data_array with
  | Ok cells => cells
  | Raise _ => Arr1 []
  end.

(** A price history in which the opening price comes twice and the volume
    is missing. *)
Definition repeated_open_history : DataFrame :=
  {| index := ["2024-01-02"];
     columns := ["Open"; "Open"; "High"; "Low"; "Close"];
     values := [[PyInt 1; PyInt 1; PyInt 2; PyInt 0; PyInt 1]] |}.

(** A price history with its columns but no row, as the provider returns
    for a symbol it has no prices for. *)
Definition no_rows_history : DataFrame :=
  {| index := []; columns := price_columns; values := [] |}.

(** A price history without the volume. *)
Definition no_volume_history : DataFrame :=
  {| index := ["2024-01-02"];
     columns := ["Open"; "High"; "Low"; "Close"];
     values := [[PyInt 1; PyInt 2; PyInt 0; PyInt 1]] |}.

(** What the analysis leaves before it builds the price chart. *)
Definition before_price_chart `{!Runtime} (ticker : string)
    (financial_data : FinancialData) : M unit :=
  company_information (info financial_data);;
  emit (section_header (icon_clipboard +:+ " " +:+ ticker +:+ " Key Metrics"));;
  display_key_metrics (info financial_data);;
  emit (section_header (icon_chart +:+ " Stock Price Chart")).

(** The provider serves the statements and a price history without the
    volume. *)
Definition no_volume_world : World :=
  {| read_html := read_html example_world;
     Ticker := fun _ =>
       Ok {| Yf.history := fun _ _ => Ok (Some no_volume_history);
             Yf.financials := Yf.financials example_stock;
             Yf.quarterly_financials := Yf.quarterly_financials example_stock;
             Yf.income_stmt := Yf.income_stmt example_stock;
             Yf.quarterly_income_stmt := Yf.quarterly_income_stmt example_stock;
             Yf.balance_sheet := Yf.balance_sheet example_stock;
             Yf.quarterly_balance_sheet := Yf.quarterly_balance_sheet example_stock;
             Yf.cashflow := Yf.cashflow example_stock;
             Yf.quarterly_cashflow := Yf.quarterly_cashflow example_stock;
             Yf.actions := Yf.actions example_stock;
             Yf.info := Yf.info example_stock |};
     query_params := query_params example_world;
     session_state := session_state example_world;
     st_dataframe := st_dataframe example_world |}.

(** The eight places of the key-metrics panel, each with its column and its
    label, in the order in which the panel fills them. *)
Definition metric_slots : list (nat * string) :=
  [ (1%nat, "Market Cap"); (1%nat, "P/E Ratio");
    (2%nat, "Current Price"); (2%nat, "Dividend Yield");
    (3%nat, "Day Range"); (3%nat, "Book Value");
    (4%nat, "Volume"); (4%nat, "Beta") ].

(** The place an entry fills, when it is a metric in a column that shows a
    text. *)
Definition slot (e : entry) : option (nat * string) :=
  match e with
  | Within (Column i) (Metric label (PyStr _)) => Some (i, label)
  | _ => None
  end.

(** The company information block: its header and left column, its right
    column with a given line for the employees, and the description. *)
Definition company_left `{!Runtime} (info : gmap string pyval) : list entry :=
  [ section_header (icon_office +:+ " Company Information");
    Within (Column 1)
      (Write ("**Company Name:** " +:+ str (dict_get info "longName" (PyStr "N/A"))));
    Within (Column 1)
      (Write ("**Sector:** " +:+ str (dict_get info "sector" (PyStr "N/A"))));
    Within (Column 1)
      (Write ("**Industry:** " +:+ str (dict_get info "industry" (PyStr "N/A"))));
    Within (Column 1)
      (Write ("**Country:** " +:+ str (dict_get info "country" (PyStr "N/A")))) ].

Definition company_description (info : gmap string pyval) : list entry :=
  match info !! "longBusinessSummary" with
  | Some summary => [Write "**Company Description:**"; WriteValue summary]
  | None => []
  end.

Definition company_right `{!Runtime} (employees : string)
    (info : gmap string pyval) : list entry :=
  [ Within (Column 2) (Write ("**Employees:** " +:+ employees));
    Within (Column 2)
      (Write ("**Website:** " +:+ str (dict_get info "website" (PyStr "N/A"))));
    Within (Column 2)
      (Write ("**Founded:** " +:+ str (dict_get info "foundingYear" (PyStr "N/A")))) ].

(** Metadata of a company with 161,000 employees and an empty description. *)
Definition staffed_info : gmap string pyval :=
  <["fullTimeEmployees" := PyInt 161000]> (<["longBusinessSummary" := PyStr ""]> ∅).

(** What a place for a table holds in the end: the table, or a placeholder
    with its message. *)
Inductive filling :=
| Table (df : DataFrame)
| Placeholder (msg : string).

(** The tables and placeholders of a log, in order. *)
Fixpoint fillings (l : list entry) : list filling :=
  match l with
  | [] => []
  | Dataframe df :: rest => Table df :: fillings rest
  | Warning msg :: rest => Placeholder msg :: fillings rest
  | _ :: rest => fillings rest
  end.

(** The eight statements of a bundle in the order of the page, each with the
    title and the message it is displayed with. *)
Definition page_tables (b : FinancialData)
  : list (option DataFrame * string * string) :=
  [ (financials b, "Annual Financials", "No annual financial data available.");
    (income_stmt b, "Annual Income Statement",
       "No Annual Income Statement data available.");
    (balance_sheet b, "Annual Balance Sheet",
       "No Annual Balance Sheet data available.");
    (cash_flow b, "Annual Cash Flow", "No Annual Cash Flow data available.");
    (quarterly_financials b, "Quarterly Financials",
       "No quarterly financial data available.");
    (quarterly_income_stmt b, "Quarterly Income Statement",
       "No Quarterly Income Statement data available.");
    (quarterly_balance_sheet b, "Quarterly Balance Sheet",
       "No Quarterly Balance Sheet data available.");
    (quarterly_cash_flow b, "Quarterly Cash Flow",
       "No Quarterly Cash Flow data available.") ].

(** What the place of a statement holds: the statement when it has cells
    and renders, the message when it is missing or empty, the notice that it
    cannot be displayed when rendering fails. *)
Definition filling_of (w : World) (t : option DataFrame * string * string)
  : filling :=
  let '(data, title, warning_msg) := t in
  match data with
  | Some df =>
      if empty df then Placeholder warning_msg
      else match st_dataframe w df with
           | Ok _ => Table df
           | Raise _ => Placeholder ("Unable to display " +:+ title +:+ " data.")
           end
  | None => Placeholder warning_msg
  end.

(** What a block of the key-metrics panel leaves for the text of its
    metric, or for the exception met while making that text. *)
Definition metric_of (label : string) (text : outcome string) : M unit :=
  match text with
  | Ok s => ([Metric label (PyStr s)], Ok tt)
  | Raise e => ([], Raise e)
  end.

(** The text for a value [v] looked up with the marker as its default: the
    marker when [v] is the marker, [v] in the format [f] otherwise. *)
Definition shown_text (v : pyval) (f : pyval -> outcome string) : outcome string :=
  if ne_str v "N/A" then f v else Ok NA.

(** The text of the day range: the marker when a bound is absent or is the
    marker itself; otherwise both bounds in the two-decimal format, the low
    one formatted first. *)
Definition day_range_text (info : gmap string pyval) : outcome string :=
  match info !! "dayHigh", info !! "dayLow" with
  | Some h, Some l =>
      if ne_str h "N/A" && ne_str l "N/A" then
        lo ← format_f false 2 l; hi ← format_f false 2 h;
        Ok ("$" +:+ lo +:+ " - $" +:+ hi)
      else Ok NA
  | _, _ => Ok NA
  end.

(** Metadata in which the day's high is the marker text, and metadata in
    which it is [None]; the day's low is 149.25 in both. *)
Definition marker_high_info : gmap string pyval :=
  <["dayHigh" := PyStr "N/A"]> (<["dayLow" := PyFloat (S754_finite false 597 (-2))]> ∅).

Definition null_high_info : gmap string pyval :=
  <["dayHigh" := PyNone]> (<["dayLow" := PyFloat (S754_finite false 597 (-2))]> ∅).

(** The texts of the eight places of the panel, in the order in which the
    panel makes them. *)
Definition metric_texts `{!Runtime} (info : gmap string pyval)
  : list (outcome string) :=
  [ shown_text (dict_get info "marketCap" (PyStr "N/A")) currency0;
    shown_text (dict_get info "trailingPE" (PyStr "N/A")) ratio;
    shown_text (dict_get info "currentPrice"
                  (dict_get info "regularMarketPrice" (PyStr "N/A"))) currency2;
    shown_text (dict_get info "dividendYield" (PyStr "N/A")) percent;
    day_range_text info;
    shown_text (dict_get info "bookValue" (PyStr "N/A")) currency2;
    shown_text (dict_get info "volume" (PyStr "N/A")) format_comma;
    shown_text (dict_get info "beta" (PyStr "N/A")) ratio ].

(** The texts made before the first exception, and how the making ends: with
    that exception, or well. *)
Fixpoint shown_before (texts : list (outcome string)) : list string :=
  match texts with
  | Ok s :: rest => s :: shown_before rest
  | _ => []
  end.

Fixpoint first_failure (texts : list (outcome string)) : outcome unit :=
  match texts with
  | [] => Ok tt
  | Ok _ :: rest => first_failure rest
  | Raise e :: _ => Raise e
  end.

(** The entry that fills a place with a text. *)
Definition metric_entry (place : nat * string) (s : string) : entry :=
  Within (Column (fst place)) (Metric (snd place) (PyStr s)).

(* ===================================================================== *)
(** ** Facts about the runtime                                            *)
(* ===================================================================== *)

(** The formats on a few values, as CPython prints them. *)
Example format_examples :
  format_f true 0 (PyInt 2851234567891) = Ok "2,851,234,567,891" /\
  format_f false 2 (PyFloat (lit 2675 1000)) = Ok "2.67" /\
  format_f false 2 (PyFloat (SFopp (lit 1 1000))) = Ok "-0.00" /\
  format_f false 0 (PyFloat (lit 5 2)) = Ok "2" /\
  format_f true 2 (PyInt (-1234567)) = Ok "-1,234,567.00" /\
  format_f false 2 (PyBool true) = Ok "1.00" /\
  percent (PyFloat (lit 5 1024)) = Ok "0.49%" /\
  format_f false 0 (PyInt (2 ^ 1024 - 2 ^ 970))
    = Raise (Exn OverflowError "int too large to convert to float") /\
  format_f false 2 (PyStr "12.5")
    = Raise (Exn ValueError "Unknown format code 'f' for object of type 'str'") /\
  format_f false 2 PyNone
    = Raise (Exn TypeError "unsupported format string passed to NoneType.__format__").
Proof. vm_compute. repeat split. Qed.

Lemma float_of_int_ok (z : Z) :
  Z.abs z < 2 ^ 1023 -> exists f, float_of_int z = Ok f.
Proof.
  intros Hz. unfold float_of_int.
  destruct (z =? 0) eqn:Hz0; [eauto|].
  apply Z.eqb_neq in Hz0.
  assert (Hlog : Z.log2 (Z.abs z) < 1023) by (apply Z.log2_lt_pow2; lia).
  cbv zeta. unfold prec, emax.
  destruct (Z.log2 (Z.abs z) + 1 <=? 53); [eauto|].
  destruct (round_half_even _ _ =? 2 ^ 53);
    (destruct (1024 <? _) eqn:Hov; [apply Z.ltb_lt in Hov; lia | eauto]).
Qed.

Lemma format_f_numeric (comma : bool) (digits : nat) (v : pyval) :
  numeric v = true -> exists s, format_f comma digits v = Ok s.
Proof.
  destruct v as [|b|z|f|s|s t]; simpl; try discriminate; intros Hn; eauto.
  apply Z.ltb_lt in Hn.
  destruct (float_of_int_ok z) as [f Hf].
  - eapply Z.lt_trans; [exact Hn|]. apply Z.pow_lt_mono_r; lia.
  - rewrite Hf. simpl. eauto.
Qed.

Lemma percent_numeric (v : pyval) :
  numeric v = true ->
  exists v' s, mul100 v = Ok v' /\ format_f false 2 v' = Ok s.
Proof.
  destruct v as [|b|z|f|s|s t]; simpl; try discriminate; intros Hn.
  - destruct b; eexists _, _; (split; [reflexivity|]); vm_compute; reflexivity.
  - apply Z.ltb_lt in Hn.
    destruct (float_of_int_ok (z * 100)) as [f Hf].
    + rewrite Z.abs_mul. change (Z.abs 100) with 100.
      replace (2 ^ 1023) with (2 ^ 1016 * 128) by reflexivity.
      lia.
    + eexists _, _. split; [reflexivity|]. simpl. rewrite Hf. reflexivity.
  - eexists _, _. split; reflexivity.
Qed.

Lemma ne_str_numeric (v : pyval) (s : string) :
  numeric v = true -> ne_str v s = true.
Proof. destruct v; simpl; congruence. Qed.

(* ===================================================================== *)
(** ** Key metrics                                                        *)
(* ===================================================================== *)

(** Unfolds the plumbing of a computation, leaving the calls. *)
Ltac run :=
  repeat (cbn [mbind mret M_bind M_ret St.bind St.ret St.emit St.lift St.raise
               St.within St.log St.result outcome_bind outcome_ret obind
               fst snd app map] in *).

(** The day-range block, by presence of its two keys. *)
Lemma day_range_cases (info : gmap string pyval) :
  (forall h l, info !! "dayHigh" = Some h -> info !! "dayLow" = Some l ->
     numeric h = true /\ numeric l = true) ->
  exists s,
    day_range_metric info = ([Metric "Day Range" (PyStr s)], Ok tt) /\
    match info !! "dayHigh", info !! "dayLow" with
    | Some h, Some l =>
        exists lo hi, format_f false 2 l = Ok lo /\ format_f false 2 h = Ok hi /\
          s = "$" +:+ lo +:+ " - $" +:+ hi
    | _, _ => s = NA
    end.
Proof.
  intros Hnum. unfold day_range_metric, dict_get.
  destruct (info !! "dayHigh") as [h|] eqn:Hh;
    destruct (info !! "dayLow") as [l|] eqn:Hl; simpl default.
  - destruct (Hnum h l eq_refl eq_refl) as [Nh Nl].
    rewrite !ne_str_numeric by assumption.
    destruct (format_f_numeric false 2 l Nl) as [lo Hlo].
    destruct (format_f_numeric false 2 h Nh) as [hi Hhi].
    rewrite Hlo, Hhi. run. eauto 10.
  - rewrite andb_false_r. run. eauto.
  - run. eauto.
  - run. eauto.
Qed.

Lemma ne_str_false (v : pyval) (s : string) : ne_str v s = false -> v = PyStr s.
Proof.
  destruct v; simpl; try discriminate. intros H. apply negb_false_iff in H.
  apply String.eqb_eq in H. congruence.
Qed.

Lemma format_f_not_text (comma : bool) (digits : nat) (v : pyval) (s t : string) :
  format_f comma digits v = Ok s -> ne_str v t = true.
Proof. destruct v; simpl; try reflexivity. discriminate. Qed.

Lemma ne_str_marker (v : pyval) : v <> PyStr NA -> ne_str v "N/A" = true.
Proof.
  intros Hv. destruct (ne_str v "N/A") eqn:E; [reflexivity|].
  apply ne_str_false in E. contradiction.
Qed.

(** The day-range block leaves what [day_range_text] says, whatever the
    metadata holds. *)
Lemma day_range_runs (info : gmap string pyval) :
  day_range_metric info = metric_of "Day Range" (day_range_text info).
Proof.
  unfold day_range_metric, day_range_text, metric_of, dict_get. cbv zeta.
  destruct (info !! "dayHigh") as [h|], (info !! "dayLow") as [l|];
    try reflexivity.
  - change (default (PyStr "N/A") (Some h)) with h.
    change (default (PyStr "N/A") (Some l)) with l.
    destruct (ne_str h "N/A" && ne_str l "N/A"); [|reflexivity].
    destruct (format_f false 2 l) as [lo|e]; [|reflexivity].
    destruct (format_f false 2 h) as [hi|e]; reflexivity.
  - change (default (PyStr "N/A") (Some h)) with h.
    change (default (PyStr "N/A") None) with (PyStr "N/A").
    change (ne_str (PyStr "N/A") "N/A") with false.
    rewrite andb_false_r. reflexivity.
Qed.

(** C1, as the code has it. The day-range metric shows the marker [N/A]
    whenever [dayHigh] or [dayLow] is absent from the metadata, whatever the
    other holds. With both present it shows the range [$low - $high], both
    bounds in the two-decimal currency format, when both are numbers, and
    and more generally when the format takes both; and it shows a range only
    then: with both present and each a value that the format takes. A present bound that is the marker text itself reads as
    absent. A present bound of any other kind is not guarded: formatting it
    raises, and the metric is not shown. *)
Theorem day_range_both_or_marker (info : gmap string pyval) :
  (info !! "dayHigh" = None \/ info !! "dayLow" = None ->
     day_range_metric info = ([Metric "Day Range" (PyStr NA)], Ok tt)) /\
  (forall h l, info !! "dayHigh" = Some h -> info !! "dayLow" = Some l ->
     numeric h = true -> numeric l = true ->
     exists lo hi, format_f false 2 l = Ok lo /\ format_f false 2 h = Ok hi /\
       "$" +:+ lo +:+ " - $" +:+ hi <> NA /\
       day_range_metric info
         = ([Metric "Day Range" (PyStr ("$" +:+ lo +:+ " - $" +:+ hi))], Ok tt)) /\
  (forall h l lo hi, info !! "dayHigh" = Some h -> info !! "dayLow" = Some l ->
     format_f false 2 l = Ok lo -> format_f false 2 h = Ok hi ->
     day_range_metric info
       = ([Metric "Day Range" (PyStr ("$" +:+ lo +:+ " - $" +:+ hi))], Ok tt)) /\
  (forall shown,
     day_range_metric info = ([Metric "Day Range" (PyStr shown)], Ok tt) ->
     shown <> NA ->
     exists h l lo hi,
       info !! "dayHigh" = Some h /\ info !! "dayLow" = Some l /\
       format_f false 2 l = Ok lo /\ format_f false 2 h = Ok hi /\
       shown = "$" +:+ lo +:+ " - $" +:+ hi) /\
  (info !! "dayHigh" = Some (PyStr NA) \/ info !! "dayLow" = Some (PyStr NA) ->
     day_range_metric info = ([Metric "Day Range" (PyStr NA)], Ok tt)) /\
  (forall h l, info !! "dayHigh" = Some h -> info !! "dayLow" = Some l ->
     h <> PyStr NA -> l <> PyStr NA ->
     (forall e, format_f false 2 l = Raise e ->
        day_range_metric info = ([], Raise e)) /\
     (forall lo e, format_f false 2 l = Ok lo -> format_f false 2 h = Raise e ->
        day_range_metric info = ([], Raise e))).
Proof.
  rewrite day_range_runs. unfold day_range_text, metric_of.
  split; [|split; [|split; [|split; [|split]]]].
  - intros [-> | ->]; [reflexivity|].
    destruct (info !! "dayHigh"); reflexivity.
  - intros h l -> -> Nh Nl.
    rewrite !ne_str_numeric by assumption.
    destruct (format_f_numeric false 2 l Nl) as [lo Hlo].
    destruct (format_f_numeric false 2 h Nh) as [hi Hhi].
    exists lo, hi. rewrite Hlo, Hhi.
    split; [reflexivity|]. split; [reflexivity|]. split; [discriminate|reflexivity].
  - intros h l lo hi -> -> Hlo Hhi.
    rewrite (format_f_not_text _ _ h hi "N/A" Hhi), (format_f_not_text _ _ l lo "N/A" Hlo).
    rewrite Hlo, Hhi. reflexivity.
  - intros shown Hrun Hne.
    destruct (info !! "dayHigh") as [h|], (info !! "dayLow") as [l|];
      try (injection Hrun as <-; contradiction).
    destruct (ne_str h "N/A" && ne_str l "N/A");
      [|injection Hrun as <-; contradiction].
    destruct (format_f false 2 l) as [lo|e] eqn:Hlo; [|discriminate].
    destruct (format_f false 2 h) as [hi|e] eqn:Hhi; [|discriminate].
    injection Hrun as <-. exists h, l, lo, hi. auto.
  - intros [-> | ->].
    + destruct (info !! "dayLow"); reflexivity.
    + destruct (info !! "dayHigh") as [h|]; [|reflexivity].
      change (ne_str (PyStr NA) "N/A") with false. rewrite andb_false_r. reflexivity.
  - intros h l -> -> Hh Hl.
    rewrite (ne_str_marker h Hh), (ne_str_marker l Hl). cbn [andb]. split.
    + intros e ->. reflexivity.
    + intros lo e -> ->. reflexivity.
Qed.

(** The theorem at [example_info], whose day range is 149.25 to 150.25. *)
Lemma day_range_example :
  exists lo hi,
    format_f false 2 (PyFloat (S754_finite false 597 (-2))) = Ok lo /\
    format_f false 2 (PyFloat (S754_finite false 601 (-2))) = Ok hi /\
    "$" +:+ lo +:+ " - $" +:+ hi <> NA /\
    day_range_metric example_info
      = ([Metric "Day Range" (PyStr ("$" +:+ lo +:+ " - $" +:+ hi))], Ok tt).
Proof.
  destruct (day_range_both_or_marker example_info) as (_ & Hboth & _).
  apply (Hboth (PyFloat (S754_finite false 601 (-2)))
               (PyFloat (S754_finite false 597 (-2)))); reflexivity.
Defined.

(** C1 as stated fails. With both bounds present, the day's high being the
    marker text, the metric shows the marker and not a range; and with the
    day's high being [None] it shows nothing at all: the format raises. *)
Lemma present_bound_without_range :
  marker_high_info !! "dayHigh" = Some (PyStr "N/A") /\
  marker_high_info !! "dayLow" = Some (PyFloat (S754_finite false 597 (-2))) /\
  day_range_metric marker_high_info = ([Metric "Day Range" (PyStr "N/A")], Ok tt) /\
  null_high_info !! "dayHigh" = Some PyNone /\
  null_high_info !! "dayLow" = Some (PyFloat (S754_finite false 597 (-2))) /\
  day_range_metric null_high_info
    = ([], Raise (Exn TypeError
                    "unsupported format string passed to NoneType.__format__")).
Proof. repeat split; vm_compute; reflexivity. Qed.

Example day_range_example_value :
  day_range_metric example_info =
    ([Metric "Day Range" (PyStr "$149.25 - $150.25")], Ok tt).
Proof. vm_compute. reflexivity. Qed.

Lemma format_comma_numeric `{!Runtime} (v : pyval) :
  numeric v = true -> exists s, format_comma v = Ok s.
Proof. destruct v; simpl; try discriminate; eauto. Qed.

Lemma currency_numeric (comma : bool) (digits : nat) (v : pyval) :
  numeric v = true -> exists s, prefixed "$" (format_f comma digits v) = Ok s.
Proof.
  intros Hn. destruct (format_f_numeric comma digits v Hn) as [s Hs].
  unfold prefixed. rewrite Hs. simpl. eauto.
Qed.

Lemma percent_of_numeric (v : pyval) :
  numeric v = true -> exists s, percent v = Ok s.
Proof.
  intros Hn. destruct (percent_numeric v Hn) as (v' & s & Hv & Hs).
  unfold percent. rewrite Hv. simpl. rewrite Hs. simpl. eauto.
Qed.

(** One metric of the panel: the value looked up, reformatted unless it is
    the marker, and shown. *)
Lemma metric_block (label : string) (f : pyval -> outcome string)
    (o : option pyval) :
  (forall v, o = Some v -> numeric v = true) ->
  (forall v, numeric v = true -> exists s, f v = Ok s) ->
  exists s,
    (v ← unless_na (default (PyStr "N/A") o) f; emit (Metric label v))
      = ([Metric label (PyStr s)], Ok tt) /\
    rendering f o s.
Proof.
  intros Hnum Hf. destruct o as [v|]; simpl default; unfold unless_na.
  - specialize (Hnum v eq_refl). destruct (Hf v Hnum) as [s Hs].
    rewrite (ne_str_numeric v _ Hnum), Hs. run. exists s. split; [reflexivity|exact Hs].
  - simpl. run. exists NA. split; reflexivity.
Qed.

Lemma day_range_block (info : gmap string pyval) :
  (forall k v, k ∈ metric_keys -> info !! k = Some v -> numeric v = true) ->
  exists s,
    day_range_metric info = ([Metric "Day Range" (PyStr s)], Ok tt) /\
    match info !! "dayHigh", info !! "dayLow" with
    | Some h, Some l =>
        exists lo hi, format_f false 2 l = Ok lo /\ format_f false 2 h = Ok hi /\
          s = "$" +:+ lo +:+ " - $" +:+ hi
    | _, _ => s = NA
    end.
Proof.
  intros Hnum.
  destruct (day_range_cases info) as (s & Hrun & Hs).
  - intros h l Hh Hl. split; [apply (Hnum "dayHigh")|apply (Hnum "dayLow")];
      try assumption; unfold metric_keys; set_solver.
  - exists s. split; [exact Hrun|exact Hs].
Qed.

Ltac in_keys := unfold metric_keys; set_solver.

(** C2, as the code has it. For every unit class an absent field shows the
    marker [N/A] and raises nothing, and a present numeric field is shown in
    the format of its class; so all eight metrics are rendered whatever
    fields are absent. Nothing is promised for a present field of another
    type: the panel has no handler for it. *)
Theorem key_metrics_absent_or_numeric `{!Runtime} (info : gmap string pyval) :
  (forall k v, k ∈ metric_keys -> info !! k = Some v -> numeric v = true) ->
  exists mc pe cp dy dr bv vol beta : string,
    display_key_metrics info =
      ([ Within (Column 1) (Metric "Market Cap" (PyStr mc));
         Within (Column 1) (Metric "P/E Ratio" (PyStr pe));
         Within (Column 2) (Metric "Current Price" (PyStr cp));
         Within (Column 2) (Metric "Dividend Yield" (PyStr dy));
         Within (Column 3) (Metric "Day Range" (PyStr dr));
         Within (Column 3) (Metric "Book Value" (PyStr bv));
         Within (Column 4) (Metric "Volume" (PyStr vol));
         Within (Column 4) (Metric "Beta" (PyStr beta)) ], Ok tt) /\
    rendering currency0 (info !! "marketCap") mc /\
    rendering ratio (info !! "trailingPE") pe /\
    rendering currency2
      (match info !! "currentPrice" with
       | Some v => Some v
       | None => info !! "regularMarketPrice"
       end) cp /\
    rendering percent (info !! "dividendYield") dy /\
    match info !! "dayHigh", info !! "dayLow" with
    | Some h, Some l =>
        exists lo hi, format_f false 2 l = Ok lo /\ format_f false 2 h = Ok hi /\
          dr = "$" +:+ lo +:+ " - $" +:+ hi
    | _, _ => dr = NA
    end /\
    rendering currency2 (info !! "bookValue") bv /\
    rendering format_comma (info !! "volume") vol /\
    rendering ratio (info !! "beta") beta.
Proof.
  intros Hnum.
  destruct (metric_block "Market Cap" currency0 (info !! "marketCap"))
    as (mc & Hmc & Rmc);
    [intros v; apply Hnum; in_keys | apply currency_numeric |].
  destruct (metric_block "P/E Ratio" ratio (info !! "trailingPE"))
    as (pe & Hpe & Rpe);
    [intros v; apply Hnum; in_keys | apply format_f_numeric |].
  set (price := match info !! "currentPrice" with
                | Some v => Some v
                | None => info !! "regularMarketPrice"
                end).
  destruct (metric_block "Current Price" currency2 price) as (cp & Hcp & Rcp);
    [ | apply currency_numeric |].
  { intros v. unfold price.
    destruct (info !! "currentPrice") as [c|] eqn:Hc.
    - intros [= <-]. apply (Hnum "currentPrice"); [in_keys | exact Hc].
    - apply Hnum. in_keys. }
  destruct (metric_block "Dividend Yield" percent (info !! "dividendYield"))
    as (dy & Hdy & Rdy);
    [intros v; apply Hnum; in_keys | apply percent_of_numeric |].
  destruct (day_range_block info Hnum) as (dr & Hdr & Rdr).
  destruct (metric_block "Book Value" currency2 (info !! "bookValue"))
    as (bv & Hbv & Rbv);
    [intros v; apply Hnum; in_keys | apply currency_numeric |].
  destruct (metric_block "Volume" format_comma (info !! "volume"))
    as (vol & Hvol & Rvol);
    [intros v; apply Hnum; in_keys | apply format_comma_numeric |].
  destruct (metric_block "Beta" ratio (info !! "beta"))
    as (beta & Hbeta & Rbeta);
    [intros v; apply Hnum; in_keys | apply format_f_numeric |].
  assert (Hcp' : current_price_metric info
                 = ([Metric "Current Price" (PyStr cp)], Ok tt)).
  { unfold current_price_metric, dict_get. rewrite <- Hcp. unfold price.
    destruct (info !! "currentPrice"); reflexivity. }
  exists mc, pe, cp, dy, dr, bv, vol, beta.
  split; [|tauto].
  unfold display_key_metrics.
  change (market_cap_metric info) with
    (v ← unless_na (default (PyStr "N/A") (info !! "marketCap")) currency0;
     emit (Metric "Market Cap" v)).
  change (pe_ratio_metric info) with
    (v ← unless_na (default (PyStr "N/A") (info !! "trailingPE")) ratio;
     emit (Metric "P/E Ratio" v)).
  change (dividend_yield_metric info) with
    (v ← unless_na (default (PyStr "N/A") (info !! "dividendYield")) percent;
     emit (Metric "Dividend Yield" v)).
  change (book_value_metric info) with
    (v ← unless_na (default (PyStr "N/A") (info !! "bookValue")) currency2;
     emit (Metric "Book Value" v)).
  change (volume_metric info) with
    (v ← unless_na (default (PyStr "N/A") (info !! "volume")) format_comma;
     emit (Metric "Volume" v)).
  change (beta_metric info) with
    (v ← unless_na (default (PyStr "N/A") (info !! "beta")) ratio;
     emit (Metric "Beta" v)).
  rewrite Hmc, Hpe, Hcp', Hdy, Hdr, Hbv, Hvol, Hbeta. reflexivity.
Qed.

(** The theorem at [example_info]: four fields present, the others absent. *)
Lemma key_metrics_example :
  exists mc pe cp dy dr bv vol beta : string,
    @display_key_metrics example_runtime example_info =
      ([ Within (Column 1) (Metric "Market Cap" (PyStr mc));
         Within (Column 1) (Metric "P/E Ratio" (PyStr pe));
         Within (Column 2) (Metric "Current Price" (PyStr cp));
         Within (Column 2) (Metric "Dividend Yield" (PyStr dy));
         Within (Column 3) (Metric "Day Range" (PyStr dr));
         Within (Column 3) (Metric "Book Value" (PyStr bv));
         Within (Column 4) (Metric "Volume" (PyStr vol));
         Within (Column 4) (Metric "Beta" (PyStr beta)) ], Ok tt) /\
    mc = "$2,851,234,567,891" /\ pe = NA /\ cp = NA /\ dy = NA /\
    dr = "$149.25 - $150.25" /\ bv = NA /\ vol = "1,234,567" /\ beta = NA.
Proof.
  destruct (@key_metrics_absent_or_numeric example_runtime example_info)
    as (mc & pe & cp & dy & dr & bv & vol & beta & Hrun & _).
  - intros k v Hk Hv. unfold metric_keys in Hk.
    repeat (apply elem_of_cons in Hk as [-> | Hk]);
      try (vm_compute in Hv; first [discriminate | injection Hv as <-; reflexivity]).
    inversion Hk.
  - exists mc, pe, cp, dy, dr, bv, vol, beta. split; [exact Hrun|].
    vm_compute in Hrun.
    injection Hrun; intros; subst; repeat split.
Defined.

(** C2 as stated fails: with a [None] where the P/E ratio should be, the
    panel raises [TypeError] after the first metric; the remaining metrics,
    the well-formed beta among them, are not rendered. *)
Lemma malformed_field_aborts_panel :
  @display_key_metrics example_runtime malformed_info =
    ([Within (Column 1) (Metric "Market Cap" (PyStr "$1,000"))],
     Raise (Exn TypeError "unsupported format string passed to NoneType.__format__")).
Proof. vm_compute. reflexivity. Qed.

(* ===================================================================== *)
(** ** Statement tables                                                   *)
(* ===================================================================== *)

Lemma empty_iff_no_cells (df : DataFrame) : empty df = false <-> has_cells df.
Proof.
  unfold empty, has_cells.
  destruct (index df), (columns df); simpl; split; (lia || discriminate || intros [? ?]; lia).
Qed.

(** The four ways a call of [safe_display_dataframe] can go. *)
Lemma safe_display_cases (w : World) (data : option DataFrame)
    (title warning_msg : string) :
  match data with
  | None =>
      safe_display_dataframe w data title warning_msg
        = ([Warning warning_msg], Ok tt)
  | Some df =>
      if empty df then
        safe_display_dataframe w data title warning_msg
          = ([Warning warning_msg], Ok tt)
      else
        match st_dataframe w df with
        | Ok _ =>
            safe_display_dataframe w data title warning_msg
              = ([Dataframe df], Ok tt)
        | Raise e =>
            if is_Exception e then
              safe_display_dataframe w data title warning_msg
                = (render_failure title e, Ok tt)
            else
              safe_display_dataframe w data title warning_msg = ([], Raise e)
        end
  end.
Proof.
  unfold safe_display_dataframe, dataframe. destruct data as [df|]; [|reflexivity].
  destruct (empty df) eqn:He; [reflexivity|].
  apply empty_iff_no_cells in He as [Hr Hc].
  apply Nat.ltb_lt in Hr, Hc. rewrite Hr, Hc. simpl andb. cbv iota.
  destruct (st_dataframe w df) as [[]|e]; [reflexivity|].
  destruct (is_Exception e) eqn:He; unfold try_except_Exception; simpl;
    rewrite He; reflexivity.
Qed.

(** When rendering only ever fails with an [Exception], a table leaves one
    or two entries, no subheader among them, and the call returns. *)
Lemma safe_display_returns (w : World) (data : option DataFrame)
    (title warning_msg : string) :
  (forall df e, st_dataframe w df = Raise e -> is_Exception e = true) ->
  exists l, safe_display_dataframe w data title warning_msg = (l, Ok tt) /\
            subheaders l = [].
Proof.
  intros Hexc. pose proof (safe_display_cases w data title warning_msg) as H.
  destruct data as [df|]; [|eauto].
  destruct (empty df); [eauto|].
  destruct (st_dataframe w df) as [[]|e] eqn:Hr; [eauto|].
  rewrite (Hexc df e Hr) in H. eauto.
Qed.

Lemma subheaders_app (l l' : list entry) :
  subheaders (l ++ l') = (subheaders l ++ subheaders l')%list.
Proof.
  induction l as [|e l IH]; [reflexivity|].
  destruct e; simpl; rewrite ?IH; reflexivity.
Qed.

(** C3. A statement table is shown exactly when it has at least one row and
    one column (and renders); a missing or empty table shows the warning
    placeholder; an exception raised while rendering is caught and replaced
    by an error line and a placeholder for that table; and, rendering
    failures being exceptions, the eight tables of the page are all reached:
    the display returns and every table subheader is on the page. *)
Theorem table_or_placeholder (w : World) (financial_data : FinancialData)
    (data : option DataFrame) (title warning_msg : string) :
  (forall df,
     In (Dataframe df) (log (safe_display_dataframe w data title warning_msg)) <->
     data = Some df /\ has_cells df /\ st_dataframe w df = Ok tt) /\
  (forall df, data = Some df -> has_cells df -> st_dataframe w df = Ok tt ->
     safe_display_dataframe w data title warning_msg = ([Dataframe df], Ok tt)) /\
  ((forall df, data = Some df -> ~ has_cells df) ->
     safe_display_dataframe w data title warning_msg
       = ([Warning warning_msg], Ok tt)) /\
  (forall df e, data = Some df -> has_cells df ->
     st_dataframe w df = Raise e -> is_Exception e = true ->
     safe_display_dataframe w data title warning_msg
       = (render_failure title e, Ok tt)) /\
  ((forall df e, st_dataframe w df = Raise e -> is_Exception e = true) ->
     result (display_all_financial_data w financial_data) = Ok tt /\
     subheaders (log (display_all_financial_data w financial_data))
       = table_subheaders).
Proof.
  pose proof (safe_display_cases w data title warning_msg) as H.
  split; [|split; [|split; [|split]]].
  - intros df. destruct data as [d|].
    + destruct (empty d) eqn:He.
      * rewrite H. simpl. split.
        -- intros [?|[]]; discriminate.
        -- intros ([= <-] & Hc & _). apply empty_iff_no_cells in Hc. congruence.
      * apply empty_iff_no_cells in He.
        destruct (st_dataframe w d) as [[]|e] eqn:Hr.
        -- rewrite H. simpl. split.
           ++ intros [[= <-]|[]]. auto.
           ++ intros ([= <-] & _). auto.
        -- destruct (is_Exception e); rewrite H; simpl; split;
             try (intros ([= <-] & _ & ?); congruence);
             try (intros [?|[?|[]]]; discriminate); intros [].
    + rewrite H. simpl. split.
      * intros [?|[]]; discriminate.
      * intros (? & _); discriminate.
  - intros df -> Hc Hr. apply empty_iff_no_cells in Hc. rewrite Hc, Hr in H. exact H.
  - intros Hno. destruct data as [d|]; [|exact H].
    destruct (empty d) eqn:He; [exact H|].
    apply empty_iff_no_cells in He. destruct (Hno d eq_refl He).
  - intros df e -> Hc Hr He. apply empty_iff_no_cells in Hc.
    rewrite Hc, Hr, He in H. exact H.
  - intros Hexc. unfold display_all_financial_data.
    destruct (safe_display_returns w (financials financial_data)
      "Annual Financials" "No annual financial data available." Hexc)
      as (l1 & -> & S1).
    destruct (safe_display_returns w (income_stmt financial_data)
      "Annual Income Statement" "No Annual Income Statement data available." Hexc)
      as (l2 & -> & S2).
    destruct (safe_display_returns w (balance_sheet financial_data)
      "Annual Balance Sheet" "No Annual Balance Sheet data available." Hexc)
      as (l3 & -> & S3).
    destruct (safe_display_returns w (cash_flow financial_data)
      "Annual Cash Flow" "No Annual Cash Flow data available." Hexc)
      as (l4 & -> & S4).
    destruct (safe_display_returns w (quarterly_financials financial_data)
      "Quarterly Financials" "No quarterly financial data available." Hexc)
      as (l5 & -> & S5).
    destruct (safe_display_returns w (quarterly_income_stmt financial_data)
      "Quarterly Income Statement" "No Quarterly Income Statement data available." Hexc)
      as (l6 & -> & S6).
    destruct (safe_display_returns w (quarterly_balance_sheet financial_data)
      "Quarterly Balance Sheet" "No Quarterly Balance Sheet data available." Hexc)
      as (l7 & -> & S7).
    destruct (safe_display_returns w (quarterly_cash_flow financial_data)
      "Quarterly Cash Flow" "No Quarterly Cash Flow data available." Hexc)
      as (l8 & -> & S8).
    run. split; [reflexivity|].
    unfold section_header.
    repeat (cbn [subheaders]; rewrite ?subheaders_app).
    rewrite S1, S2, S3, S4, S5, S6, S7, S8. reflexivity.
Qed.

(** The theorem at work: a table that is shown, a table without columns,
    and a page on which no table can be rendered. *)
Lemma table_or_placeholder_example :
  safe_display_dataframe example_world (Some example_statement)
    "Annual Financials" "No annual financial data available."
    = ([Dataframe example_statement], Ok tt) /\
  safe_display_dataframe example_world (Some example_no_columns)
    "Annual Balance Sheet" "No Annual Balance Sheet data available."
    = ([Warning "No Annual Balance Sheet data available."], Ok tt) /\
  safe_display_dataframe broken_tables_world (Some example_statement)
    "Annual Financials" "No annual financial data available."
    = (render_failure "Annual Financials" (Exn ValueError "cannot serialize"), Ok tt) /\
  result (display_all_financial_data broken_tables_world example_bundle) = Ok tt /\
  subheaders (log (display_all_financial_data broken_tables_world example_bundle))
    = table_subheaders.
Proof.
  pose proof (table_or_placeholder example_world example_bundle
                (Some example_statement) "Annual Financials"
                "No annual financial data available.") as (_ & Hshown & _).
  pose proof (table_or_placeholder example_world example_bundle
                (Some example_no_columns) "Annual Balance Sheet"
                "No Annual Balance Sheet data available.") as (_ & _ & Hempty & _).
  pose proof (table_or_placeholder broken_tables_world example_bundle
                (Some example_statement) "Annual Financials"
                "No annual financial data available.") as (_ & _ & _ & Hfail & Hpage).
  split; [|split; [|split]].
  - apply Hshown; [reflexivity | | reflexivity]. split; simpl; lia.
  - apply Hempty. intros df [= <-] [_ Hc]. simpl in Hc. lia.
  - apply (Hfail example_statement (Exn ValueError "cannot serialize"));
      [reflexivity | | reflexivity | reflexivity].
    split; simpl; lia.
  - apply Hpage. intros df e [= <-]. reflexivity.
Defined.

(* ===================================================================== *)
(** ** Financial performance chart                                        *)
(* ===================================================================== *)

Lemma positions_nil (label : string) (labels : list string) (i : nat) :
  positions label labels i = [] <-> label ∉ labels.
Proof.
  revert i. induction labels as [|l rest IH]; intros i; simpl.
  - split; [intros _; apply not_elem_of_nil | reflexivity].
  - destruct (String.eqb_spec l label) as [->|Hne].
    + split; [discriminate|]. intros H. destruct H. left.
    + rewrite IH. rewrite not_elem_of_cons. split; [auto | tauto].
Qed.

Lemma loc_found {C} (df : Frame C) (label : string) :
  label ∈ index df -> exists item, loc df label = Ok item.
Proof.
  intros Hin. unfold loc.
  destruct (positions label (index df) 0) as [|i [|j ps]] eqn:Hp; eauto.
  apply positions_nil in Hp. contradiction.
Qed.

Lemma loc_missing {C} (df : Frame C) (label : string) :
  label ∉ index df -> loc df label = key_error label.
Proof. intros Hin. apply positions_nil with (i := O) in Hin. unfold loc. rewrite Hin. reflexivity. Qed.

Lemma line_item_nil (stmt : DataFrame) (label name : string) :
  line_item stmt label name = [] <-> label ∉ index stmt.
Proof.
  unfold line_item. destruct (decide (label ∈ index stmt)) as [Hin|Hin].
  - destruct (loc_found stmt label Hin) as [item ->]. split; [discriminate|contradiction].
  - rewrite (loc_missing stmt label Hin). split; auto.
Qed.

Lemma add_line_item_traces (fig : Figure) (stmt : DataFrame)
    (label name : string) (r c : nat) :
  add_line_item fig (Some stmt) label name r c
    = Ok (add_traces fig (line_item stmt label name) r c).
Proof.
  unfold add_line_item, line_item, add_traces. simpl attr_index. run.
  case_bool_decide as Hin.
  - simpl attr_loc. destruct (loc_found stmt label Hin) as [item ->]. reflexivity.
  - rewrite (loc_missing stmt label Hin). reflexivity.
Qed.

Lemma cell_add_traces (fig : Figure) (ts : list Trace) (r c r' c' : nat) :
  cell (add_traces fig ts r c) r' c'
    = (cell fig r' c' ++ if bool_decide ((r, c) = (r', c')) then ts else [])%list.
Proof.
  revert fig. induction ts as [|t ts IH]; intros fig; simpl.
  - destruct (bool_decide _); rewrite app_nil_r; reflexivity.
  - unfold add_traces in *. simpl. rewrite IH. unfold cell at 1, add_trace. simpl.
    rewrite filter_app, map_app. simpl. rewrite filter_cons, filter_nil. simpl.
    repeat case_bool_decide; simpl; rewrite <- ?app_assoc, ?app_nil_r;
      try reflexivity; try contradiction; congruence.
Qed.

Lemma grid_add_traces (fig : Figure) (ts : list Trace) (r c : nat) :
  grid (add_traces fig ts r c) = grid fig.
Proof.
  unfold add_traces. revert fig.
  induction ts as [|t ts IH]; intros fig; simpl; [reflexivity|].
  rewrite IH. reflexivity.
Qed.

Lemma plot_financial_metrics_figure (financial_data : FinancialData)
    (ticker : string) (annual quarterly : DataFrame) :
  income_stmt financial_data = Some annual ->
  quarterly_income_stmt financial_data = Some quarterly ->
  plot_financial_metrics financial_data ticker
    = Ok (if empty annual then None
          else Some (financials_figure annual quarterly ticker)).
Proof.
  intros Ha Hq. unfold plot_financial_metrics, financials_figure.
  rewrite Ha, Hq. simpl attr_empty. run.
  destruct (empty annual); [reflexivity|].
  repeat (rewrite add_line_item_traces; run).
  destruct (empty quarterly); simpl negb; cbv iota.
  - reflexivity.
  - repeat (rewrite add_line_item_traces; run). reflexivity.
Qed.

Lemma cell_update_layout (fig : Figure) (props : list (string * pyval)) (r c : nat) :
  cell (update_layout fig props) r c = cell fig r c.
Proof. reflexivity. Qed.

Lemma line_item_cell (stmt : DataFrame) (label name : string) :
  line_item stmt label name <> [] <-> label ∈ index stmt.
Proof.
  rewrite line_item_nil. destruct (decide (label ∈ index stmt)); tauto.
Qed.

(** C4. The chart builder returns [None] exactly when the annual income
    statement is empty. Otherwise it returns a 2x2 grid whose cells hold:
    the annual [Total Revenue] and [Net Income] rows, each only when the
    label is in the annual row index; and the quarterly rows likewise, and
    only when the quarterly statement is not empty. A missing line item
    leaves its cell empty and the chart is still built. *)
Theorem financials_chart_cells (financial_data : FinancialData) (ticker : string)
    (annual quarterly : DataFrame) :
  income_stmt financial_data = Some annual ->
  quarterly_income_stmt financial_data = Some quarterly ->
  (plot_financial_metrics financial_data ticker = Ok None <-> empty annual = true) /\
  (empty annual = false ->
   exists fig,
     plot_financial_metrics financial_data ticker = Ok (Some fig) /\
     rows (grid fig) = 2%nat /\ cols (grid fig) = 2%nat /\
     cell fig 1 1 = line_item annual "Total Revenue" "Annual Revenue" /\
     cell fig 1 2 = line_item annual "Net Income" "Annual Net Income" /\
     cell fig 2 1 = (if empty quarterly then []
                     else line_item quarterly "Total Revenue" "Quarterly Revenue") /\
     cell fig 2 2 = (if empty quarterly then []
                     else line_item quarterly "Net Income" "Quarterly Net Income") /\
     (cell fig 1 1 <> [] <-> "Total Revenue" ∈ index annual) /\
     (cell fig 1 2 <> [] <-> "Net Income" ∈ index annual) /\
     (cell fig 2 1 <> [] <->
        empty quarterly = false /\ "Total Revenue" ∈ index quarterly) /\
     (cell fig 2 2 <> [] <->
        empty quarterly = false /\ "Net Income" ∈ index quarterly)).
Proof.
  intros Ha Hq.
  rewrite (plot_financial_metrics_figure _ ticker annual quarterly Ha Hq).
  destruct (empty annual) eqn:Hea.
  - split; [tauto|discriminate].
  - split; [split; discriminate|]. intros _.
    exists (financials_figure annual quarterly ticker).
    split; [reflexivity|].
    unfold financials_figure. cbv zeta.
    rewrite !cell_update_layout, !cell_add_traces.
    unfold update_layout. simpl grid. rewrite !grid_add_traces. simpl.
    rewrite !app_nil_r.
    split; [reflexivity|]. split; [reflexivity|].
    split; [reflexivity|]. split; [reflexivity|].
    split; [reflexivity|]. split; [reflexivity|].
    rewrite !line_item_cell.
    split; [reflexivity|]. split; [reflexivity|].
    destruct (empty quarterly).
    + split; (split; [congruence | intros [? _]; discriminate]).
    + rewrite !line_item_cell. tauto.
Qed.

(** The theorem at [example_bundle], whose quarterly statement is empty. *)
Lemma financials_chart_example :
  (plot_financial_metrics example_bundle "AAPL" = Ok None <->
     empty example_statement = true) /\
  (empty example_statement = false ->
   exists fig,
     plot_financial_metrics example_bundle "AAPL" = Ok (Some fig) /\
     rows (grid fig) = 2%nat /\ cols (grid fig) = 2%nat /\
     cell fig 1 1 = line_item example_statement "Total Revenue" "Annual Revenue" /\
     cell fig 1 2 = line_item example_statement "Net Income" "Annual Net Income" /\
     cell fig 2 1 = [] /\ cell fig 2 2 = []).
Proof.
  destruct (financials_chart_cells example_bundle "AAPL" example_statement
              empty_frame eq_refl eq_refl) as [Hnone Hgrid].
  split; [exact Hnone|]. intros He.
  destruct (Hgrid He) as (fig & H0 & H1 & H2 & H3 & H4 & H5 & H6 & _).
  exists fig. repeat split; assumption.
Defined.

(** The revenue row alone, one annual column: the top-left cell holds the
    bar, the cell next to it stays empty, the chart is built. *)
Example revenue_only_chart :
  exists fig,
    plot_financial_metrics revenue_only_bundle "AAPL" = Ok (Some fig) /\
    cell fig 1 1 = [Bar ["2023"] (Arr1 [PyInt 10]) "Annual Revenue" None] /\
    cell fig 1 2 = [] /\
    cell fig 2 1 = [Bar ["2023"; "2022"] (Arr1 [PyInt 10; PyInt 9])
                      "Quarterly Revenue" None].
Proof. eexists. split; [vm_compute; reflexivity|]. repeat split. Qed.

(* ===================================================================== *)
(** ** The statement bundle                                               *)
(* ===================================================================== *)

Lemma safe_get_data_degrades (func : unit -> outcome (option DataFrame)) :
  safe_get_data func (Some empty_frame) = ([], Ok (degrade (func tt))).
Proof.
  unfold safe_get_data, try_except, degrade. run.
  destruct (func tt) as [[df|]|e]; reflexivity.
Qed.

(** The bundle built from a provider object and its metadata. *)
Lemma get_financial_data_cases (w : World) (ticker : string) :
  get_financial_data w ticker =
    match Ticker w ticker with
    | Raise e =>
        if is_Exception e then ([fetch_error e], Ok None) else ([], Raise e)
    | Ok stock =>
        let bundle i :=
          {| financials := degrade (Yf.financials stock);
             quarterly_financials := degrade (Yf.quarterly_financials stock);
             income_stmt := degrade (Yf.income_stmt stock);
             quarterly_income_stmt := degrade (Yf.quarterly_income_stmt stock);
             balance_sheet := degrade (Yf.balance_sheet stock);
             quarterly_balance_sheet := degrade (Yf.quarterly_balance_sheet stock);
             cash_flow := degrade (Yf.cashflow stock);
             quarterly_cash_flow := degrade (Yf.quarterly_cashflow stock);
             actions := degrade (Yf.actions stock);
             info := i |} in
        match Yf.info stock with
        | Ok i => ([], Ok (Some (bundle i)))
        | Raise e =>
            match exn_cls e with
            | AttributeError => ([], Ok (Some (bundle ∅)))
            | _ =>
                if is_Exception e then ([fetch_error e], Ok None)
                else ([], Raise e)
            end
        end
    end.
Proof.
  unfold get_financial_data.
  destruct (Ticker w ticker) as [stock|e]; run.
  - rewrite !safe_get_data_degrades. run. unfold hasattr_info.
    destruct (Yf.info stock) as [i|e]; run.
    + reflexivity.
    + destruct e as [cls msg]. destruct cls; simpl; reflexivity.
  - unfold try_except_Exception. destruct (is_Exception e); reflexivity.
Qed.

Lemma degrade_is_table (o : outcome (option DataFrame)) :
  exists df, degrade o = Some df.
Proof. destruct o as [[df|]|e]; simpl; eauto. Qed.

(** Every bundle that is returned was built from a provider object. *)
Lemma returned_bundle (w : World) (ticker : string) (b : FinancialData) :
  result (get_financial_data w ticker) = Ok (Some b) ->
  exists stock, Ticker w ticker = Ok stock /\
                statements b = map degrade (sub_fetches stock).
Proof.
  rewrite get_financial_data_cases.
  destruct (Ticker w ticker) as [stock|e].
  - intros H. exists stock. split; [reflexivity|]. cbv zeta in H.
    destruct (Yf.info stock) as [i|e].
    + injection H as <-. reflexivity.
    + destruct e as [cls msg]. destruct cls; simpl in H;
        first [discriminate | injection H as <-; reflexivity].
  - destruct (is_Exception e); discriminate.
Qed.

(** C5. Each statement entry of the bundle is decided by its own sub-fetch
    alone: it is the table fetched, or the empty table when that sub-fetch
    raised or returned [None], whatever the other sub-fetches did; and when
    the top-level call raises (the provider object cannot be made, or its
    metadata cannot be read), the bundle is [None] and the error is
    shown. *)
Theorem bundle_degrades_per_statement (w : World) (ticker : string) :
  (forall stock i, Ticker w ticker = Ok stock -> Yf.info stock = Ok i ->
     exists b, get_financial_data w ticker = ([], Ok (Some b)) /\
               statements b = map degrade (sub_fetches stock) /\
               info b = i) /\
  (forall o : outcome (option DataFrame),
     (forall df, o = Ok (Some df) -> degrade o = Some df) /\
     (o = Ok None -> degrade o = Some empty_frame) /\
     (forall e, o = Raise e -> degrade o = Some empty_frame)) /\
  (forall b, result (get_financial_data w ticker) = Ok (Some b) ->
     exists stock, Ticker w ticker = Ok stock /\
                   statements b = map degrade (sub_fetches stock)) /\
  (forall e, Ticker w ticker = Raise e -> is_Exception e = true ->
     get_financial_data w ticker = ([fetch_error e], Ok None)) /\
  (forall stock e, Ticker w ticker = Ok stock -> Yf.info stock = Raise e ->
     exn_cls e <> AttributeError -> is_Exception e = true ->
     get_financial_data w ticker = ([fetch_error e], Ok None)).
Proof.
  split; [|split; [|split; [|split]]].
  - intros stock i Hs Hi. rewrite get_financial_data_cases, Hs. cbv zeta.
    rewrite Hi. eexists. split; [reflexivity|]. split; reflexivity.
  - intros o. repeat split; intros; subst; reflexivity.
  - apply returned_bundle.
  - intros e Hs He. rewrite get_financial_data_cases, Hs, He. reflexivity.
  - intros stock e Hs Hi Hattr He.
    rewrite get_financial_data_cases, Hs. cbv zeta. rewrite Hi, He.
    destruct (exn_cls e); try reflexivity. contradiction.
Qed.

(** The theorem at [example_stock], where one quarterly sub-fetch raises and
    another returns [None], and at a provider that rejects the symbol. *)
Lemma bundle_example :
  get_financial_data example_world "AAPL" = ([], Ok (Some example_bundle)) /\
  get_financial_data no_provider_world "AAPL"
    = ([Error "Error fetching financial data: 404"], Ok None).
Proof.
  destruct (bundle_degrades_per_statement example_world "AAPL") as (Hb & _).
  destruct (bundle_degrades_per_statement no_provider_world "AAPL")
    as (_ & _ & _ & Hn & _).
  split.
  - destruct (Hb example_stock example_info eq_refl eq_refl) as (b & Heq & _).
    rewrite Heq. vm_compute in Heq. injection Heq as <-. reflexivity.
  - apply (Hn (Exn (OtherError "HTTPError") "404")); reflexivity.
Defined.

Lemma actions_section_cases (w : World) (financial_data : FinancialData)
    (df : DataFrame) :
  actions financial_data = Some df ->
  actions_section w financial_data =
    if empty df then ([], Ok tt)
    else match st_dataframe w df with
         | Ok _ => ([actions_header; Dataframe df], Ok tt)
         | Raise e => ([actions_header], Raise e)
         end.
Proof.
  intros Ha. unfold actions_section, dataframe. rewrite Ha.
  destruct (empty df); [reflexivity|]. simpl negb. cbv iota.
  destruct (st_dataframe w df) as [[]|e]; reflexivity.
Qed.

Lemma statements_read (b : FinancialData) :
  Forall (fun entry : option DataFrame => exists df, entry = Some df)
         (statements b) ->
  (exists df, income_stmt b = Some df) /\
  (exists df, quarterly_income_stmt b = Some df) /\
  (exists df, actions b = Some df).
Proof.
  unfold statements. intros H.
  repeat (apply Forall_cons_1 in H as [? H]). auto.
Qed.

(** C10. In every bundle that is returned, each of the nine statement
    entries is a table, never [None]: reading [.empty] on it succeeds, and
    the consumers that read the entries without a null check do not fail
    on them: the chart builder returns, and the dividends block raises only
    what rendering the table raises. *)
Theorem bundle_entries_are_tables (w : World) (ticker : string)
    (b : FinancialData) :
  result (get_financial_data w ticker) = Ok (Some b) ->
  Forall (fun entry => exists df, entry = Some df /\
                                  attr_empty entry = Ok (empty df))
         (statements b) /\
  (exists chart, plot_financial_metrics b ticker = Ok chart) /\
  (exists df, actions b = Some df /\
     actions_section w b =
       if empty df then ([], Ok tt)
       else match st_dataframe w df with
            | Ok _ => ([actions_header; Dataframe df], Ok tt)
            | Raise e => ([actions_header], Raise e)
            end).
Proof.
  intros Hb. destruct (returned_bundle w ticker b Hb) as (stock & _ & Hst).
  assert (Hall : Forall (fun entry : option DataFrame => exists df, entry = Some df)
                        (statements b)).
  { rewrite Hst. apply Forall_map, Forall_forall. intros o _.
    apply degrade_is_table. }
  destruct (statements_read b Hall) as ([annual Ha] & [quarterly Hq] & [df Hdf]).
  split; [|split].
  - eapply Forall_impl; [exact Hall|]. intros entry [d ->]. eauto.
  - rewrite (plot_financial_metrics_figure b ticker annual quarterly Ha Hq). eauto.
  - exists df. split; [exact Hdf|]. apply actions_section_cases. exact Hdf.
Qed.

(** The theorem at the bundle fetched in [example_world]. *)
Lemma bundle_entries_example :
  Forall (fun entry => exists df, entry = Some df /\
                                  attr_empty entry = Ok (empty df))
         (statements example_bundle) /\
  (exists chart, plot_financial_metrics example_bundle "AAPL" = Ok chart).
Proof.
  destruct (bundle_entries_are_tables example_world "AAPL" example_bundle eq_refl)
    as (Hentries & Hchart & _).
  split; assumption.
Defined.

(* ===================================================================== *)
(** ** Ticker universe                                                    *)
(* ===================================================================== *)

(** The call always returns a list and leaves exactly one entry, the request
    to the listing page. *)
Lemma get_sp500_tickers_cases (w : World) :
  exists l,
    get_sp500_tickers w = ([Download wikipedia_url], Ok l) /\
    match read_html w wikipedia_url with
    | Ok (table :: _) =>
        match getitem table "Symbol" with
        | Ok (Series _ cells) => l = cells
        | _ => l = fallback_tickers
        end
    | _ => l = fallback_tickers
    end.
Proof.
  unfold get_sp500_tickers, try_except. run.
  destruct (read_html w wikipedia_url) as [[|table others]|e]; simpl; eauto.
  destruct (getitem table "Symbol") as [[idx cells|f]|e]; simpl; eauto.
Qed.

(** C9. The universe is the [Symbol] column of the first table of the remote
    listing when the fetch succeeds; on any failure (the request raises,
    the page has no table, the column is gone) it is the fixed list of 50
    symbols. Either way one request is sent, none is repeated, nothing is
    raised and nothing is put on the page. *)
Theorem universe_remote_or_fallback (w : World) :
  log (get_sp500_tickers w) = [Download wikipedia_url] /\
  Forall (fun e => visible e = false) (log (get_sp500_tickers w)) /\
  (forall table others idx cells,
     read_html w wikipedia_url = Ok (table :: others) ->
     getitem table "Symbol" = Ok (Series idx cells) ->
     result (get_sp500_tickers w) = Ok cells) /\
  (forall e, read_html w wikipedia_url = Raise e ->
     result (get_sp500_tickers w) = Ok fallback_tickers) /\
  (read_html w wikipedia_url = Ok [] ->
     result (get_sp500_tickers w) = Ok fallback_tickers) /\
  (forall table others,
     read_html w wikipedia_url = Ok (table :: others) ->
     "Symbol" ∉ columns table ->
     result (get_sp500_tickers w) = Ok fallback_tickers) /\
  (exists l, result (get_sp500_tickers w) = Ok l /\
     (l = fallback_tickers \/
      exists table others idx,
        read_html w wikipedia_url = Ok (table :: others) /\
        getitem table "Symbol" = Ok (Series idx l))) /\
  length fallback_tickers = 50%nat.
Proof.
  destruct (get_sp500_tickers_cases w) as (l & Hrun & Hl). rewrite Hrun. simpl.
  split; [reflexivity|]. split; [repeat constructor|].
  split; [|split; [|split; [|split; [|split]]]].
  - intros table others idx cells Hr Hg. rewrite Hr, Hg in Hl. congruence.
  - intros e Hr. rewrite Hr in Hl. congruence.
  - intros Hr. rewrite Hr in Hl. congruence.
  - intros table others Hr Hcol. rewrite Hr in Hl.
    apply positions_nil with (i := O) in Hcol.
    unfold getitem in Hl. rewrite Hcol in Hl. simpl in Hl. congruence.
  - exists l. split; [reflexivity|].
    destruct (read_html w wikipedia_url) as [[|table others]|e]; auto.
    destruct (getitem table "Symbol") as [[idx cells|f]|e] eqn:Hg; auto.
    right. subst l. eauto.
  - reflexivity.
Qed.

(** The theorem at three worlds: the listing is served, the listing has a
    new schema, the listing is unreachable. *)
Lemma universe_example :
  get_sp500_tickers (with_listing (Ok [listing_table]))
    = ([Download wikipedia_url], Ok ["MMM"; "AAPL"; "GOOGL"]) /\
  get_sp500_tickers (with_listing (Ok [renamed_table]))
    = ([Download wikipedia_url], Ok fallback_tickers) /\
  get_sp500_tickers example_world
    = ([Download wikipedia_url], Ok fallback_tickers).
Proof.
  pose proof (universe_remote_or_fallback (with_listing (Ok [listing_table])))
    as (L1 & _ & R1 & _).
  pose proof (universe_remote_or_fallback (with_listing (Ok [renamed_table])))
    as (L2 & _ & _ & _ & _ & R2 & _).
  pose proof (universe_remote_or_fallback example_world)
    as (L3 & _ & _ & R3 & _).
  specialize (R1 listing_table [] ["0"; "1"; "2"] ["MMM"; "AAPL"; "GOOGL"]
                eq_refl eq_refl).
  specialize (R2 renamed_table [] eq_refl).
  specialize (R3 (Exn (OtherError "URLError") "unreachable") eq_refl).
  assert (Hcol : "Symbol" ∉ columns renamed_table).
  { simpl. rewrite !not_elem_of_cons. repeat split; try discriminate.
    apply not_elem_of_nil. }
  specialize (R2 Hcol).
  unfold log, result in *.
  split; [|split].
  - destruct (get_sp500_tickers (with_listing (Ok [listing_table]))).
    simpl in *. congruence.
  - destruct (get_sp500_tickers (with_listing (Ok [renamed_table]))).
    simpl in *. congruence.
  - destruct (get_sp500_tickers example_world). simpl in *. congruence.
Defined.

(* ===================================================================== *)
(** ** View state from the URL                                            *)
(* ===================================================================== *)

Lemma get_query_params_cases (w : World) :
  get_query_params w =
    match query_params w with
    | Ok params =>
        ([], Ok (default "GOOGL" (params !! "ticker"),
                 default "1y" (params !! "period")))
    | Raise e =>
        if is_Exception e then ([], Ok ("AAPL", "1y")) else ([], Raise e)
    end.
Proof.
  unfold get_query_params, try_except_Exception.
  destruct (query_params w) as [params|e]; run; [reflexivity|].
  destruct (is_Exception e); reflexivity.
Qed.

Lemma list_index_found (l : list string) (x : string) :
  x ∈ l -> exists i, list_index l x = Ok i /\ l !! i = Some x.
Proof.
  induction l as [|y rest IH]; intros Hin; [inversion Hin|].
  simpl. destruct (String.eqb_spec y x) as [->|Hne].
  - exists O. split; reflexivity.
  - apply elem_of_cons in Hin as [->|Hin]; [contradiction|].
    destruct (IH Hin) as (i & Hi & Hl). rewrite Hi. exists (S i). split; [reflexivity|exact Hl].
Qed.

Lemma list_index_missing (l : list string) (x : string) :
  x ∉ l -> exists e, list_index l x = Raise e /\ exn_cls e = ValueError.
Proof.
  induction l as [|y rest IH]; intros Hin; simpl; [eauto|].
  apply not_elem_of_cons in Hin as [Hne Hin].
  destruct (String.eqb_spec y x) as [->|_]; [contradiction|].
  destruct (IH Hin) as (e & -> & He). eauto.
Qed.

Lemma ticker_index_spec (l : list string) (x : string) :
  try_except_ValueError (lift (list_index l x)) (ret O) = ([], Ok (ticker_index l x)) /\
  (x ∈ l -> l !! ticker_index l x = Some x) /\
  (x ∉ l -> ticker_index l x = O).
Proof.
  unfold ticker_index, try_except_ValueError, lift.
  destruct (decide (x ∈ l)) as [Hin|Hin].
  - destruct (list_index_found l x Hin) as (i & -> & Hi).
    split; [reflexivity|]. split; [auto|contradiction].
  - destruct (list_index_missing l x Hin) as (e & -> & He). rewrite He.
    split; [reflexivity|]. split; [contradiction|auto].
Qed.

Lemma selectbox_in_range (w : World) (label : string) (options : list string)
    (idx : nat) (key : string) :
  (idx = O \/ (idx < length options)%nat) ->
  selectbox w label options idx key
    = ([Selectbox label options idx key], Ok (chosen w key options idx)).
Proof.
  intros Hidx. unfold selectbox.
  replace ((0 <? length options)%nat && (length options <=? idx)%nat) with false.
  - reflexivity.
  - symmetry. apply andb_false_iff. destruct Hidx as [->|Hlt].
    + destruct options; simpl; auto.
    + right. apply Nat.leb_gt. exact Hlt.
Qed.

Lemma period_index_spec (p : string) :
  (period_index p < 6)%nat /\
  (p ∈ period_codes -> period_codes !! period_index p = Some p) /\
  (p ∉ period_codes -> period_index p = 3%nat).
Proof.
  unfold period_index, period_codes, period_options. cbn [period_loop map snd].
  repeat match goal with
         | |- context [String.eqb ?a p] => destruct (String.eqb_spec a p) as [<-|?]
         end.
  all: (split; [lia|]).
  all: split; [intros Hin; try reflexivity | intros Hout; try reflexivity].
  all: try (exfalso; apply Hout; rewrite !elem_of_cons; auto 10).
  repeat (apply elem_of_cons in Hin as [->|Hin]); try contradiction.
  inversion Hin.
Qed.

Lemma period_code_of_name (name : string) :
  name ∈ period_names ->
  exists code, dict_getitem period_options (Some name) = Ok code /\
    forall i, period_names !! i = Some name -> period_codes !! i = Some code.
Proof.
  unfold period_names, period_codes, period_options. simpl. intros Hin.
  repeat (apply elem_of_cons in Hin as [->|Hin]);
    try (eexists; split; [reflexivity|];
         intros [|[|[|[|[|[|i]]]]]]; simpl; intros [=]; reflexivity).
  inversion Hin.
Qed.

Lemma chosen_is_option (w : World) (key : string) (options : list string)
    (idx : nat) :
  (idx < length options)%nat ->
  exists v, chosen w key options idx = Some v /\ v ∈ options.
Proof.
  intros Hlt. unfold chosen.
  destruct (lookup_lt_is_Some_2 options idx Hlt) as [v Hv].
  assert (Hin : v ∈ options) by (eapply list_elem_of_lookup_2; exact Hv).
  destruct (session_state w !! key) as [s|]; [|eauto].
  case_bool_decide; eauto.
Qed.

(** The sidebar never raises; its two selectors get the indices computed
    from the URL values. *)
Lemma sidebar_run (w : World) (SP500_TICKERS : list string) (t p : string) :
  exists sel name code,
    sidebar w SP500_TICKERS t p
      = (sidebar_entries SP500_TICKERS (ticker_index SP500_TICKERS t)
           (period_index p) sel code, Ok (sel, code)) /\
    sel = chosen w "ticker_selectbox" SP500_TICKERS (ticker_index SP500_TICKERS t) /\
    chosen w "period_selectbox" period_names (period_index p) = Some name /\
    (forall i, period_names !! i = Some name -> period_codes !! i = Some code).
Proof.
  destruct (ticker_index_spec SP500_TICKERS t) as (Hidx & Hin & Hout).
  destruct (period_index_spec p) as (Hlt & _).
  destruct (chosen_is_option w "period_selectbox" period_names (period_index p) Hlt)
    as (name & Hname & Hmem).
  destruct (period_code_of_name name Hmem) as (code & Hcode & Hcodes).
  exists (chosen w "ticker_selectbox" SP500_TICKERS (ticker_index SP500_TICKERS t)),
         name, code.
  split; [|auto].
  unfold sidebar. run. rewrite Hidx. run.
  rewrite (selectbox_in_range w "Select S&P 500 Stock:" SP500_TICKERS
             (ticker_index SP500_TICKERS t) "ticker_selectbox").
  2:{ destruct (decide (t ∈ SP500_TICKERS)) as [H|H]; [right|left; auto].
      eapply lookup_lt_Some. apply Hin. exact H. }
  run. fold period_names (period_index p).
  rewrite (selectbox_in_range w "Analysis Period:" period_names (period_index p)
             "period_selectbox") by (right; exact Hlt).
  run. rewrite Hname, Hcode. reflexivity.
Qed.

Section Page.
Context `{!Runtime}.

(** The page opens with its two banners and the sidebar, whatever follows. *)
Lemma main_opening (w : World) (SP500_TICKERS : list string) (t p : string) :
  get_query_params w = ([], Ok (t, p)) ->
  exists sel code,
    sidebar w SP500_TICKERS (validate_ticker SP500_TICKERS t) p
      = (sidebar_entries SP500_TICKERS
           (ticker_index SP500_TICKERS (validate_ticker SP500_TICKERS t))
           (period_index p) sel code, Ok (sel, code)) /\
    main w SP500_TICKERS
      = (page_top
         ++ sidebar_entries SP500_TICKERS
              (ticker_index SP500_TICKERS (validate_ticker SP500_TICKERS t))
              (period_index p) sel code
         ++ log (show_data w sel code;; emit (Markdown "---")),
         result (show_data w sel code;; emit (Markdown "---")))%list.
Proof.
  intros Hq.
  destruct (sidebar_run w SP500_TICKERS (validate_ticker SP500_TICKERS t) p)
    as (sel & name & code & Hside & _).
  exists sel, code. split; [exact Hside|].
  unfold main. rewrite Hq. run. rewrite Hside. run.
  destruct (show_data w sel code) as [l [[]|e]]; reflexivity.
Qed.

(** C6, as the code has it. Initialising the view from the URL raises
    nothing. A ticker parameter that is not in the universe, or parameters
    that cannot be read, give the ticker [AAPL], and the selector index is
    the position of [AAPL] in the universe (0 when [AAPL] comes first, as in
    the built-in list, and also when it is not in the universe at all). A
    period parameter that is absent, unreadable or not one of the six codes
    gives index 3, [1 Year]. Nothing is said here about an absent ticker
    parameter. *)
Theorem url_state_fallbacks (w : World) (SP500_TICKERS : list string) :
  (forall params, query_params w = Ok params ->
     exists t,
       get_query_params w = ([], Ok (t, default "1y" (params !! "period"))) /\
       forall s, params !! "ticker" = Some s -> t = s) /\
  (forall e, query_params w = Raise e -> is_Exception e = true ->
     get_query_params w = ([], Ok ("AAPL", "1y"))) /\
  (forall t, t ∉ SP500_TICKERS -> validate_ticker SP500_TICKERS t = "AAPL") /\
  (forall t, t ∈ SP500_TICKERS -> validate_ticker SP500_TICKERS t = t) /\
  (forall rest, ticker_index ("AAPL" :: rest) "AAPL" = O) /\
  period_index "1y" = 3%nat /\
  (forall t p, exists sel code,
     sidebar w SP500_TICKERS t p
       = (sidebar_entries SP500_TICKERS (ticker_index SP500_TICKERS t)
            (period_index p) sel code, Ok (sel, code)) /\
     (t ∈ SP500_TICKERS ->
        SP500_TICKERS !! ticker_index SP500_TICKERS t = Some t) /\
     (t ∉ SP500_TICKERS -> ticker_index SP500_TICKERS t = O) /\
     (p ∈ period_codes -> period_codes !! period_index p = Some p) /\
     (p ∉ period_codes ->
        period_index p = 3%nat /\ period_names !! 3%nat = Some "1 Year") /\
     (session_state w = ∅ ->
        sel = SP500_TICKERS !! ticker_index SP500_TICKERS t /\
        period_codes !! period_index p = Some code)) /\
  (forall t p, get_query_params w = ([], Ok (t, p)) ->
     exists sel code rest,
       log (main w SP500_TICKERS)
         = (page_top
            ++ sidebar_entries SP500_TICKERS
                 (ticker_index SP500_TICKERS (validate_ticker SP500_TICKERS t))
                 (period_index p) sel code
            ++ rest)%list).
Proof.
  split; [|split; [|split; [|split; [|split; [|split; [|split]]]]]].
  - intros params Hp. rewrite get_query_params_cases, Hp.
    eexists. split; [reflexivity|]. intros s ->. reflexivity.
  - intros e He Hexc. rewrite get_query_params_cases, He, Hexc. reflexivity.
  - intros t Ht. unfold validate_ticker. case_bool_decide; [contradiction|reflexivity].
  - intros t Ht. unfold validate_ticker. case_bool_decide; [reflexivity|contradiction].
  - intros rest. reflexivity.
  - reflexivity.
  - intros t p.
    destruct (sidebar_run w SP500_TICKERS t p)
      as (sel & name & code & Hside & Hsel & Hname & Hcodes).
    destruct (ticker_index_spec SP500_TICKERS t) as (_ & Hin & Hout).
    destruct (period_index_spec p) as (_ & Hpin & Hpout).
    exists sel, code. split; [exact Hside|].
    split; [exact Hin|]. split; [exact Hout|]. split; [exact Hpin|].
    split; [intros Hp; split; [auto|reflexivity]|].
    intros Hfirst. unfold chosen in Hsel, Hname. rewrite Hfirst in Hsel, Hname.
    rewrite lookup_empty in Hsel, Hname. split; [exact Hsel|].
    apply Hcodes. exact Hname.
  - intros t p Hq. destruct (main_opening w SP500_TICKERS t p Hq)
      as (sel & code & _ & Hmain).
    rewrite Hmain. exists sel, code. eexists. reflexivity.
Qed.

End Page.

(** The theorem at [example_world], whose URL asks for [ZZZZ], with the
    built-in universe: [AAPL] at index 0, [1 Year] at index 3. *)
Lemma url_state_example :
  get_query_params example_world = ([], Ok ("ZZZZ", "1y")) /\
  validate_ticker fallback_tickers "ZZZZ" = "AAPL" /\
  sidebar example_world fallback_tickers "AAPL" "1y"
    = (sidebar_entries fallback_tickers 0 3 (Some "AAPL") "1y",
       Ok (Some "AAPL", "1y")).
Proof.
  destruct (@url_state_fallbacks example_runtime example_world fallback_tickers)
    as (Hq & _ & Hv & _ & _ & _ & Hs & _).
  split; [|split].
  - destruct (Hq _ eq_refl) as (t & Ht & Hs'). rewrite Ht.
    rewrite (Hs' "ZZZZ" eq_refl). reflexivity.
  - apply Hv. intros H. apply list_elem_of_In in H.
    simpl in H. intuition discriminate.
  - destruct (Hs "AAPL" "1y") as (sel & code & Hside & _ & _ & _ & _ & Hfirst).
    destruct (Hfirst eq_refl) as [-> Hcode].
    vm_compute in Hcode. injection Hcode as <-. exact Hside.
Defined.

Ltac find_entry := repeat (first [left; reflexivity | right]).

(** C6 as stated fails. With a universe in which [AAPL] does not come
    first, the ticker [ZZZZ] falls back to [AAPL] at index 1, not 0. And
    with no ticker parameter at all the page selects [GOOGL] (index 3 of the
    built-in list), the default of the parameter lookup, not [AAPL]. *)
Lemma fallback_index_follows_universe :
  get_query_params example_world = ([], Ok ("ZZZZ", "1y")) /\
  validate_ticker remote_universe "ZZZZ" = "AAPL" /\
  In (ticker_selector remote_universe 1)
     (log (@main example_runtime example_world remote_universe)) /\
  get_query_params no_params_world = ([], Ok ("GOOGL", "1y")) /\
  In (ticker_selector fallback_tickers 3)
     (log (@main example_runtime no_params_world fallback_tickers)) /\
  In (Within Sidebar (Write "Ticker: `GOOGL`"))
     (log (@main example_runtime no_params_world fallback_tickers)).
Proof.
  split; [reflexivity|]. split; [reflexivity|].
  split; [vm_compute; find_entry|].
  split; [reflexivity|].
  split; vm_compute; find_entry.
Qed.

(* ===================================================================== *)
(** ** What a run leaves on the page                                      *)
(* ===================================================================== *)

Section Every.
Context (P : entry -> Prop).

Lemma every_ret {A} (a : A) : every P (ret a).
Proof. constructor. Qed.

Lemma every_lift {A} (o : outcome A) : every P (lift o).
Proof. constructor. Qed.

Lemma every_emit (e : entry) : P (leaf e) -> every P (emit e).
Proof. intros H. repeat constructor. exact H. Qed.

Lemma every_bind {A B} (m : M A) (k : A -> M B) :
  every P m -> (forall a, every P (k a)) -> every P (m ≫= k).
Proof.
  unfold every, log. intros Hm Hk. destruct m as [l [a|e]]; run; [|exact Hm].
  specialize (Hk a). destruct (k a) as [l' r]. apply Forall_app. split; assumption.
Qed.

Lemma every_within {A} (c : container) (m : M A) :
  every P m -> every P (within c m).
Proof.
  unfold every, within, log. simpl. intros H. apply Forall_map.
  eapply Forall_impl; [exact H|]. intros e He. exact He.
Qed.

Lemma every_try_except_Exception {A} (body : M A) (handler : exn -> M A) :
  every P body -> (forall e, every P (handler e)) ->
  every P (try_except_Exception body handler).
Proof.
  unfold every, log, try_except_Exception. intros Hb Hh.
  destruct body as [l [a|e]]; [exact Hb|].
  destruct (is_Exception e); [|exact Hb].
  specialize (Hh e). destruct (handler e) as [l' r]. apply Forall_app. split; assumption.
Qed.

End Every.

(** Walks through a computation, one call at a time. *)
Ltac every_walk solve_entry :=
  repeat first
    [ apply every_ret
    | apply every_lift
    | apply every_emit; solve_entry
    | apply every_within
    | apply every_bind; [|intros]
    | apply every_try_except_Exception; [|intros]
    | match goal with
      | |- every _ (if ?b then _ else _) => destruct b eqn:?
      | |- every _ (match ?x with _ => _ end) => destruct x eqn:?
      end ].

Lemma get_stock_data_cases (w : World) (ticker period : string) :
  get_stock_data w ticker period =
    match (stock ← Ticker w ticker; Yf.history stock period "1d") with
    | Ok hist_data => ([], Ok hist_data)
    | Raise e =>
        if is_Exception e
        then ([Error ("Error fetching data: " +:+ exn_str e)], Ok None)
        else ([], Raise e)
    end.
Proof.
  unfold get_stock_data, try_except_Exception.
  destruct (Ticker w ticker) as [stock|e]; run.
  - destruct (Yf.history stock period "1d") as [h|e]; [reflexivity|].
    destruct (is_Exception e); reflexivity.
  - destruct (is_Exception e); reflexivity.
Qed.

Lemma get_stock_data_errors (w : World) (ticker period : string) :
  every (fun e => exists text, e = Error text) (get_stock_data w ticker period).
Proof.
  rewrite get_stock_data_cases.
  destruct (_ ≫= _) as [h|e]; [constructor|].
  destruct (is_Exception e); repeat constructor. simpl. eauto.
Qed.

Lemma get_financial_data_errors (w : World) (ticker : string) :
  every (fun e => exists text, e = Error text) (get_financial_data w ticker).
Proof.
  rewrite get_financial_data_cases.
  destruct (Ticker w ticker) as [stock|e].
  - cbv zeta. destruct (Yf.info stock) as [i|e]; [constructor|].
    destruct e as [cls msg]. destruct cls; simpl; repeat constructor; simpl; eauto.
  - destruct (is_Exception e); repeat constructor. simpl. eauto.
Qed.

Section Analysis.
Context `{!Runtime}.

(** The block of [main] that shows the data, when the price history is
    [None]: both fetches run, then the one error line. *)
Lemma show_data_without_history (w : World) (ticker period : string) :
  ticker <> "" ->
  result (get_stock_data w ticker period) = Ok None ->
  show_data w (Some ticker) period =
    (map (Within (spinner ticker))
       (log (get_stock_data w ticker period)
        ++ log (get_financial_data w ticker)
        ++ match result (get_financial_data w ticker) with
           | Ok _ => [Error unable_to_fetch]
           | Raise _ => []
           end),
     match result (get_financial_data w ticker) with
     | Ok _ => Ok tt
     | Raise e => Raise e
     end)%list.
Proof.
  intros Hne Hnone. unfold show_data, spinner.
  apply String.eqb_neq in Hne. rewrite Hne. simpl negb. cbv iota.
  destruct (get_stock_data w ticker period) as [l1 r1]. simpl in Hnone. subst r1.
  destruct (get_financial_data w ticker) as [l2 [[fin|]|e]]; run;
    rewrite ?app_nil_r; reflexivity.
Qed.

(** C7, as the code has it. When the price history cannot be fetched
    (the fetch returns [None]), the block that shows the data leaves error
    messages and nothing else: no section of the analysis is rendered, those
    that do not use the price history included. The bundle fetch having
    returned, the block ends with the message that no data could be fetched;
    and an exception of the history call is itself shown as an error. *)
Theorem price_failure_hides_analysis (w : World) (ticker period : string) :
  ticker <> "" ->
  result (get_stock_data w ticker period) = Ok None ->
  every (fun e => exists text, e = Error text)
        (show_data w (Some ticker) period) /\
  (forall fin, result (get_financial_data w ticker) = Ok fin ->
     result (show_data w (Some ticker) period) = Ok tt /\
     In (Within (spinner ticker) (Error unable_to_fetch))
        (log (show_data w (Some ticker) period))) /\
  (forall e, (stock ← Ticker w ticker; Yf.history stock period "1d") = Raise e ->
     In (Within (spinner ticker) (Error ("Error fetching data: " +:+ exn_str e)))
        (log (show_data w (Some ticker) period))).
Proof.
  intros Hne Hnone.
  rewrite (show_data_without_history w ticker period Hne Hnone).
  pose proof (get_stock_data_errors w ticker period) as E1.
  pose proof (get_financial_data_errors w ticker) as E2.
  unfold every, log in *. simpl fst. simpl snd.
  split; [|split].
  - apply Forall_map. simpl. rewrite !Forall_app. split; [exact E1|].
    split; [exact E2|].
    destruct (result (get_financial_data w ticker)); repeat constructor. eauto.
  - intros fin Hfin. rewrite Hfin. split; [reflexivity|].
    apply in_map, in_or_app. right. apply in_or_app. right. left. reflexivity.
  - intros e He. apply in_map, in_or_app. left.
    rewrite get_stock_data_cases in Hnone |- *. rewrite He in Hnone |- *.
    destruct (is_Exception e); [left; reflexivity | discriminate].
Qed.

End Analysis.

(** The theorem at a world where the history call times out while the
    statement bundle arrives. *)
Lemma price_failure_example :
  every (fun e => exists text, e = Error text)
        (@show_data example_runtime price_failure_world (Some "AAPL") "1y") /\
  result (@show_data example_runtime price_failure_world (Some "AAPL") "1y") = Ok tt.
Proof.
  destruct (@price_failure_hides_analysis example_runtime price_failure_world
              "AAPL" "1y") as (Hall & Hend & _);
    [discriminate | reflexivity |].
  split; [exact Hall|].
  apply (Hend (Some example_bundle)). reflexivity.
Defined.

(** C7 as stated fails: the history call times out, the statement bundle is
    fetched in full, and the page is the banners, the sidebar, two error
    lines and the footer. No section is rendered, although the company
    information, the key metrics, the financial chart and the tables need
    nothing from the price history. *)
Lemma price_failure_renders_no_section :
  get_stock_data price_failure_world "AAPL" "1y"
    = ([Error "Error fetching data: timed out"], Ok None) /\
  get_financial_data price_failure_world "AAPL" = ([], Ok (Some example_bundle)) /\
  @script example_runtime price_failure_world
    = (Download wikipedia_url
       :: page_top
       ++ sidebar_entries fallback_tickers 0 3 (Some "AAPL") "1y"
       ++ [ Within (spinner "AAPL") (Error "Error fetching data: timed out");
            Within (spinner "AAPL") (Error unable_to_fetch);
            Markdown "---" ],
       Ok tt)%list.
Proof. split; [|split]; vm_compute; reflexivity. Qed.

(* ===================================================================== *)
(** ** Dividends and splits                                               *)
(* ===================================================================== *)

Ltac other_entry :=
  simpl;
  first
    [ exact I
    | assumption
    | apply negb_true_iff; assumption
    | let H := fresh in intros H; vm_compute in H; discriminate H ].

Lemma safe_display_quiet (w : World) (data : option DataFrame)
    (title warning_msg : string) :
  every not_actions_section (safe_display_dataframe w data title warning_msg).
Proof.
  unfold safe_display_dataframe, dataframe. every_walk other_entry.
Qed.

Lemma display_all_quiet (w : World) (financial_data : FinancialData) :
  every not_actions_section (display_all_financial_data w financial_data).
Proof.
  unfold display_all_financial_data.
  repeat first
    [ apply safe_display_quiet
    | apply every_emit; other_entry
    | apply every_bind; [|intros] ].
Qed.

Section Actions.
Context `{!Runtime}.

Lemma company_information_quiet (info : gmap string pyval) :
  every not_actions_section (company_information info).
Proof. unfold company_information. every_walk other_entry. Qed.

Lemma display_key_metrics_quiet (info : gmap string pyval) :
  every not_actions_section (display_key_metrics info).
Proof.
  unfold display_key_metrics, market_cap_metric, pe_ratio_metric,
    current_price_metric, dividend_yield_metric, day_range_metric,
    book_value_metric, volume_metric, beta_metric, unless_na.
  every_walk other_entry.
Qed.

(** Up to the dividends block, the analysis leaves neither the header of
    that block nor an empty table. *)
Lemma render_analysis_quiet (w : World) (ticker : string) (hist_data : DataFrame)
    (financial_data : FinancialData) :
  every not_actions_section (actions_section w financial_data) ->
  every not_actions_section (render_analysis w ticker hist_data financial_data).
Proof.
  intros Hact. unfold render_analysis.
  repeat lazymatch goal with
    | |- every _ (actions_section _ _) => exact Hact
    | |- every _ (company_information _) => apply company_information_quiet
    | |- every _ (display_key_metrics _) => apply display_key_metrics_quiet
    | |- every _ (display_all_financial_data _ _) => apply display_all_quiet
    | |- every _ (lift _) => apply every_lift
    | |- every _ (ret _) => apply every_ret
    | |- every _ (emit _) => apply every_emit; other_entry
    | |- every _ (_ ≫= _) => apply every_bind; [|intros]
    | |- every _ (match ?x with _ => _ end) => destruct x
    end.
Qed.

End Actions.

Lemma ends_with_bind {A} (suffix : list entry) (m : M A) (k : A -> M unit) :
  (forall a, ends_with suffix (k a)) -> ends_with suffix (m ≫= k).
Proof.
  unfold ends_with, result, log. intros Hk.
  destruct m as [l [a|e]]; run; [|discriminate].
  specialize (Hk a). destruct (k a) as [l' r]. simpl in *.
  intros Hr. destruct (Hk Hr) as [before ->].
  exists (l ++ before)%list. apply app_assoc.
Qed.

Section ActionsSection.
Context `{!Runtime}.

(** C8. With an empty table of corporate actions the dividends block leaves
    nothing, and nothing else of the analysis is the header of that block or
    shows the empty table: the section is absent from the page. With a
    table that is not empty the block is the header followed by the table,
    and a page whose analysis completes ends with the two. *)
Theorem actions_section_iff_nonempty (w : World) (ticker : string)
    (hist_data : DataFrame) (financial_data : FinancialData) (df : DataFrame) :
  actions financial_data = Some df ->
  (empty df = true ->
     actions_section w financial_data = ([], Ok tt) /\
     Forall (fun e => leaf e <> actions_header /\ leaf e <> Dataframe df)
            (log (render_analysis w ticker hist_data financial_data))) /\
  (empty df = false ->
     (st_dataframe w df = Ok tt ->
        actions_section w financial_data
          = ([actions_header; Dataframe df], Ok tt)) /\
     (result (render_analysis w ticker hist_data financial_data) = Ok tt ->
        exists before,
          log (render_analysis w ticker hist_data financial_data)
            = (before ++ [actions_header; Dataframe df])%list)).
Proof.
  intros Ha. pose proof (actions_section_cases w financial_data df Ha) as Hcases.
  split.
  - intros He. rewrite He in Hcases. split; [exact Hcases|].
    assert (Hquiet : every not_actions_section
                       (render_analysis w ticker hist_data financial_data)).
    { apply render_analysis_quiet. rewrite Hcases. constructor. }
    eapply Forall_impl; [exact Hquiet|]. intros e Hq. simpl in Hq.
    split; intros Heq; rewrite Heq in Hq; simpl in Hq.
    + apply Hq. reflexivity.
    + congruence.
  - intros He. rewrite He in Hcases. split.
    + intros Hr. rewrite Hr in Hcases. exact Hcases.
    + unfold render_analysis.
      repeat (apply ends_with_bind; intros).
      unfold ends_with. rewrite Hcases.
      destruct (st_dataframe w df) as [[]|e]; [|discriminate].
      intros _. exists []. reflexivity.
Qed.

End ActionsSection.

(** The theorem at [example_bundle], which has no corporate actions, and at
    the same bundle with one dividend. *)
Lemma actions_section_example :
  actions_section example_world example_bundle = ([], Ok tt) /\
  Forall (fun e => leaf e <> actions_header /\ leaf e <> Dataframe empty_frame)
         (log (@render_analysis example_runtime example_world "AAPL"
                 example_history example_bundle)) /\
  actions_section example_world (with_actions example_actions)
    = ([actions_header; Dataframe example_actions], Ok tt) /\
  exists before,
    log (@render_analysis example_runtime example_world "AAPL" example_history
           (with_actions example_actions))
      = (before ++ [actions_header; Dataframe example_actions])%list.
Proof.
  destruct (@actions_section_iff_nonempty example_runtime example_world "AAPL"
              example_history example_bundle empty_frame eq_refl)
    as [Hempty _].
  destruct (@actions_section_iff_nonempty example_runtime example_world "AAPL"
              example_history (with_actions example_actions) example_actions
              eq_refl) as [_ Hshown].
  destruct (Hempty eq_refl) as [H1 H2].
  destruct (Hshown eq_refl) as [H3 H4].
  split; [exact H1|]. split; [exact H2|]. split; [exact (H3 eq_refl)|].
  apply H4. vm_compute. reflexivity.
Defined.

(* ===================================================================== *)
(** ** Callbacks: writing the selection back to the URL                   *)
(* ===================================================================== *)

Ltac act :=
  unfold mbind, mret, Act_bind, Act_ret, act_bind, act_ret, session_attr, call,
    eval, assign_param in *;
  cbn beta iota in *;
  cbn [with_query_params query_params session_state St.result fst snd] in *.

(** Reading the URL parameters leaves nothing on the page. *)
Lemma get_query_params_silent (w : World) : log (get_query_params w) = [].
Proof.
  rewrite get_query_params_cases.
  destruct (query_params w) as [params|e]; [reflexivity|].
  destruct (is_Exception e); reflexivity.
Qed.

Lemma update_ticker_in_url_cases (w : World) :
  update_ticker_in_url w =
    match session_state w !! "ticker_selectbox", query_params w with
    | Some sel, Ok params =>
        (with_query_params w
           (<["period" := default "1y" (params !! "period")]>
              (<["ticker" := sel]> params)), Ok tt)
    | Some _, Raise e =>
        if is_Exception e then (w, Ok tt) else (w, Raise e)
    | None, _ => (w, Ok tt)
    end.
Proof.
  unfold update_ticker_in_url, pass_on_Exception. act.
  destruct (session_state w !! "ticker_selectbox") as [sel|]; [|reflexivity].
  rewrite get_query_params_cases.
  destruct (query_params w) as [params|e] eqn:Hq; act.
  - rewrite Hq. act. reflexivity.
  - destruct (is_Exception e) eqn:He; act; rewrite ?Hq, ?He; reflexivity.
Qed.

Lemma update_period_in_url_cases (w : World) :
  update_period_in_url w =
    match session_state w !! "period_selectbox" with
    | Some name =>
        match dict_getitem period_options (Some name), query_params w with
        | Ok code, Ok params =>
            (with_query_params w
               (<["period" := code]>
                  (<["ticker" := default "GOOGL" (params !! "ticker")]> params)),
             Ok tt)
        | Ok _, Raise e =>
            if is_Exception e then (w, Ok tt) else (w, Raise e)
        | Raise _, _ => (w, Ok tt)
        end
    | None => (w, Ok tt)
    end.
Proof.
  unfold update_period_in_url, pass_on_Exception. act.
  destruct (session_state w !! "period_selectbox") as [name|]; [|reflexivity].
  destruct (dict_getitem period_options (Some name)) as [code|e] eqn:Hcode; act.
  - rewrite get_query_params_cases.
    destruct (query_params w) as [params|e] eqn:Hq; act.
    + rewrite Hq. act. reflexivity.
    + destruct (is_Exception e) eqn:He; act; rewrite ?Hq, ?He; reflexivity.
  - assert (He : is_Exception e = true).
    { clear -Hcode. revert Hcode. generalize period_options.
      induction l as [|[k v] rest IH]; simpl.
      - intros [= <-]. reflexivity.
      - destruct (String.eqb k name); [discriminate|exact IH]. }
    rewrite He. reflexivity.
Qed.

(** X1. The ticker callback writes the ticker picked in the selector to the
    URL, together with the period as the URL gave it (or [1y]); the other
    parameters and the session are kept, and reading the URL back gives the
    picked ticker. Without a picked value, or with unreadable parameters, it
    changes nothing and still returns. *)
Theorem ticker_callback_writes_selection (w : World) :
  (forall sel params,
     session_state w !! "ticker_selectbox" = Some sel ->
     query_params w = Ok params ->
     exists w' params',
       update_ticker_in_url w = (w', Ok tt) /\
       query_params w' = Ok params' /\
       params' !! "ticker" = Some sel /\
       params' !! "period" = Some (default "1y" (params !! "period")) /\
       (forall k, k <> "ticker" -> k <> "period" -> params' !! k = params !! k) /\
       get_query_params w' = ([], Ok (sel, default "1y" (params !! "period"))) /\
       session_state w' = session_state w) /\
  (session_state w !! "ticker_selectbox" = None ->
     update_ticker_in_url w = (w, Ok tt)) /\
  (forall e, query_params w = Raise e -> is_Exception e = true ->
     update_ticker_in_url w = (w, Ok tt)).
Proof.
  pose proof (update_ticker_in_url_cases w) as H.
  split; [|split].
  - intros sel params Hs Hq. rewrite Hs, Hq in H.
    eexists _, _. split; [exact H|].
    split; [reflexivity|].
    split; [rewrite lookup_insert_ne by discriminate; apply lookup_insert_eq|].
    split; [apply lookup_insert_eq|].
    split; [intros k Ht Hp; rewrite !lookup_insert_ne by congruence; reflexivity|].
    split; [|reflexivity].
    rewrite get_query_params_cases. cbn [with_query_params query_params].
    rewrite lookup_insert_ne by discriminate.
    rewrite !lookup_insert_eq. reflexivity.
  - intros Hs. rewrite Hs in H. exact H.
  - intros e Hq He. rewrite Hq, He in H.
    destruct (session_state w !! "ticker_selectbox"); exact H.
Qed.

(** X2. The period callback writes the code of the period picked in the
    selector to the URL, together with the ticker as the URL gave it (or the
    lookup default); reading the URL back gives that code. A picked name
    that is not one of the six, no picked value, or unreadable parameters
    change nothing, and the callback still returns. *)
Theorem period_callback_writes_selection (w : World) :
  (forall name code params,
     session_state w !! "period_selectbox" = Some name ->
     dict_getitem period_options (Some name) = Ok code ->
     query_params w = Ok params ->
     exists w' params',
       update_period_in_url w = (w', Ok tt) /\
       query_params w' = Ok params' /\
       params' !! "period" = Some code /\
       (forall t, params !! "ticker" = Some t -> params' !! "ticker" = Some t) /\
       (forall k, k <> "ticker" -> k <> "period" -> params' !! k = params !! k) /\
       (exists t, get_query_params w' = ([], Ok (t, code))) /\
       session_state w' = session_state w) /\
  (forall name e,
     session_state w !! "period_selectbox" = Some name ->
     dict_getitem period_options (Some name) = Raise e ->
     update_period_in_url w = (w, Ok tt)) /\
  (session_state w !! "period_selectbox" = None ->
     update_period_in_url w = (w, Ok tt)) /\
  (forall e, query_params w = Raise e -> is_Exception e = true ->
     update_period_in_url w = (w, Ok tt)).
Proof.
  pose proof (update_period_in_url_cases w) as H.
  split; [|split; [|split]].
  - intros name code params Hs Hc Hq. rewrite Hs, Hc, Hq in H.
    eexists _, _. split; [exact H|].
    split; [reflexivity|].
    split; [apply lookup_insert_eq|].
    split.
    { intros t Ht. rewrite lookup_insert_ne by discriminate.
      rewrite lookup_insert_eq, Ht. reflexivity. }
    split; [intros k Ht Hp; rewrite !lookup_insert_ne by congruence; reflexivity|].
    split; [|reflexivity].
    eexists. rewrite get_query_params_cases. cbn [with_query_params query_params].
    rewrite lookup_insert_eq. reflexivity.
  - intros name e Hs Hc. rewrite Hs, Hc in H. exact H.
  - intros Hs. rewrite Hs in H. exact H.
  - intros e Hq He. rewrite Hq, He in H.
    destruct (session_state w !! "period_selectbox") as [name|]; [|exact H].
    destruct (dict_getitem period_options (Some name)); exact H.
Qed.

(** The two callbacks on [picked_world]: the URL ends up asking for [MSFT]
    and [3mo]. *)
Example callbacks_on_picked_world :
  exists w1 w2,
    update_ticker_in_url picked_world = (w1, Ok tt) /\
    update_period_in_url w1 = (w2, Ok tt) /\
    get_query_params w2 = ([], Ok ("MSFT", "3mo")) /\
    update_ticker_in_url unreadable_params_world = (unreadable_params_world, Ok tt).
Proof. eexists _, _. repeat split. Qed.

Lemma with_query_params_twice (w : World) (p q : gmap string string) :
  with_query_params (with_query_params w p) q = with_query_params w q.
Proof. reflexivity. Qed.

(** X3. Running a callback a second time changes nothing more, and the two
    callbacks can run in either order: the world they leave and what they
    return are the same. *)
Theorem callbacks_idempotent_and_commute (w : World) :
  (update_ticker_in_url;; update_ticker_in_url) w = update_ticker_in_url w /\
  (update_period_in_url;; update_period_in_url) w = update_period_in_url w /\
  (update_ticker_in_url;; update_period_in_url) w
    = (update_period_in_url;; update_ticker_in_url) w.
Proof.
  unfold mbind, Act_bind, act_bind.
  split; [|split].
  - rewrite (update_ticker_in_url_cases w).
    destruct (session_state w !! "ticker_selectbox") as [sel|] eqn:Hs.
    + destruct (query_params w) as [params|e] eqn:Hq.
      * rewrite update_ticker_in_url_cases.
        cbn [with_query_params query_params session_state]. rewrite Hs.
        rewrite lookup_insert_eq. cbn [default].
        rewrite with_query_params_twice. f_equal. f_equal.
        apply map_eq. intros k. rewrite !lookup_insert.
        repeat case_decide; reflexivity.
      * destruct (is_Exception e) eqn:He; [|reflexivity].
        rewrite update_ticker_in_url_cases, Hs, Hq, He. reflexivity.
    + rewrite update_ticker_in_url_cases, Hs. reflexivity.
  - rewrite (update_period_in_url_cases w).
    destruct (session_state w !! "period_selectbox") as [name|] eqn:Hs.
    + destruct (dict_getitem period_options (Some name)) as [code|e'] eqn:Hc.
      * destruct (query_params w) as [params|e] eqn:Hq.
        -- rewrite update_period_in_url_cases.
           cbn [with_query_params query_params session_state]. rewrite Hs, Hc.
           rewrite lookup_insert_ne by discriminate.
           rewrite lookup_insert_eq. cbn [default].
           rewrite with_query_params_twice. f_equal. f_equal.
           apply map_eq. intros k. rewrite !lookup_insert.
           repeat case_decide; reflexivity.
        -- destruct (is_Exception e) eqn:He; [|reflexivity].
           rewrite update_period_in_url_cases, Hs, Hc, Hq, He. reflexivity.
      * rewrite update_period_in_url_cases, Hs, Hc. reflexivity.
    + rewrite update_period_in_url_cases, Hs. reflexivity.
  - rewrite (update_ticker_in_url_cases w), (update_period_in_url_cases w).
    destruct (session_state w !! "ticker_selectbox") as [sel|] eqn:Hs;
      destruct (session_state w !! "period_selectbox") as [name|] eqn:Hn;
      try destruct (dict_getitem period_options (Some name)) as [code|e'] eqn:Hc;
      destruct (query_params w) as [params|e] eqn:Hq;
      try destruct (is_Exception e) eqn:He;
      rewrite ?update_ticker_in_url_cases, ?update_period_in_url_cases;
      cbn [with_query_params query_params session_state];
      rewrite ?Hs, ?Hn, ?Hc, ?Hq, ?He; try reflexivity.
    rewrite !with_query_params_twice.
    rewrite (lookup_insert_ne _ "period" "ticker") by discriminate.
    rewrite !lookup_insert_eq. cbn [default].
    f_equal. f_equal. apply map_eq. intros k. rewrite !lookup_insert.
    repeat case_decide; reflexivity.
Qed.

(* ===================================================================== *)
(** ** The selectors                                                      *)
(* ===================================================================== *)

Lemma chosen_nil (w : World) (key : string) (idx : nat) :
  chosen w key [] idx = None.
Proof.
  unfold chosen. destruct (session_state w !! key) as [v|]; [|reflexivity].
  case_bool_decide as Hv; [inversion Hv|reflexivity].
Qed.

(** X4. The sidebar never raises. The period it returns is always one of the
    six codes and its selector index is below 6; the ticker it returns is a
    member of the universe, at an index inside it, unless the universe is
    empty, when no ticker is returned. *)
Theorem sidebar_selection_is_valid (w : World) (SP500_TICKERS : list string)
    (t p : string) :
  exists sel code it ip,
    sidebar w SP500_TICKERS t p
      = (sidebar_entries SP500_TICKERS it ip sel code, Ok (sel, code)) /\
    code ∈ period_codes /\ (ip < 6)%nat /\
    (SP500_TICKERS = [] -> sel = None /\ it = O) /\
    (SP500_TICKERS <> [] ->
       (it < length SP500_TICKERS)%nat /\ exists s, sel = Some s /\ s ∈ SP500_TICKERS).
Proof.
  destruct (sidebar_run w SP500_TICKERS t p)
    as (sel & name & code & Hside & Hsel & Hname & Hcodes).
  destruct (ticker_index_spec SP500_TICKERS t) as (_ & Hin & Hout).
  destruct (period_index_spec p) as (Hlt & _).
  exists sel, code, (ticker_index SP500_TICKERS t), (period_index p).
  split; [exact Hside|]. split; [|split; [exact Hlt|split]].
  - destruct (chosen_is_option w "period_selectbox" period_names (period_index p) Hlt)
      as (name' & Hname' & Hmem).
    rewrite Hname in Hname'. injection Hname' as <-.
    apply list_elem_of_lookup_1 in Hmem as [i Hi].
    eapply list_elem_of_lookup_2. apply Hcodes. exact Hi.
  - intros ->. split; [|apply Hout; apply not_elem_of_nil].
    subst sel. apply chosen_nil.
  - intros Hne.
    assert (Hidx : (ticker_index SP500_TICKERS t < length SP500_TICKERS)%nat).
    { destruct (decide (t ∈ SP500_TICKERS)) as [H|H].
      - eapply lookup_lt_Some. apply Hin. exact H.
      - rewrite (Hout H). destruct SP500_TICKERS; [contradiction|simpl; lia]. }
    split; [exact Hidx|].
    destruct (chosen_is_option w "ticker_selectbox" SP500_TICKERS _ Hidx)
      as (s & Hs & Hmem).
    exists s. split; [congruence|exact Hmem].
Qed.

Section Selection.
Context `{!Runtime}.

(** X5. A first load from a URL that names a ticker of the universe and one
    of the six period codes selects exactly these two: both selectors point
    at them, and they are what the page goes on to show. *)
Theorem url_selects_what_it_names (w : World) (SP500_TICKERS : list string)
    (t p : string) (params : gmap string string) :
  query_params w = Ok params ->
  params !! "ticker" = Some t -> params !! "period" = Some p ->
  t ∈ SP500_TICKERS -> p ∈ period_codes ->
  session_state w = ∅ ->
  exists it ip,
    SP500_TICKERS !! it = Some t /\ period_codes !! ip = Some p /\
    main w SP500_TICKERS
      = (page_top ++ sidebar_entries SP500_TICKERS it ip (Some t) p
         ++ log (show_data w (Some t) p;; emit (Markdown "---")),
         result (show_data w (Some t) p;; emit (Markdown "---")))%list.
Proof.
  intros Hq Ht Hp Hin Hcode Hfirst.
  assert (Hget : get_query_params w = ([], Ok (t, p))).
  { rewrite get_query_params_cases, Hq, Ht, Hp. reflexivity. }
  assert (Hval : validate_ticker SP500_TICKERS t = t).
  { unfold validate_ticker. case_bool_decide; [reflexivity|contradiction]. }
  destruct (main_opening w SP500_TICKERS t p Hget) as (sel & code & Hside & Hmain).
  rewrite Hval in Hside, Hmain.
  destruct (sidebar_run w SP500_TICKERS t p)
    as (sel' & name & code' & Hside' & Hsel & Hname & Hcodes).
  rewrite Hside in Hside'. apply (f_equal snd) in Hside'. cbn [snd] in Hside'.
  injection Hside' as <- <-.
  destruct (ticker_index_spec SP500_TICKERS t) as (_ & Hidx & _).
  destruct (period_index_spec p) as (_ & Hpidx & _).
  unfold chosen in Hsel, Hname. rewrite Hfirst, lookup_empty in Hsel, Hname.
  rewrite (Hidx Hin) in Hsel.
  pose proof (Hcodes _ Hname) as Hc. rewrite (Hpidx Hcode) in Hc.
  injection Hc as <-. subst sel.
  exists (ticker_index SP500_TICKERS t), (period_index p).
  split; [auto|]. split; [auto|]. exact Hmain.
Qed.

(** X6. When the selector returns no ticker, which is what it does on an
    empty universe, or returns the empty string, no data is fetched or shown:
    after the sidebar the page is the prompt to select a stock and the
    footer, and the run returns. *)
Theorem no_ticker_shows_prompt (w : World) (SP500_TICKERS : list string)
    (t p : string) :
  get_query_params w = ([], Ok (t, p)) ->
  exists sel code it ip,
    sidebar w SP500_TICKERS (validate_ticker SP500_TICKERS t) p
      = (sidebar_entries SP500_TICKERS it ip sel code, Ok (sel, code)) /\
    (SP500_TICKERS = [] -> sel = None) /\
    (sel = None \/ sel = Some "" ->
       main w SP500_TICKERS
         = (page_top ++ sidebar_entries SP500_TICKERS it ip sel code
            ++ [Info please_select; Markdown "---"], Ok tt)%list).
Proof.
  intros Hget.
  destruct (main_opening w SP500_TICKERS t p Hget) as (sel & code & Hside & Hmain).
  destruct (sidebar_run w SP500_TICKERS (validate_ticker SP500_TICKERS t) p)
    as (sel' & name & code' & Hside' & Hsel & _).
  rewrite Hside in Hside'. apply (f_equal snd) in Hside'. cbn [snd] in Hside'.
  injection Hside' as <- <-.
  exists sel, code, (ticker_index SP500_TICKERS (validate_ticker SP500_TICKERS t)),
    (period_index p).
  split; [exact Hside|]. split.
  - intros ->. rewrite Hsel. apply chosen_nil.
  - intros Hnone. rewrite Hmain. destruct Hnone as [-> | ->]; reflexivity.
Qed.

End Selection.

(** X5 at [shared_url_world] with the built-in universe: [MSFT] is at
    index 1 and [3 Months] at index 1. *)
Lemma url_selects_example :
  exists it ip,
    fallback_tickers !! it = Some "MSFT" /\ period_codes !! ip = Some "3mo" /\
    @main example_runtime shared_url_world fallback_tickers
      = (page_top ++ sidebar_entries fallback_tickers it ip (Some "MSFT") "3mo"
         ++ log (@show_data example_runtime shared_url_world (Some "MSFT") "3mo";;
                 emit (Markdown "---")),
         result (@show_data example_runtime shared_url_world (Some "MSFT") "3mo";;
                 emit (Markdown "---")))%list.
Proof.
  apply (@url_selects_what_it_names example_runtime shared_url_world
           fallback_tickers "MSFT" "3mo"
           (<["ticker" := "MSFT"]> (<["period" := "3mo"]> ∅))).
  - reflexivity.
  - vm_compute; reflexivity.
  - vm_compute; reflexivity.
  - apply list_elem_of_In. vm_compute. auto.
  - apply list_elem_of_In. vm_compute. auto.
  - reflexivity.
Defined.

(** X6 on a universe with no symbol at all. *)
Lemma no_ticker_example :
  exists sel code it ip,
    sidebar no_params_world [] (validate_ticker [] "GOOGL") "1y"
      = (sidebar_entries [] it ip sel code, Ok (sel, code)) /\
    (@nil string = [] -> sel = None) /\
    (sel = None \/ sel = Some "" ->
       @main example_runtime no_params_world []
         = (page_top ++ sidebar_entries [] it ip sel code
            ++ [Info please_select; Markdown "---"], Ok tt)%list).
Proof.
  apply (@no_ticker_shows_prompt example_runtime no_params_world [] "GOOGL" "1y").
  vm_compute; reflexivity.
Defined.

(* ===================================================================== *)
(** ** The price chart                                                    *)
(* ===================================================================== *)

Lemma length_positions (label : string) (labels : list string) (k : nat) :
  length (positions label labels k) = count_occ string_dec labels label.
Proof.
  revert k. induction labels as [|l rest IH]; intros k; [reflexivity|].
  cbn [positions count_occ].
  destruct (String.eqb_spec l label) as [->|Hne]; destruct (string_dec _ _);
    try contradiction; cbn [length]; rewrite IH; reflexivity.
Qed.

(** A column selection, by the number of columns that carry the label. *)
Lemma getitem_by_occurrences (hist_data : DataFrame) (label : string) :
  match occurrences hist_data label with
  | O => getitem hist_data label = key_error label
  | 1%nat => exists cells,
      getitem hist_data label = Ok (Series (index hist_data) cells)
  | n => exists f,
      data_array (SubFrame f) = Raise (duplicate_error label n) /\
      getitem hist_data label = Ok (SubFrame f)
  end.
Proof.
  unfold occurrences, getitem.
  rewrite <- (length_positions label (columns hist_data) 0).
  destruct (positions label (columns hist_data) 0) as [|j [|j' js]];
    cbn [length]; [reflexivity|eauto|].
  eexists. split; [|reflexivity]. cbn [data_array columns hd map length].
  rewrite length_map. reflexivity.
Qed.

(** The price chart, by the columns that the history lacks or repeats. *)
Lemma plot_stock_price_cases (hist_data : DataFrame) (ticker : string) :
  plot_stock_price hist_data ticker =
    match first_missing hist_data candle_columns with
    | Some c => key_error c
    | None =>
        match first_repeated hist_data ["Close"; "High"; "Low"; "Open"] with
        | Some c => Raise (duplicate_error c (occurrences hist_data c))
        | None =>
            match occurrences hist_data "Volume" with
            | O => key_error "Volume"
            | 1%nat =>
                Ok {| grid := {| rows := 2; cols := 1; shared_xaxes := true;
                                 vertical_spacing := Some (lit 3 100);
                                 subplot_titles :=
                                   [ticker +:+ " Stock Price"; "Trading Volume"];
                                 row_width := [lit 2 10; lit 7 10] |};
                      data := [ (Candlestick (index hist_data)
                                   (column hist_data "Open") (column hist_data "High")
                                   (column hist_data "Low") (column hist_data "Close")
                                   "Stock Price", (1%nat, 1%nat));
                                (Bar (index hist_data) (column hist_data "Volume")
                                   "Volume" (Some "rgba(158,202,225,0.8)"),
                                 (2%nat, 1%nat)) ];
                      layout := [("title", PyStr (ticker +:+ " Stock Price and Volume"));
                                 ("xaxis_rangeslider_visible", PyBool false);
                                 ("height", PyInt 600)] |}
            | n => Raise (duplicate_error "Volume" n)
            end
        end
    end.
Proof.
  unfold plot_stock_price, first_missing, first_repeated, candle_columns, column.
  cbn [List.find].
  pose proof (getitem_by_occurrences hist_data "Open") as HO.
  pose proof (getitem_by_occurrences hist_data "High") as HH.
  pose proof (getitem_by_occurrences hist_data "Low") as HL.
  pose proof (getitem_by_occurrences hist_data "Close") as HC.
  pose proof (getitem_by_occurrences hist_data "Volume") as HV.
  destruct (occurrences hist_data "Open") as [|[|nO]] eqn:EO;
    [rewrite HO; reflexivity| |];
  (destruct (occurrences hist_data "High") as [|[|nH]] eqn:EH;
    [repeat match goal with
            | H : exists _, _ |- _ => destruct H as [? H]
            | H : _ /\ _ |- _ => destruct H as [? H]
            end; rewrite HO, HH; reflexivity| |]);
  (destruct (occurrences hist_data "Low") as [|[|nL]] eqn:EL;
    [repeat match goal with
            | H : exists _, _ |- _ => destruct H as [? H]
            | H : _ /\ _ |- _ => destruct H as [? H]
            end; rewrite HO, HH, HL; reflexivity| |]);
  (destruct (occurrences hist_data "Close") as [|[|nC]] eqn:EC;
    [repeat match goal with
            | H : exists _, _ |- _ => destruct H as [? H]
            | H : _ /\ _ |- _ => destruct H as [? H]
            end; rewrite HO, HH, HL, HC; reflexivity| |]);
  cbn [Nat.eqb Nat.leb];
  (destruct (occurrences hist_data "Volume") as [|[|nV]] eqn:EV);
  repeat match goal with
         | H : exists _, _ |- _ => destruct H as [? H]
         | H : _ /\ _ |- _ => destruct H as [? H]
         end;
  rewrite ?HO, ?HH, ?HL, ?HC, ?HV;
  cbn [mbind outcome_bind obind];
  repeat match goal with
         | H : data_array (SubFrame _) = _ |- _ => rewrite H
         | |- context [data_array (Series ?i ?c)] =>
             change (data_array (Series i c)) with (Ok (Arr1 c))
         end;
  cbn [mbind outcome_bind obind];
  rewrite ?EO, ?EH, ?EL, ?EC, ?EV;
  reflexivity.
Qed.

Ltac listed := rewrite !elem_of_cons; auto 10.

(** X7. The price chart is built exactly when the history has each of the
    columns Open, High, Low, Close and Volume once. Otherwise the call
    raises, in this order: the KeyError of the first of Open, High, Low and
    Close that is missing; with these four present, a ValueError when one of
    them comes more than once, since the candlesticks are refused a table
    for a column, and this before the volume is read; and then the KeyError
    or the ValueError of a Volume that is missing or comes more than once. A
    chart that is built has the candlesticks alone in the upper cell and the
    volume bars alone in the lower cell of a grid of two rows and one column,
    both over the dates of the history; this needs no row, a history without
    rows gives the chart with nothing in it. *)
Theorem price_chart_needs_five_columns (hist_data : DataFrame) (ticker : string) :
  ((exists fig, plot_stock_price hist_data ticker = Ok fig) <->
     forall c, c ∈ price_columns -> occurrences hist_data c = 1%nat) /\
  (forall c, first_missing hist_data candle_columns = Some c ->
     occurrences hist_data c = O /\
     plot_stock_price hist_data ticker = key_error c) /\
  (first_missing hist_data candle_columns = None ->
   forall c, c ∈ candle_columns -> (2 <= occurrences hist_data c)%nat ->
     exists e, plot_stock_price hist_data ticker = Raise e /\
               exn_cls e = ValueError) /\
  ((forall c, c ∈ candle_columns -> occurrences hist_data c = 1%nat) ->
     (occurrences hist_data "Volume" = O ->
        plot_stock_price hist_data ticker = key_error "Volume") /\
     ((2 <= occurrences hist_data "Volume")%nat ->
        exists e, plot_stock_price hist_data ticker = Raise e /\
                  exn_cls e = ValueError)) /\
  (forall fig, plot_stock_price hist_data ticker = Ok fig ->
     rows (grid fig) = 2%nat /\ cols (grid fig) = 1%nat /\
     length (data fig) = 2%nat /\
     cell fig 1 1 = [Candlestick (index hist_data) (column hist_data "Open")
                       (column hist_data "High") (column hist_data "Low")
                       (column hist_data "Close") "Stock Price"] /\
     cell fig 2 1 = [Bar (index hist_data) (column hist_data "Volume") "Volume"
                       (Some "rgba(158,202,225,0.8)")]) /\
  (exists fig, plot_stock_price no_rows_history ticker = Ok fig /\
     cell fig 1 1 = [Candlestick [] (Arr1 []) (Arr1 []) (Arr1 []) (Arr1 []) "Stock Price"] /\
     cell fig 2 1 = [Bar [] (Arr1 []) "Volume" (Some "rgba(158,202,225,0.8)")]).
Proof.
  pose proof (plot_stock_price_cases hist_data ticker) as Hcases.
  assert (Honce : (forall c, c ∈ candle_columns -> occurrences hist_data c = 1%nat) ->
            first_missing hist_data candle_columns = None /\
            first_repeated hist_data ["Close"; "High"; "Low"; "Open"] = None).
  { intros Hall. unfold first_missing, first_repeated, candle_columns in *.
    cbn [List.find].
    rewrite (Hall "Open"), (Hall "High"), (Hall "Low"), (Hall "Close") by listed.
    split; reflexivity. }
  assert (Hrep : first_missing hist_data candle_columns = None ->
            forall c, c ∈ candle_columns -> (2 <= occurrences hist_data c)%nat ->
            exists c', first_repeated hist_data ["Close"; "High"; "Low"; "Open"]
                         = Some c').
  { intros _ c Hc Htwice.
    destruct (first_repeated hist_data ["Close"; "High"; "Low"; "Open"]) as [c'|] eqn:Hr;
      [eauto|].
    pose proof (find_none _ _ Hr c) as Hb. cbn beta in Hb.
    assert (Hin : In c ["Close"; "High"; "Low"; "Open"]).
    { apply list_elem_of_In. revert Hc. unfold candle_columns.
      rewrite !elem_of_cons. tauto. }
    specialize (Hb Hin). apply Nat.leb_gt in Hb. lia. }
  split; [|split; [|split; [|split; [|split]]]].
  - split.
    + intros [fig Hfig]. rewrite Hcases in Hfig.
      destruct (first_missing hist_data candle_columns) as [c|] eqn:Hm;
        [discriminate|].
      destruct (first_repeated hist_data ["Close"; "High"; "Low"; "Open"])
        as [c|] eqn:Hr; [discriminate|].
      destruct (occurrences hist_data "Volume") as [|[|n]] eqn:EV; try discriminate.
      intros c Hc. unfold price_columns in Hc.
      assert (Hcandle : c ∈ candle_columns -> occurrences hist_data c = 1%nat).
      { intros Hin.
        pose proof (find_none _ _ Hm c) as H0. pose proof (find_none _ _ Hr c) as H2.
        cbn beta in H0, H2.
        assert (In c candle_columns) by (apply list_elem_of_In; exact Hin).
        assert (In c ["Close"; "High"; "Low"; "Open"]).
        { apply list_elem_of_In. revert Hin. unfold candle_columns.
          rewrite !elem_of_cons. tauto. }
        specialize (H0 ltac:(assumption)). specialize (H2 ltac:(assumption)).
        apply Nat.eqb_neq in H0. apply Nat.leb_gt in H2. lia. }
      revert Hc. rewrite !elem_of_cons.
      intros [->|[->|[->|[->|[->|H]]]]];
        [apply Hcandle; unfold candle_columns; listed ..|exact EV|inversion H].
    + intros Hall.
      destruct Honce as [Hm Hr].
      { intros c Hc. apply Hall. revert Hc. unfold candle_columns, price_columns.
        rewrite !elem_of_cons. tauto. }
      rewrite Hm, Hr, (Hall "Volume") in Hcases by (unfold price_columns; listed).
      eauto.
  - intros c Hm. rewrite Hm in Hcases. split; [|exact Hcases].
    apply find_some in Hm as [_ Hm]. apply Nat.eqb_eq in Hm. exact Hm.
  - intros Hm c Hc Htwice. destruct (Hrep Hm c Hc Htwice) as [c' Hr].
    rewrite Hm, Hr in Hcases. eexists. split; [exact Hcases|reflexivity].
  - intros Hall. destruct (Honce Hall) as [Hm Hr]. rewrite Hm, Hr in Hcases. split.
    + intros E. rewrite E in Hcases. exact Hcases.
    + intros Htwice.
      destruct (occurrences hist_data "Volume") as [|[|n]]; [lia|lia|].
      eexists. split; [exact Hcases|reflexivity].
  - intros fig Hfig. rewrite Hcases in Hfig.
    destruct (first_missing hist_data candle_columns); [discriminate|].
    destruct (first_repeated hist_data ["Close"; "High"; "Low"; "Open"]);
      [discriminate|].
    destruct (occurrences hist_data "Volume") as [|[|n]]; try discriminate.
    injection Hfig as <-. repeat split.
  - eexists. split; [vm_compute; reflexivity|]. split; reflexivity.
Qed.

(** A history with the opening price twice and no volume: the candlesticks
    are refused before the volume is looked up. *)
Example repeated_column_refused :
  plot_stock_price repeated_open_history "AAPL" = Raise (duplicate_error "Open" 2) /\
  first_missing repeated_open_history price_columns = Some "Volume".
Proof. split; vm_compute; reflexivity. Qed.

Section PriceChart.
Context `{!Runtime}.

(** X8. Nothing guards the price chart: whatever building it raises, the
    KeyError of a missing column or the ValueError of a repeated one, ends
    the analysis right after the header of the chart. What came before
    stays on the page; no chart and none of the later sections follows, and
    the exception leaves the block that shows the data without a message. *)
Theorem price_chart_failure_stops_analysis (w : World) (ticker period : string)
    (hist_data : DataFrame) (financial_data : FinancialData) (e : exn) :
  ticker <> "" ->
  get_stock_data w ticker period = ([], Ok (Some hist_data)) ->
  get_financial_data w ticker = ([], Ok (Some financial_data)) ->
  plot_stock_price hist_data ticker = Raise e ->
  result (before_price_chart ticker financial_data) = Ok tt ->
  render_analysis w ticker hist_data financial_data
    = (log (before_price_chart ticker financial_data), Raise e) /\
  show_data w (Some ticker) period
    = (map (Within (spinner ticker)) (log (before_price_chart ticker financial_data)),
       Raise e).
Proof.
  intros Hne Hhist Hfin Hfail Hbefore.
  assert (Hrender : render_analysis w ticker hist_data financial_data
            = (log (before_price_chart ticker financial_data), Raise e)).
  { unfold render_analysis, before_price_chart in *. rewrite Hfail.
    destruct (company_information (info financial_data)) as [l1 [[]|e1]];
      run; [|discriminate].
    destruct (display_key_metrics (info financial_data)) as [l2 [[]|e2]];
      run; [|discriminate].
    rewrite ?app_nil_r. reflexivity. }
  split; [exact Hrender|].
  unfold show_data, spinner. apply String.eqb_neq in Hne. rewrite Hne.
  cbn [negb]. rewrite Hhist, Hfin. run. rewrite Hrender. reflexivity.
Qed.

(** X9. When the provider rejects the symbol with an exception, both
    fetches fail on it one after the other, and the block that shows the
    data leaves exactly three error lines: the one of the price history, the
    one of the statements, and the request to select a different stock. *)
Theorem provider_failure_three_errors (w : World) (ticker period : string)
    (e : exn) :
  ticker <> "" ->
  Ticker w ticker = Raise e ->
  is_Exception e = true ->
  show_data w (Some ticker) period
    = (map (Within (spinner ticker))
         [ Error ("Error fetching data: " +:+ exn_str e);
           Error ("Error fetching financial data: " +:+ exn_str e);
           Error unable_to_fetch ],
       Ok tt).
Proof.
  intros Hne Hraise Hexn.
  assert (Hhist : get_stock_data w ticker period
            = ([Error ("Error fetching data: " +:+ exn_str e)], Ok None)).
  { rewrite get_stock_data_cases, Hraise. cbn [mbind outcome_bind obind].
    rewrite Hexn. reflexivity. }
  assert (Hfin : get_financial_data w ticker
            = ([Error ("Error fetching financial data: " +:+ exn_str e)], Ok None)).
  { rewrite get_financial_data_cases, Hraise, Hexn. reflexivity. }
  rewrite (show_data_without_history w ticker period Hne);
    rewrite Hhist, ?Hfin; reflexivity.
Qed.

End PriceChart.

(** X8 at [no_volume_world]: the page stops at the header of the price
    chart with [KeyError: 'Volume']. *)
Lemma price_chart_failure_example :
  @show_data example_runtime no_volume_world (Some "AAPL") "1y"
    = (map (Within (spinner "AAPL"))
         (log (@before_price_chart example_runtime "AAPL" example_bundle)),
       key_error "Volume").
Proof.
  exact (proj2 (@price_chart_failure_stops_analysis example_runtime
                  no_volume_world "AAPL" "1y" no_volume_history example_bundle
                  (Exn KeyError "'Volume'")
                  ltac:(discriminate) ltac:(vm_compute; reflexivity)
                  ltac:(vm_compute; reflexivity) ltac:(vm_compute; reflexivity)
                  ltac:(vm_compute; reflexivity))).
Defined.

(** X9 at [no_provider_world]. *)
Lemma provider_failure_example :
  @show_data example_runtime no_provider_world (Some "AAPL") "1y"
    = (map (Within (spinner "AAPL"))
         [ Error "Error fetching data: 404";
           Error "Error fetching financial data: 404";
           Error unable_to_fetch ],
       Ok tt).
Proof.
  exact (@provider_failure_three_errors example_runtime no_provider_world
           "AAPL" "1y" (Exn (OtherError "HTTPError") "404")
           ltac:(discriminate) eq_refl eq_refl).
Defined.

(* ===================================================================== *)
(** ** The key-metrics panel, whatever the metadata holds                 *)
(* ===================================================================== *)

Lemma unless_na_runs (label : string) (v : pyval) (f : pyval -> outcome string) :
  (x ← unless_na v f; emit (Metric label x)) = metric_of label (shown_text v f).
Proof.
  unfold unless_na, shown_text, metric_of. destruct (ne_str v "N/A") eqn:Hv.
  - destruct (f v) as [s|e]; reflexivity.
  - apply ne_str_false in Hv. subst v. reflexivity.
Qed.

Lemma slot_metric_entries (places : list (nat * string)) (texts : list string) :
  map slot (zip_with metric_entry places texts)
    = map Some (take (length texts) places).
Proof.
  revert texts. induction places as [|[i label] places IH]; intros [|s texts];
    try reflexivity.
  cbn [zip_with map length take]. rewrite IH. reflexivity.
Qed.

(** The texts made are the texts up to the first exception, and the making
    ends with that exception. *)
Lemma shown_before_spec (texts : list (outcome string)) :
  (length (shown_before texts) <= length texts)%nat /\
  (forall i, (i < length (shown_before texts))%nat ->
     exists s, texts !! i = Some (Ok s) /\ shown_before texts !! i = Some s) /\
  ((length (shown_before texts) < length texts)%nat ->
     exists e, texts !! length (shown_before texts) = Some (Raise e) /\
               first_failure texts = Raise e) /\
  (first_failure texts = Ok tt <-> length (shown_before texts) = length texts).
Proof.
  induction texts as [|[s|e] rest (IH1 & IH2 & IH3 & IH4)].
  - cbn. split; [lia|]. split; [intros i Hi; lia|]. split; [intros Hi; lia|tauto].
  - cbn [shown_before first_failure length]. split; [lia|]. split; [|split].
    + intros [|i] Hi; [eauto|]. apply IH2. lia.
    + intros Hlt. apply IH3. lia.
    + rewrite IH4. split; [intros ->; reflexivity|intros [=]; assumption].
  - cbn [shown_before first_failure length]. split; [lia|]. split; [|split].
    + intros i Hi. lia.
    + intros _. eauto.
    + split; [discriminate|intros [=]].
Qed.

Section Panel.
Context `{!Runtime}.

(** The panel is its eight blocks in a row, each leaving its text or ending
    the panel. *)
Lemma display_key_metrics_runs (info : gmap string pyval) :
  display_key_metrics info
    = (zip_with metric_entry metric_slots (shown_before (metric_texts info)),
       first_failure (metric_texts info)).
Proof.
  unfold display_key_metrics, metric_texts.
  assert (H1 : market_cap_metric info
            = metric_of "Market Cap"
                (shown_text (dict_get info "marketCap" (PyStr "N/A")) currency0))
    by apply unless_na_runs.
  assert (H2 : pe_ratio_metric info
            = metric_of "P/E Ratio"
                (shown_text (dict_get info "trailingPE" (PyStr "N/A")) ratio))
    by apply unless_na_runs.
  assert (H3 : current_price_metric info
            = metric_of "Current Price"
                (shown_text (dict_get info "currentPrice"
                               (dict_get info "regularMarketPrice" (PyStr "N/A")))
                            currency2))
    by apply unless_na_runs.
  assert (H4 : dividend_yield_metric info
            = metric_of "Dividend Yield"
                (shown_text (dict_get info "dividendYield" (PyStr "N/A")) percent))
    by apply unless_na_runs.
  assert (H6 : book_value_metric info
            = metric_of "Book Value"
                (shown_text (dict_get info "bookValue" (PyStr "N/A")) currency2))
    by apply unless_na_runs.
  assert (H7 : volume_metric info
            = metric_of "Volume"
                (shown_text (dict_get info "volume" (PyStr "N/A")) format_comma))
    by apply unless_na_runs.
  assert (H8 : beta_metric info
            = metric_of "Beta"
                (shown_text (dict_get info "beta" (PyStr "N/A")) ratio))
    by apply unless_na_runs.
  rewrite H1, H2, H3, H4, (day_range_runs info), H6, H7, H8.
  unfold metric_of.
  destruct (shown_text (dict_get info "marketCap" (PyStr "N/A")) currency0);
    [|reflexivity].
  destruct (shown_text (dict_get info "trailingPE" (PyStr "N/A")) ratio);
    [|reflexivity].
  destruct (shown_text (dict_get info "currentPrice" _) currency2); [|reflexivity].
  destruct (shown_text (dict_get info "dividendYield" (PyStr "N/A")) percent);
    [|reflexivity].
  destruct (day_range_text info); [|reflexivity].
  destruct (shown_text (dict_get info "bookValue" (PyStr "N/A")) currency2);
    [|reflexivity].
  destruct (shown_text (dict_get info "volume" (PyStr "N/A")) format_comma);
    [|reflexivity].
  destruct (shown_text (dict_get info "beta" (PyStr "N/A")) ratio); reflexivity.
Qed.

(** X10. Whatever the metadata holds, the key-metrics panel fills its eight
    places in one fixed order, column by column, each with a text: the
    marker for a value that is absent or is the marker, the value in the
    format of the place otherwise. It stops at the first value it cannot
    format, with the exception of that format: every place before it is
    filled with its own text, that place and those after it are not, and the
    panel has filled all eight exactly when it returns. *)
Theorem metrics_fill_places_in_order (info : gmap string pyval) :
  display_key_metrics info
    = (zip_with metric_entry metric_slots (shown_before (metric_texts info)),
       first_failure (metric_texts info)) /\
  exists n,
    n = length (shown_before (metric_texts info)) /\
    map slot (log (display_key_metrics info)) = map Some (take n metric_slots) /\
    (n <= 8)%nat /\
    (forall i, (i < n)%nat ->
       exists s place,
         metric_texts info !! i = Some (Ok s) /\ metric_slots !! i = Some place /\
         log (display_key_metrics info) !! i = Some (metric_entry place s)) /\
    ((n < 8)%nat ->
       exists e, metric_texts info !! n = Some (Raise e) /\
                 result (display_key_metrics info) = Raise e) /\
    (result (display_key_metrics info) = Ok tt <-> n = 8%nat).
Proof.
  split; [apply display_key_metrics_runs|].
  rewrite display_key_metrics_runs. cbn [log result fst snd].
  destruct (shown_before_spec (metric_texts info)) as (Hle & Hbefore & Hfail & Hok).
  change (length (metric_texts info)) with 8%nat in *.
  exists (length (shown_before (metric_texts info))).
  split; [reflexivity|]. split; [apply slot_metric_entries|]. split; [exact Hle|].
  split; [|split; [exact Hfail|exact Hok]].
  intros i Hi. destruct (Hbefore i Hi) as (s & Htext & Hshown).
  destruct (lookup_lt_is_Some_2 metric_slots i) as [place Hplace];
    [change (length metric_slots) with 8%nat; lia|].
  exists s, place. split; [exact Htext|]. split; [exact Hplace|].
  rewrite lookup_zip_with, Hplace, Hshown. reflexivity.
Qed.

End Panel.

(** X10 at [malformed_info]: the market capitalisation is shown, the P/E
    ratio is [None], and the panel stops there. *)
Example metrics_stop_at_null_ratio :
  shown_before (@metric_texts example_runtime malformed_info) = ["$1,000"] /\
  @display_key_metrics example_runtime malformed_info
    = ([Within (Column 1) (Metric "Market Cap" (PyStr "$1,000"))],
       Raise (Exn TypeError
                "unsupported format string passed to NoneType.__format__")).
Proof. split; vm_compute; reflexivity. Qed.

(* ===================================================================== *)
(** ** Company information                                                *)
(* ===================================================================== *)

Section Company.
Context `{!Runtime}.

(** The company information block, by what the employees line gives. *)
Lemma company_information_cases (info : gmap string pyval) :
  company_information info =
    match (if truthy (dict_get info "fullTimeEmployees" PyNone)
           then format_comma (dict_get info "fullTimeEmployees" (PyStr "N/A"))
           else Ok "N/A") with
    | Ok employees =>
        (company_left info ++ company_right employees info
           ++ company_description info, Ok tt)%list
    | Raise e => (company_left info, Raise e)
    end.
Proof.
  unfold company_information, company_left, company_right, company_description,
    prefixed.
  destruct (truthy (dict_get info "fullTimeEmployees" PyNone)).
  - destruct (format_comma (dict_get info "fullTimeEmployees" (PyStr "N/A")))
      as [s|e]; run; [|reflexivity].
    destruct (info !! "longBusinessSummary"); reflexivity.
  - run. destruct (info !! "longBusinessSummary"); reflexivity.
Qed.

(** X11. The employees line of the company information. A count that is
    absent, [None], zero or the empty text is shown as N/A; a count that is
    a whole number other than zero is shown with thousands separators; both
    ways the block returns with its seven lines, followed by the description
    exactly when the metadata has the key for it. A count held as a text
    that is not empty is not guarded: the block stops with a ValueError
    after its left column, and shows nothing of the right column. *)
Theorem employees_line_or_value_error (info : gmap string pyval) :
  (truthy (dict_get info "fullTimeEmployees" PyNone) = false ->
     company_information info
       = (company_left info ++ company_right "N/A" info
            ++ company_description info, Ok tt)%list) /\
  (forall z, info !! "fullTimeEmployees" = Some (PyInt z) -> z <> 0 ->
     company_information info
       = (company_left info
            ++ company_right (sign_str (z <? 0) +:+ group3 (dec (Z.abs_N z))) info
            ++ company_description info, Ok tt)%list) /\
  (forall s, info !! "fullTimeEmployees" = Some (PyStr s) -> s <> "" ->
     company_information info
       = (company_left info, Raise (Exn ValueError "Cannot specify ',' with 's'."))) /\
  (forall v, v ∈ [PyNone; PyInt 0; PyStr ""; PyBool false] ->
     truthy (dict_get (<["fullTimeEmployees" := v]> info) "fullTimeEmployees" PyNone)
       = false) /\
  (info !! "fullTimeEmployees" = None ->
     truthy (dict_get info "fullTimeEmployees" PyNone) = false) /\
  (company_description info = [] <-> info !! "longBusinessSummary" = None).
Proof.
  pose proof (company_information_cases info) as Hci.
  split; [|split; [|split; [|split; [|split]]]].
  - intros Hf. rewrite Hf in Hci. exact Hci.
  - intros z Hz Hne.
    assert (Hget : forall d, dict_get info "fullTimeEmployees" d = PyInt z)
      by (intros d; unfold dict_get; rewrite Hz; reflexivity).
    rewrite !Hget in Hci. change (truthy (PyInt z)) with (negb (z =? 0)) in Hci.
    apply Z.eqb_neq in Hne. rewrite Hne in Hci. exact Hci.
  - intros s Hs Hne.
    assert (Hget : forall d, dict_get info "fullTimeEmployees" d = PyStr s)
      by (intros d; unfold dict_get; rewrite Hs; reflexivity).
    rewrite !Hget in Hci. change (truthy (PyStr s)) with (negb (String.eqb s "")) in Hci.
    apply String.eqb_neq in Hne. rewrite Hne in Hci. exact Hci.
  - intros v Hv. unfold dict_get. rewrite lookup_insert_eq.
    change (default PyNone (Some v)) with v.
    repeat (apply elem_of_cons in Hv as [->|Hv]; [reflexivity|]).
    inversion Hv.
  - intros Hnone. unfold dict_get. rewrite Hnone. reflexivity.
  - unfold company_description.
    destruct (info !! "longBusinessSummary"); split; congruence.
Qed.

End Company.

(** X11 at [staffed_info]: 161,000 employees, and the heading of a
    description that is empty. *)
Example company_information_staffed :
  @company_information example_runtime staffed_info
    = ([ section_header (icon_office +:+ " Company Information");
         Within (Column 1) (Write "**Company Name:** N/A");
         Within (Column 1) (Write "**Sector:** N/A");
         Within (Column 1) (Write "**Industry:** N/A");
         Within (Column 1) (Write "**Country:** N/A");
         Within (Column 2) (Write "**Employees:** 161,000");
         Within (Column 2) (Write "**Website:** N/A");
         Within (Column 2) (Write "**Founded:** N/A");
         Write "**Company Description:**";
         WriteValue (PyStr "") ], Ok tt).
Proof. vm_compute. reflexivity. Qed.

(* ===================================================================== *)
(** ** A selection, written to the URL, read back by the next run         *)
(* ===================================================================== *)

Lemma period_name_of_code (name code : string) :
  dict_getitem period_options (Some name) = Ok code -> name ∈ period_names.
Proof.
  unfold period_names, period_options. cbn [dict_getitem map fst].
  repeat match goal with
         | |- context [String.eqb ?a name] => destruct (String.eqb_spec a name) as [<-|?]
         end; try discriminate; intros _; rewrite !elem_of_cons; auto 10.
Qed.

Section Rerun.
Context `{!Runtime}.

(** X12. The two callbacks and the next run of the page fit together. With
    a ticker of the universe and one of the six period names picked in the
    selectors, the callbacks leave a URL from which the next run computes
    the selector positions of exactly that ticker and that period, and it
    is this pair that the page goes on to show. *)
Theorem selection_survives_rerun (w : World) (SP500_TICKERS : list string)
    (sel name code : string) (params : gmap string string) :
  session_state w !! "ticker_selectbox" = Some sel ->
  sel ∈ SP500_TICKERS ->
  session_state w !! "period_selectbox" = Some name ->
  dict_getitem period_options (Some name) = Ok code ->
  query_params w = Ok params ->
  exists w1 w2 it ip,
    update_ticker_in_url w = (w1, Ok tt) /\
    update_period_in_url w1 = (w2, Ok tt) /\
    get_query_params w2 = ([], Ok (sel, code)) /\
    SP500_TICKERS !! it = Some sel /\
    period_names !! ip = Some name /\ period_codes !! ip = Some code /\
    main w2 SP500_TICKERS
      = (page_top ++ sidebar_entries SP500_TICKERS it ip (Some sel) code
         ++ log (show_data w2 (Some sel) code;; emit (Markdown "---")),
         result (show_data w2 (Some sel) code;; emit (Markdown "---")))%list.
Proof.
  intros Hsel Hin Hname Hcode Hq.
  pose proof (update_ticker_in_url_cases w) as H1. rewrite Hsel, Hq in H1.
  set (w1 := with_query_params w
               (<["period" := default "1y" (params !! "period")]>
                  (<["ticker" := sel]> params))) in *.
  pose proof (update_period_in_url_cases w1) as H2.
  cbn [w1 with_query_params session_state query_params] in H2.
  rewrite Hname, Hcode in H2.
  rewrite lookup_insert_ne in H2 by discriminate.
  rewrite lookup_insert_eq in H2. cbn [default] in H2.
  change (default "GOOGL" (Some sel)) with sel in H2.
  set (w2 := with_query_params w1 _) in H2.
  assert (Hget : get_query_params w2 = ([], Ok (sel, code))).
  { rewrite get_query_params_cases. cbn [w2 with_query_params query_params].
    rewrite lookup_insert_ne by discriminate.
    rewrite !lookup_insert_eq. reflexivity. }
  assert (Hval : validate_ticker SP500_TICKERS sel = sel).
  { unfold validate_ticker. case_bool_decide; [reflexivity|contradiction]. }
  destruct (main_opening w2 SP500_TICKERS sel code Hget) as (s & c & Hside & Hmain).
  rewrite Hval in Hside, Hmain.
  destruct (sidebar_run w2 SP500_TICKERS sel code)
    as (s' & name' & c' & Hside' & Hs & Hn & Hcodes).
  rewrite Hside in Hside'. apply (f_equal snd) in Hside'. cbn [snd] in Hside'.
  injection Hside' as <- <-.
  pose proof (period_name_of_code name code Hcode) as Hmem.
  destruct (period_code_of_name name Hmem) as (code' & Hcode' & Hpos).
  rewrite Hcode in Hcode'. injection Hcode' as <-.
  destruct (ticker_index_spec SP500_TICKERS sel) as (_ & Hidx & _).
  unfold chosen in Hs, Hn.
  cbn [w2 w1 with_query_params session_state] in Hs, Hn.
  rewrite Hsel in Hs. rewrite Hname in Hn.
  rewrite bool_decide_eq_true_2 in Hs by exact Hin.
  rewrite bool_decide_eq_true_2 in Hn by exact Hmem.
  injection Hn as <-. subst s.
  apply list_elem_of_lookup_1 in Hmem as [i Hi].
  pose proof (Hcodes i Hi) as Hc1. pose proof (Hpos i Hi) as Hc2.
  rewrite Hc1 in Hc2. injection Hc2 as ->.
  destruct (period_index_spec code) as (_ & Hpidx & _).
  assert (Hcin : code ∈ period_codes) by (eapply list_elem_of_lookup_2; exact Hc1).
  exists w1, w2, (ticker_index SP500_TICKERS sel), (period_index code).
  split; [exact H1|]. split; [exact H2|]. split; [exact Hget|].
  split; [auto|]. split; [|split; [auto|exact Hmain]].
  (* the names and the codes are in the same order, without repetition *)
  clear -Hi Hc1 Hpidx Hcin. specialize (Hpidx Hcin).
  revert Hi Hc1 Hpidx. generalize (period_index code). intros ip.
  unfold period_names, period_codes, period_options. cbn [map fst snd].
  destruct i as [|[|[|[|[|[|i]]]]]]; cbn; intros [= <-] [= <-];
    destruct ip as [|[|[|[|[|[|ip]]]]]]; cbn; intros [=]; reflexivity.
Qed.

End Rerun.

(** X12 at [picked_world]: [MSFT] and [3 Months] were picked on a page whose
    URL asked for [ZZZZ]. *)
Lemma selection_survives_example :
  exists w1 w2 it ip,
    update_ticker_in_url picked_world = (w1, Ok tt) /\
    update_period_in_url w1 = (w2, Ok tt) /\
    get_query_params w2 = ([], Ok ("MSFT", "3mo")) /\
    fallback_tickers !! it = Some "MSFT" /\
    period_names !! ip = Some "3 Months" /\ period_codes !! ip = Some "3mo" /\
    @main example_runtime w2 fallback_tickers
      = (page_top ++ sidebar_entries fallback_tickers it ip (Some "MSFT") "3mo"
         ++ log (@show_data example_runtime w2 (Some "MSFT") "3mo";;
                 emit (Markdown "---")),
         result (@show_data example_runtime w2 (Some "MSFT") "3mo";;
                 emit (Markdown "---")))%list.
Proof.
  apply (@selection_survives_rerun example_runtime picked_world fallback_tickers
           "MSFT" "3 Months" "3mo" (<["ticker" := "ZZZZ"]> ∅)).
  - vm_compute; reflexivity.
  - apply list_elem_of_In. vm_compute. auto.
  - vm_compute; reflexivity.
  - vm_compute; reflexivity.
  - reflexivity.
Defined.

(* ===================================================================== *)
(** ** Whole numbers in the key metrics                                   *)
(* ===================================================================== *)

Lemma dec_nonempty (n : N) : (0 < String.length (dec n))%nat.
Proof.
  unfold dec. destruct n as [|p]; [simpl; lia|].
  pose proof (DecimalPos.Unsigned.to_uint_nonnil p) as Hnil.
  cbn [N.to_uint]. destruct (Pos.to_uint p); [contradiction|simpl; lia ..].
Qed.

Lemma substring_all (s : string) : substring 0 (String.length s) s = s.
Proof. induction s as [|c s IH]; simpl; [reflexivity|]. rewrite IH. reflexivity. Qed.

Lemma append_empty_r (s : string) : s +:+ "" = s.
Proof.
  induction s as [|c s IH]; [reflexivity|].
  change (String c s +:+ "") with (String c (s +:+ "")). rewrite IH. reflexivity.
Qed.

(** With no digit after the point, the fixed-point notation of a whole
    number is its decimal notation with the separators. *)
Lemma fixed_point_whole (n : N) : fixed_point true 0 n = group3 (dec n).
Proof.
  unfold fixed_point. pose proof (dec_nonempty n) as Hlen.
  replace (1 - String.length (dec n))%nat with O by lia.
  cbn [zeros]. change ("" +:+ dec n) with (dec n).
  rewrite Nat.sub_0_r, substring_all. cbn [Nat.eqb]. apply append_empty_r.
Qed.

Lemma format_whole `{!Runtime} (z : Z) :
  Z.abs z < 2 ^ 53 -> format_f true 0 (PyInt z) = format_comma (PyInt z).
Proof.
  intros Hz. unfold format_f, format_comma, float_of_int.
  destruct (Z.eqb_spec z 0) as [->|Hne]; [vm_compute; reflexivity|].
  assert (Hbits : (Z.log2 (Z.abs z) + 1 <=? prec) = true).
  { apply Z.leb_le. unfold prec.
    assert (Z.log2 (Z.abs z) < 53) by (apply Z.log2_lt_pow2; lia). lia. }
  cbv zeta. rewrite Hbits. cbn [obind float_fixed]. rewrite fixed_point_whole.
  do 3 f_equal. unfold scaled. cbn [Z.leb Z.compare Z.of_nat].
  rewrite Z.pow_0_r, !Z.mul_1_r. rewrite Z2Pos.id by lia.
  destruct z; reflexivity.
Qed.

(** X13. A market capitalisation that is a whole number below 2^53 in
    absolute value is shown exactly: although the panel formats it as a
    float, it shows, after the dollar sign, the same digits and separators
    that the volume, formatted as an integer, shows for that number. *)
Theorem whole_market_cap_is_exact `{!Runtime} (info : gmap string pyval) (z : Z) :
  Z.abs z < 2 ^ 53 ->
  info !! "marketCap" = Some (PyInt z) ->
  info !! "volume" = Some (PyInt z) ->
  exists s,
    s = sign_str (z <? 0) +:+ group3 (dec (Z.abs_N z)) /\
    volume_metric info = ([Metric "Volume" (PyStr s)], Ok tt) /\
    market_cap_metric info = ([Metric "Market Cap" (PyStr ("$" +:+ s))], Ok tt).
Proof.
  intros Hz Hcap Hvol. eexists. split; [reflexivity|].
  unfold volume_metric, market_cap_metric, dict_get, unless_na, prefixed.
  rewrite Hcap, Hvol. cbv zeta.
  change (default (PyStr "N/A") (Some (PyInt z))) with (PyInt z).
  cbn [ne_str]. rewrite (format_whole z Hz). split; reflexivity.
Qed.

(** X13 at 2,851,234,567,891. *)
Lemma whole_market_cap_example :
  exists s,
    s = "2,851,234,567,891" /\
    @volume_metric example_runtime
        (<["marketCap" := PyInt 2851234567891]> (<["volume" := PyInt 2851234567891]> ∅))
      = ([Metric "Volume" (PyStr s)], Ok tt) /\
    market_cap_metric
        (<["marketCap" := PyInt 2851234567891]> (<["volume" := PyInt 2851234567891]> ∅))
      = ([Metric "Market Cap" (PyStr ("$" +:+ s))], Ok tt).
Proof.
  exact (@whole_market_cap_is_exact example_runtime
           (<["marketCap" := PyInt 2851234567891]> (<["volume" := PyInt 2851234567891]> ∅))
           2851234567891 ltac:(vm_compute; reflexivity)
           ltac:(vm_compute; reflexivity) ltac:(vm_compute; reflexivity)).
Defined.

(** The bound is the best possible: 2^53 + 1 is not a float, and the market
    capitalisation shows its neighbour. *)
Example market_cap_rounds_from_2_53 :
  market_cap_metric (<["marketCap" := PyInt (2 ^ 53 + 1)]> ∅)
    = ([Metric "Market Cap" (PyStr "$9,007,199,254,740,992")], Ok tt) /\
  @volume_metric example_runtime (<["volume" := PyInt (2 ^ 53 + 1)]> ∅)
    = ([Metric "Volume" (PyStr "9,007,199,254,740,993")], Ok tt).
Proof. split; vm_compute; reflexivity. Qed.

(* ===================================================================== *)
(** ** The bars of the financial chart                                    *)
(* ===================================================================== *)

Lemma positions_spec (label : string) (labels : list string) (k n : nat) :
  n ∈ positions label labels k <->
  exists i, n = (k + i)%nat /\ labels !! i = Some label.
Proof.
  revert k. induction labels as [|l rest IH]; intros k; cbn [positions].
  - split; [intros H; inversion H | intros (i & _ & Hi); discriminate].
  - assert (Hrest : (exists i, n = (S k + i)%nat /\ rest !! i = Some label) <->
                    (exists i, n = (k + S i)%nat /\ (l :: rest) !! S i = Some label)).
    { split; intros (i & -> & Hi); exists i; (split; [lia|exact Hi]). }
    destruct (String.eqb_spec l label) as [->|Hne].
    + rewrite elem_of_cons, IH, Hrest. split.
      * intros [->|(i & -> & Hi)]; [exists O; split; [lia|reflexivity]|eauto].
      * intros ([|i] & -> & Hi); [left; lia|right; eauto].
    + rewrite IH, Hrest. split.
      * intros (i & -> & Hi). eauto.
      * intros ([|i] & -> & Hi); [|eauto]. injection Hi as ->. contradiction.
Qed.

Lemma positions_unique (label : string) (labels : list string) (k i : nat) :
  labels !! i = Some label ->
  (forall j, labels !! j = Some label -> j = i) ->
  positions label labels k = [(k + i)%nat].
Proof.
  revert k i. induction labels as [|l rest IH]; intros k i Hi Huniq; [discriminate|].
  cbn [positions]. destruct i as [|i].
  - injection Hi as ->. rewrite String.eqb_refl.
    replace (positions label rest (S k)) with (@nil nat); [f_equal; lia|].
    symmetry. apply positions_nil. intros Hin.
    apply list_elem_of_lookup_1 in Hin as [j Hj].
    specialize (Huniq (S j) Hj). discriminate.
  - destruct (String.eqb_spec l label) as [->|Hne].
    + specialize (Huniq O eq_refl). discriminate.
    + rewrite (IH (S k) i Hi); [f_equal; lia|].
      intros j Hj. specialize (Huniq (S j) Hj). lia.
Qed.

Lemma positions_repeated (label : string) (labels : list string) (i j : nat) :
  i <> j -> labels !! i = Some label -> labels !! j = Some label ->
  exists p q ps, positions label labels 0 = p :: q :: ps.
Proof.
  intros Hij Hi Hj.
  assert (Pi : i ∈ positions label labels 0) by (apply positions_spec; eauto).
  assert (Pj : j ∈ positions label labels 0) by (apply positions_spec; eauto).
  destruct (positions label labels 0) as [|p [|q ps]]; [inversion Pi| |eauto].
  apply list_elem_of_singleton in Pi, Pj. congruence.
Qed.

(** X14. What a bar of the financial chart is made of. When the row label
    occurs once in the statement, the bar runs over the columns of the
    statement (the reporting dates) and its heights are the cells of that
    row. When the label occurs more than once, the rows found are a table:
    the bar is still added, over the label itself repeated once per row
    found, with a two-dimensional array for its heights. Without the label
    the figure is returned as it was. *)
Theorem bar_is_row_over_columns (fig : Figure) (stmt : DataFrame)
    (label name : string) (r c : nat) :
  (forall i row,
     index stmt !! i = Some label ->
     (forall j, index stmt !! j = Some label -> j = i) ->
     values stmt !! i = Some row ->
     add_line_item fig (Some stmt) label name r c
       = Ok (add_trace fig (Bar (columns stmt) (Arr1 row) name None) r c)) /\
  (forall i j,
     i <> j -> index stmt !! i = Some label -> index stmt !! j = Some label ->
     exists x rows,
       add_line_item fig (Some stmt) label name r c
         = Ok (add_trace fig (Bar x (Arr2 rows) name None) r c) /\
       Forall (eq label) x /\ (2 <= length x)%nat /\ length rows = length x) /\
  (label ∉ index stmt -> add_line_item fig (Some stmt) label name r c = Ok fig).
Proof.
  rewrite add_line_item_traces. unfold line_item, loc.
  split; [|split].
  - intros i row Hi Huniq Hrow.
    rewrite (positions_unique label (index stmt) 0 i Hi Huniq). cbn [Nat.add].
    rewrite (nth_lookup_Some _ _ _ _ Hrow). reflexivity.
  - intros i j Hij Hi Hj.
    destruct (positions_repeated label (index stmt) i j Hij Hi Hj)
      as (p & q & ps & ->).
    eexists _, _. split; [reflexivity|]. cbn [sel_index sel_values index values].
    split; [|split].
    + apply Forall_forall. intros x Hx. apply list_elem_of_In in Hx.
      apply in_map_iff in Hx as (? & <- & _). reflexivity.
    + cbn [map length]. lia.
    + rewrite !length_map. reflexivity.
  - intros Hout. apply positions_nil with (i := O) in Hout. rewrite Hout. reflexivity.
Qed.

(* ===================================================================== *)
(** ** The eight places of the statement tables                           *)
(* ===================================================================== *)

Lemma fillings_app (l l' : list entry) :
  fillings (l ++ l') = (fillings l ++ fillings l')%list.
Proof.
  induction l as [|e l IH]; [reflexivity|].
  destruct e; simpl; rewrite ?IH; reflexivity.
Qed.

Lemma safe_display_filling (w : World) (data : option DataFrame)
    (title warning_msg : string) :
  (forall df e, st_dataframe w df = Raise e -> is_Exception e = true) ->
  exists l, safe_display_dataframe w data title warning_msg = (l, Ok tt) /\
            fillings l = [filling_of w (data, title, warning_msg)].
Proof.
  intros Hexc. pose proof (safe_display_cases w data title warning_msg) as H.
  unfold filling_of.
  destruct data as [df|]; [|eauto].
  destruct (empty df); [eauto|].
  destruct (st_dataframe w df) as [[]|e] eqn:Hr; [eauto|].
  rewrite (Hexc df e Hr) in H. eauto.
Qed.

(** X15. The page has eight places for statement tables, and each is
    filled exactly once, in the order annual financials, income statement,
    balance sheet, cash flow and then the same four quarterly: by the
    statement of that place when it has cells and renders, by the message of
    that place when it is missing or empty, and by the notice that it cannot
    be displayed when rendering raises an exception. No failure of one table
    moves or removes another. *)
Theorem eight_places_filled_in_order (w : World) (financial_data : FinancialData) :
  (forall df e, st_dataframe w df = Raise e -> is_Exception e = true) ->
  result (display_all_financial_data w financial_data) = Ok tt /\
  fillings (log (display_all_financial_data w financial_data))
    = map (filling_of w) (page_tables financial_data).
Proof.
  intros Hexc. unfold display_all_financial_data, page_tables.
  destruct (safe_display_filling w (financials financial_data)
    "Annual Financials" "No annual financial data available." Hexc)
    as (l1 & -> & S1).
  destruct (safe_display_filling w (income_stmt financial_data)
    "Annual Income Statement" "No Annual Income Statement data available." Hexc)
    as (l2 & -> & S2).
  destruct (safe_display_filling w (balance_sheet financial_data)
    "Annual Balance Sheet" "No Annual Balance Sheet data available." Hexc)
    as (l3 & -> & S3).
  destruct (safe_display_filling w (cash_flow financial_data)
    "Annual Cash Flow" "No Annual Cash Flow data available." Hexc)
    as (l4 & -> & S4).
  destruct (safe_display_filling w (quarterly_financials financial_data)
    "Quarterly Financials" "No quarterly financial data available." Hexc)
    as (l5 & -> & S5).
  destruct (safe_display_filling w (quarterly_income_stmt financial_data)
    "Quarterly Income Statement" "No Quarterly Income Statement data available." Hexc)
    as (l6 & -> & S6).
  destruct (safe_display_filling w (quarterly_balance_sheet financial_data)
    "Quarterly Balance Sheet" "No Quarterly Balance Sheet data available." Hexc)
    as (l7 & -> & S7).
  destruct (safe_display_filling w (quarterly_cash_flow financial_data)
    "Quarterly Cash Flow" "No Quarterly Cash Flow data available." Hexc)
    as (l8 & -> & S8).
  run. split; [reflexivity|].
  unfold section_header.
  repeat (cbn [fillings]; rewrite ?fillings_app).
  rewrite S1, S2, S3, S4, S5, S6, S7, S8. reflexivity.
Qed.

(** X15 on a page where no table can be rendered: the four statements with
    cells give the notice, the others their own message. *)
Lemma eight_places_example :
  result (display_all_financial_data broken_tables_world example_bundle) = Ok tt /\
  fillings (log (display_all_financial_data broken_tables_world example_bundle))
    = [ Placeholder "Unable to display Annual Financials data.";
        Placeholder "Unable to display Annual Income Statement data.";
        Placeholder "No Annual Balance Sheet data available.";
        Placeholder "Unable to display Annual Cash Flow data.";
        Placeholder "No quarterly financial data available.";
        Placeholder "No Quarterly Income Statement data available.";
        Placeholder "Unable to display Quarterly Balance Sheet data.";
        Placeholder "Unable to display Quarterly Cash Flow data." ].
Proof.
  apply (eight_places_filled_in_order broken_tables_world example_bundle).
  intros df e [= <-]. reflexivity.
Defined.

(* ===================================================================== *)
(** ** The marker as a value                                              *)
(* ===================================================================== *)

Lemma dict_get_marker (info : gmap string pyval) (k key : string) :
  dict_get (<[k := PyStr "N/A"]> info) key (PyStr "N/A")
    = dict_get (delete k info) key (PyStr "N/A").
Proof.
  unfold dict_get. destruct (decide (k = key)) as [->|Hne].
  - rewrite lookup_insert_eq, lookup_delete_eq. reflexivity.
  - rewrite lookup_insert_ne, lookup_delete_ne by exact Hne. reflexivity.
Qed.

Lemma dict_get_agree (info info' : gmap string pyval) (key : string) (d : pyval) :
  info !! key = info' !! key -> dict_get info key d = dict_get info' key d.
Proof. unfold dict_get. intros ->. reflexivity. Qed.

Section Marker.
Context `{!Runtime}.

(** The panel reads the metadata through ten keys only. *)
Lemma display_key_metrics_reads (info info' : gmap string pyval) :
  (forall k, k ∈ metric_keys -> info !! k = info' !! k) ->
  display_key_metrics info = display_key_metrics info'.
Proof.
  intros Hsame.
  assert (Hget : forall key d, key ∈ metric_keys ->
            dict_get info key d = dict_get info' key d).
  { intros key d Hkey. apply dict_get_agree, Hsame, Hkey. }
  unfold display_key_metrics, market_cap_metric, pe_ratio_metric,
    current_price_metric, dividend_yield_metric, day_range_metric,
    book_value_metric, volume_metric, beta_metric.
  cbv zeta.
  rewrite !(Hget "marketCap"), !(Hget "trailingPE"), !(Hget "regularMarketPrice"),
    !(Hget "currentPrice"), !(Hget "dividendYield"), !(Hget "dayHigh"),
    !(Hget "dayLow"), !(Hget "bookValue"), !(Hget "volume"), !(Hget "beta")
    by (unfold metric_keys; rewrite !elem_of_cons; auto 12).
  reflexivity.
Qed.

(** X16. The key-metrics panel reads ten keys of the metadata and nothing
    else of it: two mappings that agree on them give the same panel. And it
    cannot tell a field that holds the text N/A from a field that is absent:
    for every key other than [currentPrice], storing that text under the key
    gives the same panel as removing the key. For [currentPrice] it does
    not, since an absent current price falls back to the regular market
    price and one that holds the text does not. *)
Theorem marker_value_reads_as_absent (info : gmap string pyval) :
  (forall info',
     (forall k, k ∈ metric_keys -> info !! k = info' !! k) ->
     display_key_metrics info = display_key_metrics info') /\
  (forall k, k <> "currentPrice" ->
     display_key_metrics (<[k := PyStr "N/A"]> info)
       = display_key_metrics (delete k info)) /\
  (forall v s, format_f false 2 v = Ok s -> ne_str v "N/A" = true ->
     info !! "regularMarketPrice" = Some v ->
     current_price_metric (<["currentPrice" := PyStr "N/A"]> info)
       = ([Metric "Current Price" (PyStr "N/A")], Ok tt) /\
     current_price_metric (delete "currentPrice" info)
       = ([Metric "Current Price" (PyStr ("$" +:+ s))], Ok tt)).
Proof.
  split; [exact (display_key_metrics_reads info)|]. split.
  - intros k Hk.
    unfold display_key_metrics, market_cap_metric, pe_ratio_metric,
      current_price_metric, dividend_yield_metric, day_range_metric,
      book_value_metric, volume_metric, beta_metric.
    cbv zeta. rewrite !dict_get_marker.
    rewrite (dict_get_agree (<[k := PyStr "N/A"]> info) (delete k info) "currentPrice");
      [reflexivity|].
    rewrite lookup_insert_ne, lookup_delete_ne by exact Hk. reflexivity.
  - intros v s Hs Hv Hreg. unfold current_price_metric, dict_get. cbv zeta.
    rewrite lookup_insert_eq, lookup_delete_eq.
    rewrite lookup_delete_ne by discriminate. rewrite Hreg.
    change (default (PyStr "N/A") (Some v)) with v.
    split; [reflexivity|].
    change (default v None) with v.
    unfold unless_na, prefixed. rewrite Hv, Hs. reflexivity.
Qed.

End Marker.

(* ===================================================================== *)
(** ** The frame of the page                                              *)
(* ===================================================================== *)

Section Frame.
Context `{!Runtime}.

(** X17. A run of the script asks for the listing only when the cache does
    not hold it: the first run sends the one request and takes the universe
    it gives, a run that finds the listing in the cache sends none and takes
    the universe stored. Either way, and whatever the URL and the provider
    do, the page then opens with the two banners and the sidebar with both
    selectors over that universe, and the run ends as the block of [main]
    that shows the data ends: it returns exactly when that block returns,
    with the footer as the last entry, and it raises what that block
    raises, without the footer. *)
Theorem page_frame (w : World) (stored : option (list string)) :
  (forall e, query_params w = Raise e -> is_Exception e = true) ->
  exists SP500_TICKERS it ip sel code,
    match stored with
    | Some cached => SP500_TICKERS = cached
    | None => get_sp500_tickers w = ([Download wikipedia_url], Ok SP500_TICKERS)
    end /\
    (it = O \/ (it < length SP500_TICKERS)%nat) /\ (ip < 6)%nat /\
    log (cached_script stored w)
      = (match stored with
         | Some _ => []
         | None => [Download wikipedia_url]
         end
         ++ page_top
         ++ sidebar_entries SP500_TICKERS it ip sel code
         ++ log (show_data w sel code)
         ++ match result (show_data w sel code) with
            | Ok _ => [Markdown "---"]
            | Raise _ => []
            end)%list /\
    result (cached_script stored w) = result (show_data w sel code) /\
    cached_script None w = script w.
Proof.
  intros Hq.
  assert (HU : exists U,
            cache_data stored (get_sp500_tickers w)
              = (match stored with
                 | Some _ => []
                 | None => [Download wikipedia_url]
                 end, Ok U) /\
            match stored with
            | Some cached => U = cached
            | None => get_sp500_tickers w = ([Download wikipedia_url], Ok U)
            end).
  { destruct stored as [cached|]; [exists cached; split; reflexivity|].
    destruct (get_sp500_tickers_cases w) as (U & HU & _). exists U. auto. }
  destruct HU as (U & Hrun & HU).
  assert (Hget : exists t p, get_query_params w = ([], Ok (t, p))).
  { rewrite get_query_params_cases.
    destruct (query_params w) as [params|e] eqn:Hp; [eauto|].
    rewrite (Hq e eq_refl). eauto. }
  destruct Hget as (t & p & Hget).
  destruct (main_opening w U t p Hget) as (sel & code & Hside & Hmain).
  destruct (ticker_index_spec U (validate_ticker U t)) as (_ & Hin & Hout).
  destruct (period_index_spec p) as (Hlt & _).
  exists U, (ticker_index U (validate_ticker U t)), (period_index p), sel, code.
  split; [exact HU|]. split; [|split; [exact Hlt|]].
  { destruct (decide (validate_ticker U t ∈ U)) as [Hm|Hm]; [right|left; auto].
    eapply lookup_lt_Some. apply Hin. exact Hm. }
  unfold cached_script. rewrite Hrun. run. rewrite Hmain. run.
  destruct (show_data w sel code) as [l [[]|e]]; run; rewrite ?app_nil_r;
    (split; [|split]); try reflexivity;
    destruct stored; reflexivity.
Qed.

End Frame.

(** X17 at [example_world], on a first run and on a run that finds the
    listing [remote_universe] in the cache. *)
Lemma page_frame_example :
  (exists SP500_TICKERS it ip sel code,
     get_sp500_tickers example_world = ([Download wikipedia_url], Ok SP500_TICKERS) /\
     (it = O \/ (it < length SP500_TICKERS)%nat) /\ (ip < 6)%nat /\
     log (@cached_script example_runtime None example_world)
       = ([Download wikipedia_url]
          ++ page_top
          ++ sidebar_entries SP500_TICKERS it ip sel code
          ++ log (@show_data example_runtime example_world sel code)
          ++ match result (@show_data example_runtime example_world sel code) with
             | Ok _ => [Markdown "---"]
             | Raise _ => []
             end)%list /\
     result (@cached_script example_runtime None example_world)
       = result (@show_data example_runtime example_world sel code) /\
     @cached_script example_runtime None example_world
       = @script example_runtime example_world) /\
  (exists SP500_TICKERS it ip sel code,
     SP500_TICKERS = remote_universe /\
     (it = O \/ (it < length SP500_TICKERS)%nat) /\ (ip < 6)%nat /\
     log (@cached_script example_runtime (Some remote_universe) example_world)
       = ([]
          ++ page_top
          ++ sidebar_entries SP500_TICKERS it ip sel code
          ++ log (@show_data example_runtime example_world sel code)
          ++ match result (@show_data example_runtime example_world sel code) with
             | Ok _ => [Markdown "---"]
             | Raise _ => []
             end)%list /\
     result (@cached_script example_runtime (Some remote_universe) example_world)
       = result (@show_data example_runtime example_world sel code) /\
     @cached_script example_runtime None example_world
       = @script example_runtime example_world).
Proof.
  split.
  - apply (@page_frame example_runtime example_world None). intros e [=].
  - apply (@page_frame example_runtime example_world (Some remote_universe)).
    intros e [=].
Defined.
